(** * Whiteboard: scene store, geometry kernel, viewport, dirty rectangles
      and the selection/transform engine.

    A shallow embedding of
      - src/stores/whiteboardStore.ts   (module [Store])
      - src/lib/canvas-utils.ts         (module [CanvasUtils])
      - src/utils/geometry.ts           (module [Geometry])
      - src/lib/dirty-rect.ts           (module [DirtyRect])
      - src/tools/SelectTool.ts         (module [SelectTool])
    followed by the properties proved about them. *)

From Stdlib Require Import QArith Qround Qabs Qminmax Lqa Lia.
From stdpp Require Import gmap strings list fin_maps.

(** ** JavaScript numbers

    A JS [number] is an IEEE-754 double.  The model keeps the three
    non-finite values apart and computes the finite ones exactly, over
    the rationals: rounding, overflow to an infinity and the sign of zero
    are abstracted away (a division of a non-zero number by zero yields
    the infinity of the dividend's sign, as it does for [+0]). *)
Module JsNum.

Inductive num : Type :=
| Fin (q : Q)
| PInf
| NInf
| NaN.

Definition Qlt_bool (a b : Q) : bool :=
  (Qnum a * QDen b <? Qnum b * QDen a)%Z.

(** sign of a rational: [Lt] negative, [Eq] zero, [Gt] positive *)
Definition Qsign (a : Q) : comparison := (Qnum a ?= 0)%Z.

Definition isFinite (a : num) : bool :=
  match a with Fin _ => true | _ => false end.

Definition isNaN (a : num) : bool :=
  match a with NaN => true | _ => false end.

(** unary [-a] *)
Definition num_neg (a : num) : num :=
  match a with
  | Fin q => Fin (- q)
  | PInf => NInf
  | NInf => PInf
  | NaN => NaN
  end.

(** [a + b] *)
Definition num_add (a b : num) : num :=
  match a, b with
  | NaN, _ | _, NaN => NaN
  | Fin p, Fin q => Fin (p + q)
  | PInf, NInf | NInf, PInf => NaN
  | PInf, _ | _, PInf => PInf
  | NInf, _ | _, NInf => NInf
  end.

(** [a - b] *)
Definition num_sub (a b : num) : num := num_add a (num_neg b).

(** the product of an infinity ([+Infinity] when [positive]) and a finite
    factor of sign [c]; a zero factor gives [NaN] *)
Definition inf_signed (positive : bool) (c : comparison) : num :=
  match c with
  | Eq => NaN
  | Gt => if positive then PInf else NInf
  | Lt => if positive then NInf else PInf
  end.

(** [a * b] *)
Definition num_mul (a b : num) : num :=
  match a, b with
  | NaN, _ | _, NaN => NaN
  | Fin p, Fin q => Fin (p * q)
  | Fin p, PInf | PInf, Fin p => inf_signed true (Qsign p)
  | Fin p, NInf | NInf, Fin p => inf_signed false (Qsign p)
  | PInf, PInf | NInf, NInf => PInf
  | PInf, NInf | NInf, PInf => NInf
  end.

(** [a / b] *)
Definition num_div (a b : num) : num :=
  match a, b with
  | NaN, _ | _, NaN => NaN
  | Fin p, Fin q =>
      match Qsign q with
      | Eq => inf_signed true (Qsign p)
      | _ => Fin (p / q)
      end
  | Fin _, (PInf | NInf) => Fin 0
  | (PInf | NInf), (PInf | NInf) => NaN
  | PInf, Fin q => match Qsign q with Lt => NInf | _ => PInf end
  | NInf, Fin q => match Qsign q with Lt => PInf | _ => NInf end
  end.

(** [Math.abs] *)
Definition Math_abs (a : num) : num :=
  match a with
  | Fin q => Fin (Qabs q)
  | PInf | NInf => PInf
  | NaN => NaN
  end.

(** [a < b]: false as soon as an operand is [NaN] *)
Definition num_ltb (a b : num) : bool :=
  match a, b with
  | NaN, _ | _, NaN => false
  | Fin p, Fin q => Qlt_bool p q
  | NInf, (Fin _ | PInf) => true
  | Fin _, PInf => true
  | _, _ => false
  end.

(** [a <= b] *)
Definition num_leb (a b : num) : bool :=
  match a, b with
  | NaN, _ | _, NaN => false
  | Fin p, Fin q => Qle_bool p q
  | NInf, _ => true
  | _, PInf => true
  | _, _ => false
  end.

(** [a > b] and [a >= b] *)
Definition num_gtb (a b : num) : bool := num_ltb b a.
Definition num_geb (a b : num) : bool := num_leb b a.

(** [a === b] on numbers *)
Definition num_eqb (a b : num) : bool :=
  match a, b with
  | Fin p, Fin q => Qeq_bool p q
  | PInf, PInf | NInf, NInf => true
  | _, _ => false
  end.

(** [Math.min] and [Math.max] of two arguments *)
Definition Math_min (a b : num) : num :=
  match a, b with
  | NaN, _ | _, NaN => NaN
  | _, _ => if num_ltb b a then b else a
  end.

Definition Math_max (a b : num) : num :=
  match a, b with
  | NaN, _ | _, NaN => NaN
  | _, _ => if num_ltb a b then b else a
  end.

(** [Math.trunc] on a rational, used by the remainder *)
Definition Qtrunc (q : Q) : Z :=
  if Qlt_bool q 0 then Qceiling q else Qfloor q.

(** [a % b], the remainder of the truncated division *)
Definition num_rem (a b : num) : num :=
  match a, b with
  | Fin p, Fin q =>
      match Qsign q with
      | Eq => NaN
      | _ => Fin (p - q * inject_Z (Qtrunc (p / q)))
      end
  | Fin p, (PInf | NInf) => Fin p
  | _, _ => NaN
  end.

(** [Math.round]: the nearest integer, halves towards [+Infinity] *)
Definition Math_round (a : num) : num :=
  match a with
  | Fin q => Fin (inject_Z (Qfloor (q + (1 # 2))))
  | other => other
  end.

(** [Math.PI], the double nearest to pi *)
Definition Math_PI : num := Fin (884279719003555 # 281474976710656).

(** Equality of numbers up to the representation of a rational. *)
Definition num_eq (a b : num) : Prop :=
  match a, b with
  | Fin p, Fin q => p == q
  | PInf, PInf | NInf, NInf | NaN, NaN => True
  | _, _ => False
  end.

End JsNum.

Import JsNum.

Declare Scope num_scope.
Delimit Scope num_scope with num.
Bind Scope num_scope with num.
Notation "a + b" := (num_add a b) : num_scope.
Notation "a - b" := (num_sub a b) : num_scope.
Notation "a * b" := (num_mul a b) : num_scope.
Notation "a / b" := (num_div a b) : num_scope.
Notation "- a" := (num_neg a) : num_scope.
Notation "a <? b" := (num_ltb a b) : num_scope.
Notation "a <=? b" := (num_leb a b) : num_scope.
Notation "a >? b" := (num_gtb a b) : num_scope.
Notation "a >=? b" := (num_geb a b) : num_scope.
Notation "a =? b" := (num_eqb a b) : num_scope.
Infix "=n=" := num_eq (at level 70, no associativity).

(** numeric literals of the source *)
Definition lit (z : Z) : num := Fin (inject_Z z).

(** ** Data model (src/types/whiteboard.types.ts) *)

Inductive ToolType : Type :=
| tool_select | tool_rectangle | tool_ellipse | tool_line
| tool_arrow | tool_pen | tool_text | tool_eraser.

Inductive ElementType : Type :=
| rectangle | ellipse | line | arrow | freedraw | text.

Inductive FillStyle : Type := solid | hachure | cross_hatch | dots.

Record ElementStyle : Type := {
  strokeColor : string;
  fillColor : string;
  strokeWidth : num;
  opacity : num;
  roughness : option num;
  fillStyle : option FillStyle
}.

Inductive TextAlign : Type := align_left | align_center | align_right.
Inductive VerticalAlign : Type := align_top | align_middle | align_bottom.

(** The fields a variant adds to [BaseElement]; the variant is the tag. *)
Inductive ElementData : Type :=
| RectangleData
| EllipseData
| LineData (startX startY endX endY : num)
| ArrowData (startX startY endX endY : num) (arrowHeadSize : option num)
| FreedrawData (points : list (num * num)) (pressures : option (list num))
| TextData (content : string) (fontSize : num) (fontFamily : string)
           (textAlign : TextAlign) (verticalAlign : VerticalAlign).

Module Element.
(** [WhiteboardElement]: the fields of [BaseElement] and the variant. *)
Record t : Type := mk {
  id : string;
  x : num;
  y : num;
  width : num;
  height : num;
  rotation : num;
  zIndex : num;
  style : ElementStyle;
  locked : bool;
  isDeleted : bool;
  data : ElementData
}.

Definition type (e : t) : ElementType :=
  match data e with
  | RectangleData => rectangle
  | EllipseData => ellipse
  | LineData _ _ _ _ => line
  | ArrowData _ _ _ _ _ => arrow
  | FreedrawData _ _ => freedraw
  | TextData _ _ _ _ _ => text
  end.
End Element.

Module Point.
Record t : Type := mk { x : num; y : num }.
End Point.

Module Bounds.
Record t : Type := mk {
  minX : num; minY : num; maxX : num; maxY : num;
  width : num; height : num
}.
End Bounds.

Module ViewportTransform.
Record t : Type := mk { zoom : num; panX : num; panY : num }.
End ViewportTransform.

(** [Partial<WhiteboardElement>], over the keys that the callers of
    [updateElement] write.  The keys of a variant are written only into an
    element of a variant that has them. *)
Module Updates.
Record t : Type := mk {
  x : option num;
  y : option num;
  width : option num;
  height : option num;
  rotation : option num;
  style : option ElementStyle;
  locked : option bool;
  startX : option num;
  startY : option num;
  endX : option num;
  endY : option num;
  points : option (list (num * num));
  fontSize : option num;
  fontFamily : option string
}.

Definition none : t :=
  mk None None None None None None None None None None None None None None.

Definition or_else {A : Type} (o : option A) (a : A) : A :=
  match o with Some v => v | None => a end.

Definition apply_data (u : t) (d : ElementData) : ElementData :=
  match d with
  | LineData sx sy ex ey =>
      LineData (or_else (startX u) sx) (or_else (startY u) sy)
               (or_else (endX u) ex) (or_else (endY u) ey)
  | ArrowData sx sy ex ey hs =>
      ArrowData (or_else (startX u) sx) (or_else (startY u) sy)
                (or_else (endX u) ex) (or_else (endY u) ey) hs
  | FreedrawData ps pr => FreedrawData (or_else (points u) ps) pr
  | TextData c fs ff ta va =>
      TextData c (or_else (fontSize u) fs) (or_else (fontFamily u) ff) ta va
  | other => other
  end.

(** [{ ...element, ...updates }] *)
Definition apply (e : Element.t) (u : t) : Element.t :=
  Element.mk (Element.id e)
    (or_else (x u) (Element.x e))
    (or_else (y u) (Element.y e))
    (or_else (width u) (Element.width e))
    (or_else (height u) (Element.height e))
    (or_else (rotation u) (Element.rotation e))
    (Element.zIndex e)
    (or_else (style u) (Element.style e))
    (or_else (locked u) (Element.locked e))
    (Element.isDeleted e)
    (apply_data u (Element.data e)).
End Updates.

(** A JS [Set<string>] iterates in insertion order: a list without
    duplicates, oldest member first. *)
Module JsSet.
Definition t : Type := list string.

Definition has (s : t) (k : string) : bool := bool_decide (k ∈ s).

(** [s.add(k)] *)
Definition add (s : t) (k : string) : t :=
  if has s k then s else s ++ [k].

(** [new Set(array)] *)
Definition of_array (l : list string) : t := foldl add [] l.

(** [s.delete(k)] *)
Definition delete (s : t) (k : string) : t :=
  filter (λ k', k' ≠ k) s.

(** [Array.from(s)] *)
Definition to_array (s : t) : list string := s.

(** [s.size] *)
Definition size (s : t) : nat := length s.
End JsSet.

(** ** The scene store (src/stores/whiteboardStore.ts) *)
Module Store.

Record ToolOptions : Type := {
  opt_strokeColor : string;
  opt_fillColor : string;
  opt_strokeWidth : num;
  opt_opacity : num
}.

(** [AppState] *)
Record t : Type := mk {
  viewport : ViewportTransform.t;
  elements : gmap string Element.t;
  elementOrder : list string;
  activeTool : ToolType;
  toolOptions : ToolOptions;
  selectedElementIds : JsSet.t;
  hoveredElementId : option string;
  isDragging : bool;
  isDrawing : bool;
  isPanning : bool;
  gridEnabled : bool;
  gridSize : num;
  canUndo : bool;
  canRedo : bool
}.

(** zustand's [set] merges the returned keys into the state: one setter
    per key that the actions below return. *)
Definition set_viewport (v : ViewportTransform.t) (s : t) : t :=
  mk v (elements s) (elementOrder s) (activeTool s) (toolOptions s)
     (selectedElementIds s) (hoveredElementId s) (isDragging s) (isDrawing s)
     (isPanning s) (gridEnabled s) (gridSize s) (canUndo s) (canRedo s).

Definition set_elements (m : gmap string Element.t) (s : t) : t :=
  mk (viewport s) m (elementOrder s) (activeTool s) (toolOptions s)
     (selectedElementIds s) (hoveredElementId s) (isDragging s) (isDrawing s)
     (isPanning s) (gridEnabled s) (gridSize s) (canUndo s) (canRedo s).

Definition set_elementOrder (o : list string) (s : t) : t :=
  mk (viewport s) (elements s) o (activeTool s) (toolOptions s)
     (selectedElementIds s) (hoveredElementId s) (isDragging s) (isDrawing s)
     (isPanning s) (gridEnabled s) (gridSize s) (canUndo s) (canRedo s).

Definition set_selectedElementIds (sel : JsSet.t) (s : t) : t :=
  mk (viewport s) (elements s) (elementOrder s) (activeTool s) (toolOptions s)
     sel (hoveredElementId s) (isDragging s) (isDrawing s)
     (isPanning s) (gridEnabled s) (gridSize s) (canUndo s) (canRedo s).

Definition set_hoveredElementId (h : option string) (s : t) : t :=
  mk (viewport s) (elements s) (elementOrder s) (activeTool s) (toolOptions s)
     (selectedElementIds s) h (isDragging s) (isDrawing s)
     (isPanning s) (gridEnabled s) (gridSize s) (canUndo s) (canRedo s).

Definition DEFAULT_VIEWPORT : ViewportTransform.t :=
  ViewportTransform.mk (lit 1) (lit 0) (lit 0).

Definition DEFAULT_TOOL_OPTIONS : ToolOptions :=
  {| opt_strokeColor := "#000000"; opt_fillColor := "transparent";
     opt_strokeWidth := lit 2; opt_opacity := lit 1 |}.

(** the initial state of [create] *)
Definition initial : t :=
  mk DEFAULT_VIEWPORT ∅ [] tool_select DEFAULT_TOOL_OPTIONS
     [] None false false false false (lit 15) false false.

(** *** Viewport actions *)

Definition setZoom (zoom : num) (s : t) : t :=
  let v := viewport s in
  set_viewport
    (ViewportTransform.mk
       (Math_max (Fin (1 # 10)) (Math_min (lit 10) zoom))
       (ViewportTransform.panX v) (ViewportTransform.panY v)) s.

Definition setPan (panX panY : num) (s : t) : t :=
  set_viewport
    (ViewportTransform.mk (ViewportTransform.zoom (viewport s)) panX panY) s.

Definition resetViewport (s : t) : t := set_viewport DEFAULT_VIEWPORT s.

(** *** Element actions *)

Definition addElement (element : Element.t) (s : t) : t :=
  let newElements := <[Element.id element := element]> (elements s) in
  set_elementOrder (elementOrder s ++ [Element.id element])
    (set_elements newElements s).

Definition updateElement (id : string) (updates : Updates.t) (s : t) : t :=
  match elements s !! id with
  | None => s
  | Some element =>
      set_elements (<[id := Updates.apply element updates]> (elements s)) s
  end.

Definition deleteElement (id : string) (s : t) : t :=
  let newElements := delete id (elements s) in
  set_selectedElementIds
    (JsSet.of_array
       (filter (λ eid, eid ≠ id) (JsSet.to_array (selectedElementIds s))))
    (set_elementOrder (filter (λ eid, eid ≠ id) (elementOrder s))
       (set_elements newElements s)).

Definition deleteElements (ids : list string) (s : t) : t :=
  let newElements := foldl (λ m id, delete id m) (elements s) ids in
  let deletedSet := JsSet.of_array ids in
  set_selectedElementIds
    (JsSet.of_array
       (filter (λ id, JsSet.has deletedSet id = false)
          (JsSet.to_array (selectedElementIds s))))
    (set_elementOrder
       (filter (λ id, JsSet.has deletedSet id = false) (elementOrder s))
       (set_elements newElements s)).

Definition clearElements (s : t) : t :=
  set_selectedElementIds []
    (set_elementOrder [] (set_elements ∅ s)).

(** *** Selection actions *)

Definition selectElement (id : string) (s : t) : t :=
  set_selectedElementIds (JsSet.of_array [id]) s.

Definition selectElements (ids : list string) (s : t) : t :=
  set_selectedElementIds (JsSet.of_array ids) s.

Definition addToSelection (id : string) (s : t) : t :=
  set_selectedElementIds (JsSet.add (selectedElementIds s) id) s.

Definition clearSelection (s : t) : t := set_selectedElementIds [] s.

Definition setHoveredElement (id : option string) (s : t) : t :=
  set_hoveredElementId id s.

(** *** Z-index management *)

(** [array.indexOf(id)]: the first index holding [id]; [None] for [-1] *)
Fixpoint indexOf (l : list string) (id : string) : option nat :=
  match l with
  | [] => None
  | k :: l' =>
      if decide (k = id) then Some 0%nat else S <$> indexOf l' id
  end.

(** [[a[i], a[j]] = [a[j], a[i]]] for two indices inside the array *)
Definition swap (l : list string) (i j : nat) : list string :=
  match l !! i, l !! j with
  | Some a, Some b => <[j := a]> (<[i := b]> l)
  | _, _ => l
  end.

Definition bringToFront (id : string) (s : t) : t :=
  match indexOf (elementOrder s) id with
  | None => s
  | Some currentIndex =>
      if decide (currentIndex = (length (elementOrder s) - 1)%nat) then s
      else
        let newOrder := filter (λ eid, eid ≠ id) (elementOrder s) in
        set_elementOrder (newOrder ++ [id]) s
  end.

Definition sendToBack (id : string) (s : t) : t :=
  match indexOf (elementOrder s) id with
  | None => s
  | Some currentIndex =>
      if decide (currentIndex = 0%nat) then s
      else
        let newOrder := filter (λ eid, eid ≠ id) (elementOrder s) in
        set_elementOrder (id :: newOrder) s
  end.

Definition bringForward (id : string) (s : t) : t :=
  match indexOf (elementOrder s) id with
  | None => s
  | Some currentIndex =>
      if decide (currentIndex = (length (elementOrder s) - 1)%nat) then s
      else
        set_elementOrder
          (swap (elementOrder s) currentIndex (currentIndex + 1)) s
  end.

Definition sendBackward (id : string) (s : t) : t :=
  match indexOf (elementOrder s) id with
  | None => s
  | Some currentIndex =>
      if decide (currentIndex = 0%nat) then s
      else
        set_elementOrder
          (swap (elementOrder s) currentIndex (currentIndex - 1)) s
  end.

End Store.

(** ** The functions of [Math] that are not rational

    [Math.cos], [Math.sin] and [Math.sqrt] send a finite number to a finite
    number (the square root, a non-negative one); which one is left open.
    [Math.atan2] is left open as a whole. *)
Class MathLib : Type := {
  cosQ : Q → Q;
  sinQ : Q → Q;
  sqrtQ : Q → Q;
  Math_atan2 : num → num → num
}.

Definition Math_cos `{MathLib} (a : num) : num :=
  match a with Fin q => Fin (cosQ q) | _ => NaN end.

Definition Math_sin `{MathLib} (a : num) : num :=
  match a with Fin q => Fin (sinQ q) | _ => NaN end.

Definition Math_sqrt `{MathLib} (a : num) : num :=
  match a with
  | Fin q => if Qlt_bool q 0 then NaN else Fin (sqrtQ q)
  | PInf => PInf
  | _ => NaN
  end.

(** ** Coordinate transformations (src/lib/canvas-utils.ts) *)
Module CanvasUtils.
Section WithMath.
Context `{MathLib}.

Definition screenToWorld (screenX screenY : num)
    (viewport : ViewportTransform.t) : Point.t :=
  Point.mk
    ((screenX - ViewportTransform.panX viewport)
       / ViewportTransform.zoom viewport)%num
    ((screenY - ViewportTransform.panY viewport)
       / ViewportTransform.zoom viewport)%num.

Definition worldToScreen (worldX worldY : num)
    (viewport : ViewportTransform.t) : Point.t :=
  Point.mk
    (worldX * ViewportTransform.zoom viewport
       + ViewportTransform.panX viewport)%num
    (worldY * ViewportTransform.zoom viewport
       + ViewportTransform.panY viewport)%num.

Definition rotatePoint (point center : Point.t) (angle : num) : Point.t :=
  let cos := Math_cos angle in
  let sin := Math_sin angle in
  let dx := (Point.x point - Point.x center)%num in
  let dy := (Point.y point - Point.y center)%num in
  Point.mk (dx * cos - dy * sin + Point.x center)%num
           (dx * sin + dy * cos + Point.y center)%num.

End WithMath.
End CanvasUtils.

(** ** The geometry kernel (src/utils/geometry.ts) *)
Module Geometry.
Section WithMath.
Context `{MathLib}.

Definition getElementBounds (element : Element.t) : Bounds.t :=
  let x := Element.x element in
  let y := Element.y element in
  let width := Element.width element in
  let height := Element.height element in
  Bounds.mk x y (x + width)%num (y + height)%num width height.

Definition getElementCenter (element : Element.t) : Point.t :=
  Point.mk (Element.x element + Element.width element / lit 2)%num
           (Element.y element + Element.height element / lit 2)%num.

Definition isPointInBounds (point : Point.t) (bounds : Bounds.t)
    (padding : num) : bool :=
  (Point.x point >=? Bounds.minX bounds - padding)%num
  && (Point.x point <=? Bounds.maxX bounds + padding)%num
  && (Point.y point >=? Bounds.minY bounds - padding)%num
  && (Point.y point <=? Bounds.maxY bounds + padding)%num.

Definition isPointInRectangle (point : Point.t) (element : Element.t)
    (padding : num) : bool :=
  let x := Element.x element in
  let y := Element.y element in
  let width := Element.width element in
  let height := Element.height element in
  let rotation := Element.rotation element in
  if (rotation =? lit 0)%num then
    (Point.x point >=? x - padding)%num
    && (Point.x point <=? x + width + padding)%num
    && (Point.y point >=? y - padding)%num
    && (Point.y point <=? y + height + padding)%num
  else
    let centerX := (x + width / lit 2)%num in
    let centerY := (y + height / lit 2)%num in
    let cos := Math_cos (- rotation)%num in
    let sin := Math_sin (- rotation)%num in
    let dx := (Point.x point - centerX)%num in
    let dy := (Point.y point - centerY)%num in
    let localX := (dx * cos - dy * sin + centerX)%num in
    let localY := (dx * sin + dy * cos + centerY)%num in
    (localX >=? x - padding)%num
    && (localX <=? x + width + padding)%num
    && (localY >=? y - padding)%num
    && (localY <=? y + height + padding)%num.

Definition isPointInEllipse (point : Point.t) (element : Element.t)
    (padding : num) : bool :=
  let centerX := (Element.x element + Element.width element / lit 2)%num in
  let centerY := (Element.y element + Element.height element / lit 2)%num in
  let radiusX := (Element.width element / lit 2 + padding)%num in
  let radiusY := (Element.height element / lit 2 + padding)%num in
  let dx := (Point.x point - centerX)%num in
  let dy := (Point.y point - centerY)%num in
  ((dx * dx) / (radiusX * radiusX) + (dy * dy) / (radiusY * radiusY)
     <=? lit 1)%num.

Definition distanceToLine (point lineStart lineEnd : Point.t) : num :=
  let x := Point.x point in
  let y := Point.y point in
  let x1 := Point.x lineStart in
  let y1 := Point.y lineStart in
  let x2 := Point.x lineEnd in
  let y2 := Point.y lineEnd in
  let A := (x - x1)%num in
  let B := (y - y1)%num in
  let C := (x2 - x1)%num in
  let D := (y2 - y1)%num in
  let dot := (A * C + B * D)%num in
  let lenSq := (C * C + D * D)%num in
  let param := if (lenSq =? lit 0)%num then lit (-1) else (dot / lenSq)%num in
  let '(xx, yy) :=
    if (param <? lit 0)%num then (x1, y1)
    else if (param >? lit 1)%num then (x2, y2)
    else ((x1 + param * C)%num, (y1 + param * D)%num) in
  let dx := (x - xx)%num in
  let dy := (y - yy)%num in
  Math_sqrt (dx * dx + dy * dy)%num.

Definition isPointNearLine (point lineStart lineEnd : Point.t)
    (threshold : num) : bool :=
  (distanceToLine point lineStart lineEnd <=? threshold)%num.

(** the loop of [isPointInFreedrawPath] over the consecutive pairs *)
Fixpoint anySegmentNear (point : Point.t) (points : list (num * num))
    (threshold : num) : bool :=
  match points with
  | p :: ((q :: _) as rest) =>
      if isPointNearLine point (Point.mk p.1 p.2) (Point.mk q.1 q.2) threshold
      then true
      else anySegmentNear point rest threshold
  | _ => false
  end.

Definition isPointInFreedrawPath (point : Point.t)
    (points : list (num * num)) (threshold : num) : bool :=
  if (length points <? 2)%nat then false
  else anySegmentNear point points threshold.

(** [threshold] defaults to 5 at the call sites that omit it *)
Definition hitTestElement (point : Point.t) (element : Element.t)
    (threshold : num) : bool :=
  let bounds := getElementBounds element in
  if negb (isPointInBounds point bounds threshold) then false
  else
    match Element.data element with
    | RectangleData => isPointInRectangle point element threshold
    | EllipseData => isPointInEllipse point element threshold
    | LineData startX startY endX endY =>
        isPointNearLine point (Point.mk startX startY) (Point.mk endX endY)
          threshold
    | ArrowData startX startY endX endY _ =>
        isPointNearLine point (Point.mk startX startY) (Point.mk endX endY)
          threshold
    | FreedrawData points _ => isPointInFreedrawPath point points threshold
    | TextData _ _ _ _ _ => isPointInRectangle point element (lit 0)
    end.

Definition boundsIntersect (a b : Bounds.t) : bool :=
  negb ((Bounds.maxX a <? Bounds.minX b)%num
        || (Bounds.minX a >? Bounds.maxX b)%num
        || (Bounds.maxY a <? Bounds.minY b)%num
        || (Bounds.minY a >? Bounds.maxY b)%num).

Definition elementIntersectsBox (element : Element.t)
    (selectionBox : Bounds.t) : bool :=
  boundsIntersect (getElementBounds element) selectionBox.

End WithMath.
End Geometry.

(** ** Dirty rectangles (src/lib/dirty-rect.ts) *)
Module DirtyRegion.
Record t : Type := mk { x : num; y : num; width : num; height : num }.
End DirtyRegion.

Module DirtyRect.

(** the fields of a [DirtyRectManager]; a method returns its result and
    the manager it leaves behind *)
Record t : Type := mk {
  dirtyRegions : list DirtyRegion.t;
  isDirty : bool;
  fullRedrawNeeded : bool
}.

(** a freshly constructed manager *)
Definition new : t := mk [] false true.

Definition markRegionDirty (x y width height : num) (m : t) : t :=
  mk (dirtyRegions m ++ [DirtyRegion.mk x y width height]) true
     (fullRedrawNeeded m).

(** [padding] defaults to 10 *)
Definition markElementDirty (element : Element.t) (padding : num) (m : t)
    : t :=
  let bounds := Geometry.getElementBounds element in
  markRegionDirty
    (Bounds.minX bounds - padding)%num
    (Bounds.minY bounds - padding)%num
    (Bounds.maxX bounds - Bounds.minX bounds + padding * lit 2)%num
    (Bounds.maxY bounds - Bounds.minY bounds + padding * lit 2)%num
    m.

Definition markFullRedraw (m : t) : t := mk (dirtyRegions m) true true.

Definition needsRedraw (m : t) : bool := isDirty m || fullRedrawNeeded m.

Definition needsFullRedraw (m : t) : bool := fullRedrawNeeded m.

Definition boundsIntersect (x1 y1 w1 h1 x2 y2 w2 h2 : num) : bool :=
  negb ((x1 + w1 <? x2)%num
        || (x2 + w2 <? x1)%num
        || (y1 + h1 <? y2)%num
        || (y2 + h2 <? y1)%num).

Definition regionsOverlap (a b : DirtyRegion.t) : bool :=
  boundsIntersect
    (DirtyRegion.x a) (DirtyRegion.y a)
    (DirtyRegion.width a) (DirtyRegion.height a)
    (DirtyRegion.x b) (DirtyRegion.y b)
    (DirtyRegion.width b) (DirtyRegion.height b).

(** [[...regions].sort((a, b) => a.x - b.x)]: the sort is stable, so a
    region goes in front of the first one that its [x] does not exceed *)
Fixpoint insertByX (a : DirtyRegion.t) (l : list DirtyRegion.t)
    : list DirtyRegion.t :=
  match l with
  | [] => [a]
  | b :: l' =>
      if (DirtyRegion.x a - DirtyRegion.x b >? lit 0)%num
      then b :: insertByX a l'
      else a :: l
  end.

Definition sortByX (l : list DirtyRegion.t) : list DirtyRegion.t :=
  foldr insertByX [] l.

(** the loop of [mergeRegions]: [current] absorbs the regions that overlap
    it, the others close it and take its place; returns [merged] with the
    last [current] pushed *)
Fixpoint mergeLoop (current : DirtyRegion.t) (rest : list DirtyRegion.t)
    : list DirtyRegion.t :=
  match rest with
  | [] => [current]
  | next :: rest' =>
      if regionsOverlap current next then
        let minX := Math_min (DirtyRegion.x current) (DirtyRegion.x next) in
        let minY := Math_min (DirtyRegion.y current) (DirtyRegion.y next) in
        let maxX :=
          Math_max (DirtyRegion.x current + DirtyRegion.width current)%num
                   (DirtyRegion.x next + DirtyRegion.width next)%num in
        let maxY :=
          Math_max (DirtyRegion.y current + DirtyRegion.height current)%num
                   (DirtyRegion.y next + DirtyRegion.height next)%num in
        mergeLoop
          (DirtyRegion.mk minX minY (maxX - minX)%num (maxY - minY)%num)
          rest'
      else current :: mergeLoop next rest'
  end.

Definition mergeRegions (regions : list DirtyRegion.t) (m : t)
    : list DirtyRegion.t * t :=
  match regions with
  | [] => ([], m)
  | [_] => (regions, m)
  | _ =>
      if (10 <? length regions)%nat then
        ([], mk (dirtyRegions m) (isDirty m) true)
      else
        match sortByX regions with
        | [] => ([], m)
        | current :: rest => (mergeLoop current rest, m)
        end
  end.

Definition getDirtyRegions (m : t) : list DirtyRegion.t * t :=
  if fullRedrawNeeded m then ([], m)
  else mergeRegions (dirtyRegions m) m.

Definition isElementInDirtyRegion (element : Element.t) (m : t) : bool :=
  if fullRedrawNeeded m then true
  else
    let bounds := Geometry.getElementBounds element in
    existsb
      (λ region,
         boundsIntersect
           (Bounds.minX bounds) (Bounds.minY bounds)
           (Bounds.maxX bounds - Bounds.minX bounds)%num
           (Bounds.maxY bounds - Bounds.minY bounds)%num
           (DirtyRegion.x region) (DirtyRegion.y region)
           (DirtyRegion.width region) (DirtyRegion.height region))
      (dirtyRegions m).

Definition clear (m : t) : t := mk [] false false.

End DirtyRect.

(** ** The selection tool (src/tools/SelectTool.ts) *)

(** [HandleType] without its [null], which is the [None] of an option *)
Module Handle.
Inductive t : Type := nw | n | ne | e | se | s | sw | w | rotation.

#[global] Instance eq_dec : EqDecision t.
Proof. solve_decision. Defined.
End Handle.

Inductive TransformMode : Type := move | resize | rotate | drag_select.

#[global] Instance TransformMode_eq_dec : EqDecision TransformMode.
Proof. solve_decision. Defined.

Module StartBounds.
Record t : Type := mk {
  x : num; y : num; width : num; height : num; rotation : num
}.
End StartBounds.

(** the rectangle that [getDragSelectionBox] returns *)
Module Box.
Record t : Type := mk { x : num; y : num; width : num; height : num }.
End Box.

(** what the callbacks read from the [PointerEvent] and the canvas *)
Record PointerEvent : Type := {
  clientX : num;
  clientY : num;
  shiftKey : bool
}.

Record KeyboardEvent : Type := {
  key : string;
  ctrlKey : bool;
  metaKey : bool
}.

(** [canvas.getBoundingClientRect()] and [canvas.style.cursor] *)
Record Canvas : Type := {
  rectLeft : num;
  rectTop : num;
  cursor : string
}.

Definition set_cursor (c : string) (canvas : Canvas) : Canvas :=
  {| rectLeft := rectLeft canvas; rectTop := rectTop canvas; cursor := c |}.

(** a number in a boolean position: [0] and [NaN] are falsy *)
Definition truthy (a : num) : bool :=
  match a with
  | Fin q => negb (Qeq_bool q 0)
  | NaN => false
  | _ => true
  end.

(** [a || 0] *)
Definition or_zero (a : num) : num := if truthy a then a else lit 0.

Module SelectTool.
Section WithMath.
Context `{MathLib}.

Record t : Type := mk {
  threshold : num;
  transformMode : option TransformMode;
  activeHandle : option Handle.t;
  dragStartPoint : option Point.t;
  dragCurrentPoint : option Point.t;
  elementStartBounds : gmap string StartBounds.t
}.

(** [new SelectTool(options)]; the threshold defaults to 5 *)
Definition new (threshold : option num) : t :=
  mk (Updates.or_else threshold (lit 5)) None None None None ∅.

(** the loop of [findElementAtPoint], over the ids from the top down *)
Fixpoint findTopmost (tool : t) (point : Point.t)
    (elements : gmap string Element.t) (ids : list string)
    : option Element.t :=
  match ids with
  | [] => None
  | elementId :: rest =>
      match elements !! elementId with
      | None => findTopmost tool point elements rest
      | Some element =>
          if Element.isDeleted element then
            findTopmost tool point elements rest
          else if Element.locked element then
            findTopmost tool point elements rest
          else if Geometry.hitTestElement point element (threshold tool) then
            Some element
          else findTopmost tool point elements rest
      end
  end.

Definition findElementAtPoint (tool : t) (point : Point.t)
    (elements : gmap string Element.t) (elementOrder : list string)
    : option Element.t :=
  findTopmost tool point elements (reverse elementOrder).

(** the [Map<HandleType, Point>] in its insertion order *)
Definition getHandlePositions (element : Element.t)
    : list (Handle.t * Point.t) :=
  let x := Element.x element in
  let y := Element.y element in
  let width := Element.width element in
  let height := Element.height element in
  let handles :=
    [ (Handle.nw, Point.mk x y);
      (Handle.n, Point.mk (x + width / lit 2)%num y);
      (Handle.ne, Point.mk (x + width)%num y);
      (Handle.e, Point.mk (x + width)%num (y + height / lit 2)%num);
      (Handle.se, Point.mk (x + width)%num (y + height)%num);
      (Handle.s, Point.mk (x + width / lit 2)%num (y + height)%num);
      (Handle.sw, Point.mk x (y + height)%num);
      (Handle.w, Point.mk x (y + height / lit 2)%num);
      (Handle.rotation, Point.mk (x + width / lit 2)%num (y - lit 30)%num) ]
  in
  if truthy (Element.rotation element)
     && negb (Element.rotation element =? lit 0)%num
  then
    let center := Geometry.getElementCenter element in
    map (λ hp, (hp.1, CanvasUtils.rotatePoint hp.2 center
                        (Element.rotation element)))
        handles
  else handles.

(** the loop of [findHandleAtPoint] *)
Fixpoint firstHandleWithin (point : Point.t) (threshold : num)
    (handles : list (Handle.t * Point.t)) : option Handle.t :=
  match handles with
  | [] => None
  | (handleType, handlePos) :: rest =>
      let dx := (Point.x point - Point.x handlePos)%num in
      let dy := (Point.y point - Point.y handlePos)%num in
      let distance := Math_sqrt (dx * dx + dy * dy)%num in
      if (distance <=? threshold)%num then Some handleType
      else firstHandleWithin point threshold rest
  end.

(** [handleSize] defaults to 8 *)
Definition findHandleAtPoint (point : Point.t) (element : Element.t)
    (handleSize : num) : option Handle.t :=
  let handles := getHandlePositions element in
  let threshold := (handleSize + lit 2)%num in
  firstHandleWithin point threshold handles.

Definition baseAngles (h : Handle.t) : option num :=
  match h with
  | Handle.e => Some (lit 0)
  | Handle.ne => Some (lit (-45))
  | Handle.n => Some (lit (-90))
  | Handle.nw => Some (lit (-135))
  | Handle.w => Some (lit 180)
  | Handle.sw => Some (lit 135)
  | Handle.s => Some (lit 90)
  | Handle.se => Some (lit 45)
  | Handle.rotation => None
  end.

Definition getCursorForHandle (handleType : option Handle.t)
    (rotation : num) : string :=
  match handleType with
  | None => "default"
  | Some Handle.rotation => "grab"
  | Some h =>
      match baseAngles h with
      | None => "default"
      | Some base =>
          let deg :=
            num_rem
              (num_rem (base + (rotation * lit 180) / Math_PI)%num (lit 180)
               + lit 180)%num
              (lit 180) in
          let snapped :=
            num_rem (Math_round (deg / lit 45) * lit 45)%num (lit 180) in
          if (snapped =? lit 0)%num then "ew-resize"
          else if (snapped =? lit 45)%num then "nwse-resize"
          else if (snapped =? lit 90)%num then "ns-resize"
          else if (snapped =? lit 135)%num then "nesw-resize"
          else "default"
      end
  end.

Definition findElementsIntersectingRect (rectStart rectEnd : Point.t)
    (elements : gmap string Element.t) (elementOrder : list string)
    : list string :=
  let minX := Math_min (Point.x rectStart) (Point.x rectEnd) in
  let minY := Math_min (Point.y rectStart) (Point.y rectEnd) in
  let maxX := Math_max (Point.x rectStart) (Point.x rectEnd) in
  let maxY := Math_max (Point.y rectStart) (Point.y rectEnd) in
  let intersects (elementId : string) : bool :=
    match elements !! elementId with
    | None => false
    | Some element =>
        if Element.isDeleted element || Element.locked element then false
        else
          let elemMinX := Element.x element in
          let elemMinY := Element.y element in
          let elemMaxX := (Element.x element + Element.width element)%num in
          let elemMaxY := (Element.y element + Element.height element)%num in
          negb ((elemMaxX <? minX)%num
                || (elemMinX >? maxX)%num
                || (elemMaxY <? minY)%num
                || (elemMinY >? maxY)%num)
    end in
  List.filter intersects elementOrder.

(** assignments to the fields of the tool *)
Definition set_transformMode (m : option TransformMode) (tool : t) : t :=
  mk (threshold tool) m (activeHandle tool) (dragStartPoint tool)
     (dragCurrentPoint tool) (elementStartBounds tool).

Definition set_activeHandle (h : option Handle.t) (tool : t) : t :=
  mk (threshold tool) (transformMode tool) h (dragStartPoint tool)
     (dragCurrentPoint tool) (elementStartBounds tool).

Definition set_dragStartPoint (p : option Point.t) (tool : t) : t :=
  mk (threshold tool) (transformMode tool) (activeHandle tool) p
     (dragCurrentPoint tool) (elementStartBounds tool).

Definition set_dragCurrentPoint (p : option Point.t) (tool : t) : t :=
  mk (threshold tool) (transformMode tool) (activeHandle tool)
     (dragStartPoint tool) p (elementStartBounds tool).

Definition set_elementStartBounds (b : gmap string StartBounds.t) (tool : t)
    : t :=
  mk (threshold tool) (transformMode tool) (activeHandle tool)
     (dragStartPoint tool) (dragCurrentPoint tool) b.

(** the snapshot [{ x, y, width, height, rotation: rotation || 0 }] *)
Definition snapshot (element : Element.t) : StartBounds.t :=
  StartBounds.mk (Element.x element) (Element.y element)
    (Element.width element) (Element.height element)
    (or_zero (Element.rotation element)).

(** the sole selected element and the handle of it under the pointer,
    when there is one: the test that opens [onPointerDown] and the
    hovering part of [onPointerMove] *)
Definition selectedHandleAt (worldPoint : Point.t) (state : Store.t)
    : option (string * Element.t * Handle.t) :=
  match JsSet.to_array (Store.selectedElementIds state) with
  | [selectedId] =>
      match Store.elements state !! selectedId with
      | Some selectedElement =>
          match findHandleAtPoint worldPoint selectedElement (lit 8) with
          | Some handle => Some (selectedId, selectedElement, handle)
          | None => None
          end
      | None => None
      end
  | _ => None
  end.

Definition onPointerDown (tool : t) (store : Store.t) (event : PointerEvent)
    (canvas : Canvas) (viewport : ViewportTransform.t)
    : t * Store.t * Canvas :=
  let screenX := (clientX event - rectLeft canvas)%num in
  let screenY := (clientY event - rectTop canvas)%num in
  let worldPoint := CanvasUtils.screenToWorld screenX screenY viewport in
  let state := store in
  let elements := Store.elements state in
  let elementOrder := Store.elementOrder state in
  let selectedElementIds := Store.selectedElementIds state in
  match selectedHandleAt worldPoint state with
  | Some (selectedId, selectedElement, handle) =>
      let tool := set_activeHandle (Some handle) tool in
      let tool := set_dragStartPoint (Some worldPoint) tool in
      let tool :=
        set_transformMode
          (Some (if decide (handle = Handle.rotation) then rotate else resize))
          tool in
      let tool :=
        set_elementStartBounds
          (<[selectedId := snapshot selectedElement]> (elementStartBounds tool))
          tool in
      let cursor :=
        getCursorForHandle (Some handle)
          (or_zero (Element.rotation selectedElement)) in
      (tool, store, set_cursor cursor canvas)
  | None =>
      let clickedElement :=
        findElementAtPoint tool worldPoint elements elementOrder in
      let isShiftPressed := shiftKey event in
      match clickedElement with
      | Some clickedElement =>
          let store :=
            if isShiftPressed then
              if JsSet.has selectedElementIds (Element.id clickedElement) then
                let newSelection :=
                  JsSet.delete selectedElementIds (Element.id clickedElement) in
                Store.selectElements (JsSet.to_array newSelection) store
              else Store.addToSelection (Element.id clickedElement) store
            else
              if negb (JsSet.has selectedElementIds (Element.id clickedElement))
              then Store.selectElement (Element.id clickedElement) store
              else store in
          let tool := set_transformMode (Some move) tool in
          let tool := set_dragStartPoint (Some worldPoint) tool in
          let tool :=
            foldl
              (λ tool id,
                 match elements !! id with
                 | Some element =>
                     set_elementStartBounds
                       (<[id := snapshot element]> (elementStartBounds tool))
                       tool
                 | None => tool
                 end)
              tool (JsSet.to_array selectedElementIds) in
          (tool, store, canvas)
      | None =>
          let store :=
            if negb isShiftPressed then Store.clearSelection store
            else store in
          let tool := set_transformMode (Some drag_select) tool in
          let tool := set_dragStartPoint (Some worldPoint) tool in
          let tool := set_dragCurrentPoint (Some worldPoint) tool in
          let tool := set_elementStartBounds ∅ tool in
          (tool, store, canvas)
      end
  end.

(** the new [x, y, width, height] that [performResize] writes *)
Definition resizedBounds (startBounds : StartBounds.t) (dx dy : num)
    (handle : option Handle.t) (maintainAspectRatio : bool)
    : num * num * num * num :=
  let sx := StartBounds.x startBounds in
  let sy := StartBounds.y startBounds in
  let sw := StartBounds.width startBounds in
  let sh := StartBounds.height startBounds in
  let '(newX, newY, newWidth, newHeight) :=
    match handle with
    | Some Handle.nw => ((sx + dx)%num, (sy + dy)%num, (sw - dx)%num, (sh - dy)%num)
    | Some Handle.n => (sx, (sy + dy)%num, sw, (sh - dy)%num)
    | Some Handle.ne => (sx, (sy + dy)%num, (sw + dx)%num, (sh - dy)%num)
    | Some Handle.e => (sx, sy, (sw + dx)%num, sh)
    | Some Handle.se => (sx, sy, (sw + dx)%num, (sh + dy)%num)
    | Some Handle.s => (sx, sy, sw, (sh + dy)%num)
    | Some Handle.sw => ((sx + dx)%num, sy, (sw - dx)%num, (sh + dy)%num)
    | Some Handle.w => ((sx + dx)%num, sy, (sw - dx)%num, sh)
    | _ => (sx, sy, sw, sh)
    end in
  let '(newX, newY, newWidth, newHeight) :=
    if maintainAspectRatio then
      let aspectRatio := (sw / sh)%num in
      if (Math_abs (newWidth - sw) >? Math_abs (newHeight - sh))%num then
        let newHeight := (newWidth / aspectRatio)%num in
        let newY :=
          match handle with
          | Some Handle.nw | Some Handle.n | Some Handle.ne =>
              (sy + sh - newHeight)%num
          | _ => newY
          end in
        (newX, newY, newWidth, newHeight)
      else
        let newWidth := (newHeight * aspectRatio)%num in
        let newX :=
          match handle with
          | Some Handle.nw | Some Handle.w | Some Handle.sw =>
              (sx + sw - newWidth)%num
          | _ => newX
          end in
        (newX, newY, newWidth, newHeight)
    else (newX, newY, newWidth, newHeight) in
  let newWidth := if (newWidth <? lit 1)%num then lit 1 else newWidth in
  let newHeight := if (newHeight <? lit 1)%num then lit 1 else newHeight in
  (newX, newY, newWidth, newHeight).

(** [{ x, y, width, height }] as an update *)
Definition boundsUpdate (b : num * num * num * num) : Updates.t :=
  let '(newX, newY, newWidth, newHeight) := b in
  Updates.mk (Some newX) (Some newY) (Some newWidth) (Some newHeight)
    None None None None None None None None None None.

Definition performResize (elementId : string) (startBounds : StartBounds.t)
    (dx dy : num) (handle : option Handle.t) (maintainAspectRatio : bool)
    (store : Store.t) : Store.t :=
  Store.updateElement elementId
    (boundsUpdate (resizedBounds startBounds dx dy handle maintainAspectRatio))
    store.

(** [{ x, y }] and [{ rotation }] as updates *)
Definition positionUpdate (newX newY : num) : Updates.t :=
  Updates.mk (Some newX) (Some newY) None None
    None None None None None None None None None None.

Definition rotationUpdate (newRotation : num) : Updates.t :=
  Updates.mk None None None None
    (Some newRotation) None None None None None None None None None.

(** [Array.from(selectedElementIds)[0]], [undefined] on an empty set *)
Definition firstSelected (state : Store.t) : option string :=
  head (JsSet.to_array (Store.selectedElementIds state)).

Definition onPointerMove (tool : t) (store : Store.t) (event : PointerEvent)
    (canvas : Canvas) (viewport : ViewportTransform.t)
    : t * Store.t * Canvas :=
  let screenX := (clientX event - rectLeft canvas)%num in
  let screenY := (clientY event - rectTop canvas)%num in
  let worldPoint := CanvasUtils.screenToWorld screenX screenY viewport in
  let state := store in
  let elements := Store.elements state in
  let elementOrder := Store.elementOrder state in
  let selectedElementIds := Store.selectedElementIds state in
  match transformMode tool, dragStartPoint tool with
  | Some mode, Some dragStart =>
      let dx := (Point.x worldPoint - Point.x dragStart)%num in
      let dy := (Point.y worldPoint - Point.y dragStart)%num in
      match mode, activeHandle tool with
      | move, _ =>
          let store :=
            foldl
              (λ store id,
                 match elementStartBounds tool !! id with
                 | Some startBounds =>
                     Store.updateElement id
                       (positionUpdate (StartBounds.x startBounds + dx)%num
                                       (StartBounds.y startBounds + dy)%num)
                       store
                 | None => store
                 end)
              store (JsSet.to_array selectedElementIds) in
          (tool, store, set_cursor "move" canvas)
      | resize, Some handle =>
          let selectedId := firstSelected state in
          let startBounds :=
            selectedId ≫= λ id, elementStartBounds tool !! id in
          let store :=
            match selectedId, startBounds with
            | Some selectedId, Some startBounds =>
                performResize selectedId startBounds dx dy (Some handle)
                  (shiftKey event) store
            | _, _ => store
            end in
          let element := selectedId ≫= λ id, Store.elements state !! id in
          let rotation :=
            match element with
            | Some element => or_zero (Element.rotation element)
            | None => lit 0
            end in
          (tool, store,
           set_cursor (getCursorForHandle (Some handle) rotation) canvas)
      | rotate, _ =>
          let selectedId := firstSelected state in
          let element := selectedId ≫= λ id, elements !! id in
          let startBounds :=
            selectedId ≫= λ id, elementStartBounds tool !! id in
          let store :=
            match selectedId, element, startBounds with
            | Some selectedId, Some element, Some startBounds =>
                let center := Geometry.getElementCenter element in
                let startAngle :=
                  Math_atan2 (Point.y dragStart - Point.y center)%num
                             (Point.x dragStart - Point.x center)%num in
                let currentAngle :=
                  Math_atan2 (Point.y worldPoint - Point.y center)%num
                             (Point.x worldPoint - Point.x center)%num in
                let deltaAngle := (currentAngle - startAngle)%num in
                Store.updateElement selectedId
                  (rotationUpdate
                     (StartBounds.rotation startBounds + deltaAngle)%num)
                  store
            | _, _, _ => store
            end in
          (tool, store, set_cursor "grabbing" canvas)
      | drag_select, _ =>
          (set_dragCurrentPoint (Some worldPoint) tool, store,
           set_cursor "crosshair" canvas)
      | resize, None => (tool, store, canvas)
      end
  | _, _ =>
      match selectedHandleAt worldPoint state with
      | Some (selectedId, selectedElement, handle) =>
          let cursor :=
            getCursorForHandle (Some handle)
              (or_zero (Element.rotation selectedElement)) in
          (tool, Store.setHoveredElement (Some selectedId) store,
           set_cursor cursor canvas)
      | None =>
          let hoveredElement :=
            findElementAtPoint tool worldPoint elements elementOrder in
          let store :=
            Store.setHoveredElement (Element.id <$> hoveredElement) store in
          let cursor :=
            match hoveredElement with
            | Some _ => "move"
            | None => "default"
            end in
          (tool, store, set_cursor cursor canvas)
      end
  end.

Definition onPointerUp (tool : t) (store : Store.t) (event : PointerEvent)
    (canvas : Canvas) (_viewport : ViewportTransform.t)
    : t * Store.t * Canvas :=
  let store :=
    match transformMode tool, dragStartPoint tool, dragCurrentPoint tool with
    | Some drag_select, Some dragStart, Some dragCurrent =>
        let state := store in
        let intersectingIds :=
          findElementsIntersectingRect dragStart dragCurrent
            (Store.elements state) (Store.elementOrder state) in
        if (0 <? length intersectingIds)%nat then
          if shiftKey event then
            let newSelection :=
              foldl JsSet.add (Store.selectedElementIds state)
                intersectingIds in
            Store.selectElements (JsSet.to_array newSelection) store
          else Store.selectElements intersectingIds store
        else store
    | _, _, _ => store
    end in
  let tool := set_transformMode None tool in
  let tool := set_activeHandle None tool in
  let tool := set_dragStartPoint None tool in
  let tool := set_dragCurrentPoint None tool in
  let tool := set_elementStartBounds ∅ tool in
  (tool, store, set_cursor "default" canvas).

Definition onKeyDown (tool : t) (store : Store.t) (event : KeyboardEvent)
    : Store.t :=
  let state := store in
  let store :=
    if bool_decide (key event = "Delete")
       || bool_decide (key event = "Backspace")
    then
      let selectedIds := JsSet.to_array (Store.selectedElementIds state) in
      if (0 <? length selectedIds)%nat
      then Store.deleteElements selectedIds store
      else store
    else store in
  let store :=
    if bool_decide (key event = "Escape") then Store.clearSelection store
    else store in
  let store :=
    if (ctrlKey event || metaKey event) && bool_decide (key event = "a")
    then
      let allIds :=
        List.filter
          (λ id,
             match Store.elements state !! id with
             | Some element =>
                 negb (Element.isDeleted element)
                 && negb (Element.locked element)
             | None => false
             end)
          (Store.elementOrder state) in
      Store.selectElements allIds store
    else store in
  store.

Definition reset (tool : t) : t :=
  let tool := set_transformMode None tool in
  let tool := set_activeHandle None tool in
  let tool := set_dragStartPoint None tool in
  let tool := set_dragCurrentPoint None tool in
  set_elementStartBounds ∅ tool.

Definition getIsTransforming (tool : t) : bool :=
  bool_decide (transformMode tool ≠ None).

Definition getDragSelectionBox (tool : t) : option Box.t :=
  match transformMode tool, dragStartPoint tool, dragCurrentPoint tool with
  | Some drag_select, Some dragStart, Some dragCurrent =>
      let minX := Math_min (Point.x dragStart) (Point.x dragCurrent) in
      let minY := Math_min (Point.y dragStart) (Point.y dragCurrent) in
      let maxX := Math_max (Point.x dragStart) (Point.x dragCurrent) in
      let maxY := Math_max (Point.y dragStart) (Point.y dragCurrent) in
      Some (Box.mk minX minY (maxX - minX)%num (maxY - minY)%num)
  | _, _, _ => None
  end.

(** the engine is idle: no gesture, no handle, no drag point, no snapshot *)
Definition idle (tool : t) : Prop :=
  transformMode tool = None
  ∧ activeHandle tool = None
  ∧ dragStartPoint tool = None
  ∧ dragCurrentPoint tool = None
  ∧ elementStartBounds tool = ∅.

End WithMath.
End SelectTool.

(** ** Concrete scenes *)
Module Samples.
Import Store.

Definition sample_style : ElementStyle :=
  {| strokeColor := "#000000"; fillColor := "transparent";
     strokeWidth := lit 2; opacity := lit 1;
     roughness := Some (lit 0); fillStyle := Some solid |}.

(** what [createRectangle] builds, the id and the creation number given *)
Definition sample_rect (id : string) (x y width height : Z) : Element.t :=
  Element.mk id (lit x) (lit y) (lit width) (lit height) (lit 0) (lit 1)
    sample_style false false RectangleData.

(** one rectangle ["a"], selected and hovered *)
Definition sample_store : Store.t :=
  setHoveredElement (Some "a")
    (selectElement "a" (addElement (sample_rect "a" 0 0 100 100) initial)).

End Samples.

(** ** Statements about the store *)
Module StoreSpec.
Import Store.

(** [id] is gone from the element map, the z-order list and the
    selection of [s] *)
Definition removed (id : string) (s : Store.t) : Prop :=
  elements s !! id = None
  ∧ (id ∉ elementOrder s)
  ∧ (id ∉ JsSet.to_array (selectedElementIds s)).

(** the hover id of [s], if it was [id], is cleared in [s'] *)
Definition hover_cleared (id : string) (s s' : Store.t) : Prop :=
  hoveredElementId s = Some id → hoveredElementId s' = None.

(** the z-order list has no duplicate and holds the keys of the map *)
Definition z_order_ok (s : Store.t) : Prop :=
  NoDup (elementOrder s)
  ∧ ∀ id, id ∈ elementOrder s ↔ is_Some (elements s !! id).

(** the actions that add, delete and reorder *)
Inductive op : Type :=
| AddElement (element : Element.t)
| DeleteElement (id : string)
| DeleteElements (ids : list string)
| BringToFront (id : string)
| SendToBack (id : string)
| BringForward (id : string)
| SendBackward (id : string).

Definition apply_op (o : op) (s : Store.t) : Store.t :=
  match o with
  | AddElement element => addElement element s
  | DeleteElement id => deleteElement id s
  | DeleteElements ids => deleteElements ids s
  | BringToFront id => bringToFront id s
  | SendToBack id => sendToBack id s
  | BringForward id => bringForward id s
  | SendBackward id => sendBackward id s
  end.

(** the actions applied in turn, the first of the list first *)
Definition run (ops : list op) (s : Store.t) : Store.t :=
  foldl (λ s o, apply_op o s) s ops.

(** every [addElement] of the sequence brings an id that the map does not
    hold when the action is applied *)
Fixpoint adds_fresh (ops : list op) (s : Store.t) : Prop :=
  match ops with
  | [] => True
  | o :: rest =>
      match o with
      | AddElement element => elements s !! Element.id element = None
      | _ => True
      end
      ∧ adds_fresh rest (apply_op o s)
  end.

(** three rectangles added, reordered, one deleted and added again *)
Definition sample_ops : list op :=
  [ AddElement (Samples.sample_rect "a" 0 0 10 10);
    AddElement (Samples.sample_rect "b" 5 5 10 10);
    AddElement (Samples.sample_rect "c" 9 9 10 10);
    BringToFront "a"; SendBackward "a"; BringForward "b";
    SendToBack "c"; DeleteElement "b";
    AddElement (Samples.sample_rect "b" 1 1 2 2);
    DeleteElements ["a"; "z"] ].

(** the same element added twice *)
Definition readding_ops : list op :=
  [ AddElement (Samples.sample_rect "a" 0 0 10 10);
    AddElement (Samples.sample_rect "a" 0 0 10 10) ].

End StoreSpec.

(** ** Statements about points and a stand-in for [Math] *)
Module GeometrySpec.

(** two points that agree up to the representation of their coordinates *)
Definition point_eq (p q : Point.t) : Prop :=
  Point.x p =n= Point.x q ∧ Point.y p =n= Point.y q.

(** A [Math] to compute with: whatever the angle, the cosine and the sine
    are those of the 3-4-5 triangle; the square root is taken on the
    numerator and on the denominator and rounded down, which is exact on
    the square of a rational; [atan2] is 0.  It is there to run the
    models on concrete inputs; the theorems hold for every [MathLib]. *)
Definition sample_math : MathLib :=
  {| cosQ := λ _, 3 # 5;
     sinQ := λ _, 4 # 5;
     sqrtQ := λ q, Z.sqrt (Qnum q) # Pos.sqrt (Qden q);
     Math_atan2 := λ _ _, lit 0 |}.

(** a rectangle turned by [rotation] *)
Definition rotated_rect (id : string) (x y width height rotation : Q)
    : Element.t :=
  Element.mk id (Fin x) (Fin y) (Fin width) (Fin height) (Fin rotation)
    (lit 1) Samples.sample_style false false RectangleData.

(** a 100 by 50 rectangle at (10, 20), turned by 7/9 rad *)
Definition sample_rotated_rect : Element.t :=
  rotated_rect "r" 10 20 100 50 (7 # 9).

End GeometrySpec.

(** ** A manager with eleven dirty rectangles *)
Module DirtyRectSamples.
Import DirtyRect.

(** eleven unit squares marked dirty after a completed frame *)
Definition eleven_regions : DirtyRect.t :=
  foldl (λ m i, markRegionDirty (lit (20 * i)) (lit i) (lit 1) (lit 1) m)
        (clear new) (seqZ 0 11).

End DirtyRectSamples.

(** ** Tools in the middle of a gesture *)
Module ToolSamples.
Import SelectTool.

(** dragging a marquee from (120, 40) up and to the left, to (30, 10) *)
Definition marquee_tool : SelectTool.t :=
  SelectTool.mk (lit 5) (Some drag_select) None
    (Some (Point.mk (Fin 120) (Fin 40)))
    (Some (Point.mk (Fin 30) (Fin 10)))
    ∅.

End ToolSamples.

(** ** Scenes for the resize gesture *)
Module ResizeSamples.
Import SelectTool.

(** the box of scenario D: (0, 0, 100, 100), not rotated *)
Definition square_bounds : StartBounds.t :=
  StartBounds.mk (lit 0) (lit 0) (lit 100) (lit 100) (lit 0).

(** what [createLine(0, 0, 100, 0)] builds: a horizontal line, whose
    bounding box has height [Math.abs(0 - 0)] *)
Definition flat_line : Element.t :=
  Element.mk "l" (lit 0) (lit 0) (lit 100) (lit 0) (lit 0) (lit 1)
    Samples.sample_style false false
    (LineData (lit 0) (lit 0) (lit 100) (lit 0)).

(** the line alone in the scene, selected *)
Definition flat_line_store : Store.t :=
  Store.selectElement "l" (Store.addElement flat_line Store.initial).

(** the tool after a pointer-down at (100, 0), the right end of the
    line: of the handles that lie there, [ne] is the first one in the
    order of [getHandlePositions] *)
Definition flat_line_tool : SelectTool.t :=
  SelectTool.mk (lit 5) (Some resize) (Some Handle.ne)
    (Some (Point.mk (lit 100) (lit 0))) None
    {["l" := snapshot flat_line]}.

Definition origin_canvas : Canvas :=
  {| rectLeft := lit 0; rectTop := lit 0; cursor := "default" |}.

(** a pointer event at (100, 0) with shift held *)
Definition shift_at_start : PointerEvent :=
  {| clientX := lit 100; clientY := lit 0; shiftKey := true |}.

End ResizeSamples.

(** ** A gesture whose element was deleted under it *)
Module GestureSamples.
Import SelectTool.

(** the scene of [sample_store] after ["a"] was deleted by another actor *)
Definition orphan_store : Store.t :=
  Store.deleteElement "a" Samples.sample_store.

(** the tool in the middle of a gesture on ["a"], begun at (10, 10) *)
Definition gesture_tool (mode : TransformMode) (handle : option Handle.t)
    : SelectTool.t :=
  SelectTool.mk (lit 5) (Some mode) handle
    (Some (Point.mk (lit 10) (lit 10))) None
    {["a" := snapshot (Samples.sample_rect "a" 0 0 100 100)]}.

(** a pointer event at (60, 45), no modifier *)
Definition plain_move : PointerEvent :=
  {| clientX := lit 60; clientY := lit 45; shiftKey := false |}.

End GestureSamples.

(** ** A scene of three rectangles *)
Module StoreMoreSamples.
Import Store StoreSpec.

(** ["a"], ["b"] and ["c"] added in that order, ["b"] selected *)
Definition three_store : Store.t :=
  selectElement "b"
    (run [ AddElement (Samples.sample_rect "a" 0 0 10 10);
           AddElement (Samples.sample_rect "b" 5 5 10 10);
           AddElement (Samples.sample_rect "c" 9 9 10 10) ]
         initial).

End StoreMoreSamples.

(** ** The rest of src/lib/canvas-utils.ts *)
Module CanvasUtilsMore.

(** [getCombinedBounds]: the loop over the elements, from the bounds
    [(minX, minY, maxX, maxY)] found so far *)
Definition combineBounds (acc : num * num * num * num)
    (element : Element.t) : num * num * num * num :=
  let '(minX, minY, maxX, maxY) := acc in
  let bounds := Geometry.getElementBounds element in
  (Math_min minX (Bounds.minX bounds), Math_min minY (Bounds.minY bounds),
   Math_max maxX (Bounds.maxX bounds), Math_max maxY (Bounds.maxY bounds)).

Definition getCombinedBounds (elements : list Element.t) : option Bounds.t :=
  match elements with
  | [] => None
  | _ =>
      let '(minX, minY, maxX, maxY) :=
        foldl combineBounds (PInf, PInf, NInf, NInf) elements in
      Some (Bounds.mk minX minY maxX maxY (maxX - minX)%num (maxY - minY)%num)
  end.

(** the [isPointInBounds] of canvas-utils.ts, which takes no padding *)
Definition isPointInBounds (point : Point.t) (bounds : Bounds.t) : bool :=
  (Point.x point >=? Bounds.minX bounds)%num
  && (Point.x point <=? Bounds.maxX bounds)%num
  && (Point.y point >=? Bounds.minY bounds)%num
  && (Point.y point <=? Bounds.maxY bounds)%num.

Definition boundsIntersect (a b : Bounds.t) : bool :=
  negb ((Bounds.maxX a <? Bounds.minX b)%num
        || (Bounds.minX a >? Bounds.maxX b)%num
        || (Bounds.maxY a <? Bounds.minY b)%num
        || (Bounds.minY a >? Bounds.maxY b)%num).


Definition isElementVisible (element : Element.t) (viewportBounds : Bounds.t)
    : bool :=
  let elementBounds := Geometry.getElementBounds element in
  boundsIntersect elementBounds viewportBounds.

Definition clamp (value min max : num) : num :=
  Math_max min (Math_min max value).


End CanvasUtilsMore.

(** ** The viewport hook [useViewport]
    (src/components/Canvas/ZoomIndicator.tsx, second part) *)
Module UseViewport.

(** what the handlers read from a [WheelEvent] and a [PointerEvent] *)
Record WheelEvent : Type := {
  wheel_clientX : num;
  wheel_clientY : num;
  deltaY : num
}.

Record PanEvent : Type := {
  pan_clientX : num;
  pan_clientY : num;
  button : Z
}.

(** the two refs of the hook *)
Record t : Type := mk {
  lastPanPosition : option Point.t;
  isSpacePressed : bool
}.

(** [handleWheel]; [canvas] is [canvasRef.current], [None] for [null] *)
Definition handleWheel (event : WheelEvent) (canvas : option Canvas)
    (store : Store.t) : Store.t :=
  match canvas with
  | None => store
  | Some canvas =>
      let viewport := Store.viewport store in
      let screenX := (wheel_clientX event - rectLeft canvas)%num in
      let screenY := (wheel_clientY event - rectTop canvas)%num in
      let worldBeforeZoom :=
        CanvasUtils.screenToWorld screenX screenY viewport in
      let zoomDelta := (- deltaY event * Fin (1 # 1000))%num in
      let newZoom :=
        Math_max (Fin (1 # 10))
          (Math_min (lit 10)
             (ViewportTransform.zoom viewport * (lit 1 + zoomDelta))%num) in
      let newPanX := (screenX - Point.x worldBeforeZoom * newZoom)%num in
      let newPanY := (screenY - Point.y worldBeforeZoom * newZoom)%num in
      Store.setPan newPanX newPanY (Store.setZoom newZoom store)
  end.

Definition set_isPanning (b : bool) (s : Store.t) : Store.t :=
  Store.mk (Store.viewport s) (Store.elements s) (Store.elementOrder s)
    (Store.activeTool s) (Store.toolOptions s) (Store.selectedElementIds s)
    (Store.hoveredElementId s) (Store.isDragging s) (Store.isDrawing s)
    b (Store.gridEnabled s) (Store.gridSize s) (Store.canUndo s)
    (Store.canRedo s).

(** [handlePointerDown]: the middle button, or the left one with the
    space bar held, starts a pan *)
Definition handlePointerDown (hook : t) (event : PanEvent)
    (canvas : option Canvas) (store : Store.t)
    : t * Store.t * option Canvas :=
  match canvas with
  | None => (hook, store, canvas)
  | Some canvas =>
      let shouldPan :=
        (button event =? 1)%Z
        || ((button event =? 0)%Z && isSpacePressed hook) in
      if shouldPan then
        (mk (Some (Point.mk (pan_clientX event) (pan_clientY event)))
            (isSpacePressed hook),
         set_isPanning true store,
         Some (set_cursor "grabbing" canvas))
      else (hook, store, Some canvas)
  end.


(** [handlePointerUp] *)
Definition handlePointerUp (hook : t) (canvas : option Canvas)
    (store : Store.t) : t * Store.t * option Canvas :=
  match canvas with
  | None => (hook, store, canvas)
  | Some canvas =>
      if Store.isPanning store then
        let canvas :=
          match Store.activeTool store with
          | tool_select => canvas
          | _ =>
              set_cursor (if isSpacePressed hook then "grab" else "crosshair")
                canvas
          end in
        (mk None (isSpacePressed hook), set_isPanning false store,
         Some canvas)
      else (hook, store, Some canvas)
  end.

End UseViewport.

(** ** A wheel event and a pan on a viewport *)
Module ViewportSamples.
Import UseViewport.

(** the scene of [sample_store] seen at zoom 2, panned by (40, -25) *)
Definition zoomed_store : Store.t :=
  Store.setPan (Fin 40) (Fin (-25)) (Store.setZoom (Fin 2) Samples.sample_store).

(** a canvas whose top-left corner is at (8, 16) of the page *)
Definition page_canvas : Canvas :=
  {| rectLeft := Fin 8; rectTop := Fin 16; cursor := "default" |}.

(** a wheel turned by 120 away from the user, over (300, 200) *)
Definition wheel_up : WheelEvent :=
  {| wheel_clientX := Fin 300; wheel_clientY := Fin 200;
     deltaY := Fin (-120) |}.




End ViewportSamples.

(** ** Statements about bounding boxes *)
Module BoundsSpec.

(** the position and the size of the element are finite numbers *)
Definition finite_box (e : Element.t) : bool :=
  isFinite (Element.x e) && isFinite (Element.y e)
  && isFinite (Element.width e) && isFinite (Element.height e).

(** the box from [(minX, minY)] to [(maxX, maxY)] holds the bounding box
    of the element *)
Definition covers (minX minY maxX maxY : num) (e : Element.t) : Prop :=
  (minX <=? Element.x e)%num = true
  ∧ (minY <=? Element.y e)%num = true
  ∧ (Element.x e + Element.width e <=? maxX)%num = true
  ∧ (Element.y e + Element.height e <=? maxY)%num = true.

(** two unit-distant boxes and a far one, as [createRectangle] makes them *)
Definition three_boxes : list Element.t :=
  [ Samples.sample_rect "a" 0 0 10 10;
    Samples.sample_rect "b" (-5) 5 10 10;
    Samples.sample_rect "c" 300 300 10 10 ].

End BoundsSpec.

(** ** Statements about hit testing *)
Module HitSpec.
Section WithMath.
Context `{MathLib}.

(** the element can be picked at the point: it is neither deleted nor
    locked and the hit test succeeds *)
Definition pickable (tool : SelectTool.t) (point : Point.t)
    (element : Element.t) : bool :=
  negb (Element.isDeleted element) && negb (Element.locked element)
  && Geometry.hitTestElement point element (SelectTool.threshold tool).

(** no id of the list names an element that can be picked *)
Definition none_pickable (tool : SelectTool.t) (point : Point.t)
    (elements : gmap string Element.t) (ids : list string) : Prop :=
  ∀ id element,
    id ∈ ids → elements !! id = Some element →
    pickable tool point element = false.

End WithMath.

(** the element can be caught by a marquee: present, not deleted, not
    locked *)
Definition selectable (elements : gmap string Element.t) (id : string)
    : Prop :=
  ∃ element,
    elements !! id = Some element
    ∧ Element.isDeleted element = false
    ∧ Element.locked element = false.

End HitSpec.

(** ** Statements about dirty regions *)
Module DirtyRectSpec.



(** three regions marked after a completed frame: two that overlap and
    one apart *)
Definition three_regions : DirtyRect.t :=
  DirtyRect.markRegionDirty (lit 5) (lit 5) (lit 10) (lit 10)
    (DirtyRect.markRegionDirty (lit 50) (lit 0) (lit 10) (lit 10)
       (DirtyRect.markRegionDirty (lit 0) (lit 0) (lit 10) (lit 10)
          (DirtyRect.clear DirtyRect.new))).

End DirtyRectSpec.

(** ** Key and pointer events on a scene *)
Module EventSamples.
Import SelectTool.

Definition delete_key : KeyboardEvent :=
  {| key := "Delete"; ctrlKey := false; metaKey := false |}.

Definition select_all_key : KeyboardEvent :=
  {| key := "a"; ctrlKey := true; metaKey := false |}.

(** a marquee drawn over the three rectangles of [three_store], from
    (-1, -1) to (12, 12): it touches ["a"], ["b"] and ["c"] *)
Definition marquee_over_three : SelectTool.t :=
  SelectTool.mk (lit 5) (Some drag_select) None
    (Some (Point.mk (lit (-1)) (lit (-1))))
    (Some (Point.mk (lit 12) (lit 12)))
    ∅.

Definition release : PointerEvent :=
  {| clientX := lit 12; clientY := lit 12; shiftKey := false |}.

End EventSamples.

(** ** Statements about the move gesture *)
Module MoveSpec.
Import SelectTool.

(** the element moved to its snapshot position plus the drag *)
Definition moved_by (startBounds : StartBounds.t) (dx dy : num)
    (element : Element.t) : Element.t :=
  Updates.apply element
    (positionUpdate (StartBounds.x startBounds + dx)%num
                    (StartBounds.y startBounds + dy)%num).

(** the tool in the middle of a move of ["b"], begun at (7, 7) before
    ["b"] was moved *)
Definition moving_b_tool : SelectTool.t :=
  SelectTool.mk (lit 5) (Some move) None
    (Some (Point.mk (lit 7) (lit 7))) None
    {["b" := snapshot (Samples.sample_rect "b" 5 5 10 10)]}.

Definition move_to_27_17 : PointerEvent :=
  {| clientX := lit 27; clientY := lit 17; shiftKey := false |}.

End MoveSpec.

(** ** A press on an element of the scene *)
Module PressSamples.

(** a press at (-2, -2), within the hit threshold of ["a"] only, no
    modifier *)
Definition press_on_a : PointerEvent :=
  {| clientX := lit (-2); clientY := lit (-2); shiftKey := false |}.

(** the world point of that press on a canvas at the origin of the page,
    seen through the default viewport *)
Definition press_point : Point.t :=
  CanvasUtils.screenToWorld
    (clientX press_on_a - rectLeft ResizeSamples.origin_canvas)%num
    (clientY press_on_a - rectTop ResizeSamples.origin_canvas)%num
    Store.DEFAULT_VIEWPORT.

(** the scene of three rectangles with nothing selected *)
Definition unselected_store : Store.t :=
  Store.clearSelection StoreMoreSamples.three_store.

(** the scene of three rectangles with ["a"] and ["c"] selected *)
Definition two_selected_store : Store.t :=
  Store.selectElements ["a"; "c"] StoreMoreSamples.three_store.

End PressSamples.

(** ** Statements about resizing *)
Module ResizeSpec.






End ResizeSpec.

(** ** Statements about cursors *)
Module CursorSpec.



End CursorSpec.

(** ** Statements about a session with the selection tool *)
Module SessionSpec.
Section WithMath.
Context `{MathLib}.

(** every element is stored under its own id *)
Definition keyed (s : Store.t) : Prop :=
  ∀ k element, Store.elements s !! k = Some element → Element.id element = k.

(** the selection is a set of ids of the element map *)
Definition selection_ok (s : Store.t) : Prop :=
  NoDup (Store.selectedElementIds s)
  ∧ ∀ id, id ∈ Store.selectedElementIds s →
          is_Some (Store.elements s !! id).

(** the scene is consistent *)
Definition scene_ok (s : Store.t) : Prop :=
  StoreSpec.z_order_ok s ∧ keyed s ∧ selection_ok s.

(** what the canvas hands over to the selection tool, with the viewport
    of the moment *)
Inductive SelectEvent : Type :=
| PointerDown (event : PointerEvent) (viewport : ViewportTransform.t)
| PointerMove (event : PointerEvent) (viewport : ViewportTransform.t)
| PointerUp (event : PointerEvent) (viewport : ViewportTransform.t)
| KeyDown (event : KeyboardEvent).

Definition dispatch (state : SelectTool.t * Store.t * Canvas)
    (ev : SelectEvent) : SelectTool.t * Store.t * Canvas :=
  let '(tool, store, canvas) := state in
  match ev with
  | PointerDown event viewport =>
      SelectTool.onPointerDown tool store event canvas viewport
  | PointerMove event viewport =>
      SelectTool.onPointerMove tool store event canvas viewport
  | PointerUp event viewport =>
      SelectTool.onPointerUp tool store event canvas viewport
  | KeyDown event => (tool, SelectTool.onKeyDown tool store event, canvas)
  end.

Definition session (events : list SelectEvent)
    (state : SelectTool.t * Store.t * Canvas)
    : SelectTool.t * Store.t * Canvas :=
  foldl dispatch state events.

End WithMath.

(** a press on ["a"], a drag, a release, select all, delete *)
Definition sample_session : list SelectEvent :=
  [ PointerDown PressSamples.press_on_a Store.DEFAULT_VIEWPORT;
    PointerMove MoveSpec.move_to_27_17 Store.DEFAULT_VIEWPORT;
    PointerUp MoveSpec.move_to_27_17 Store.DEFAULT_VIEWPORT;
    KeyDown EventSamples.select_all_key;
    KeyDown EventSamples.delete_key ].

End SessionSpec.

(** ** The element factory (src/utils/element-factory.ts) *)

(** [Partial<ElementStyle>] *)
Module PartialStyle.
Record t : Type := mk {
  strokeColor : option string;
  fillColor : option string;
  strokeWidth : option num;
  opacity : option num;
  roughness : option num;
  fillStyle : option FillStyle
}.
End PartialStyle.

Module ElementFactory.

Definition DEFAULT_STYLE : ElementStyle :=
  {| strokeColor := "#000000"; fillColor := "transparent";
     strokeWidth := lit 2; opacity := lit 1;
     roughness := Some (lit 0); fillStyle := Some solid |}.

(** [state.toolOptions] where a [Partial<ElementStyle>] is expected *)
Definition styleOfOptions (options : Store.ToolOptions) : PartialStyle.t :=
  PartialStyle.mk (Some (Store.opt_strokeColor options))
    (Some (Store.opt_fillColor options))
    (Some (Store.opt_strokeWidth options))
    (Some (Store.opt_opacity options)) None None.

(** [{ ...DEFAULT_STYLE, ...style }] *)
Definition withDefaults (style : PartialStyle.t) : ElementStyle :=
  {| strokeColor :=
       Updates.or_else (PartialStyle.strokeColor style)
         (strokeColor DEFAULT_STYLE);
     fillColor :=
       Updates.or_else (PartialStyle.fillColor style)
         (fillColor DEFAULT_STYLE);
     strokeWidth :=
       Updates.or_else (PartialStyle.strokeWidth style)
         (strokeWidth DEFAULT_STYLE);
     opacity :=
       Updates.or_else (PartialStyle.opacity style) (opacity DEFAULT_STYLE);
     roughness :=
       match PartialStyle.roughness style with
       | Some r => Some r
       | None => roughness DEFAULT_STYLE
       end;
     fillStyle :=
       match PartialStyle.fillStyle style with
       | Some f => Some f
       | None => fillStyle DEFAULT_STYLE
       end |}.

(** The factory functions draw the id from [nanoid()] and the z-index
    from [Date.now()]: these are the inputs [id] and [now] here. *)

Definition createRectangle (id : string) (now : num)
    (x y width height : num) (style : PartialStyle.t) : Element.t :=
  Element.mk id x y width height (lit 0) now (withDefaults style)
    false false RectangleData.

Definition createEllipse (id : string) (now : num)
    (x y width height : num) (style : PartialStyle.t) : Element.t :=
  Element.mk id x y width height (lit 0) now (withDefaults style)
    false false EllipseData.

(** [Math.min(...xs)] and [Math.max(...xs)] *)
Definition Math_min_of (xs : list num) : num := foldl Math_min PInf xs.
Definition Math_max_of (xs : list num) : num := foldl Math_max NInf xs.

Definition createFreedraw (id : string) (now : num)
    (points : list (num * num)) (style : PartialStyle.t)
    (pressures : option (list num)) : Element.t :=
  match points with
  | [] =>
      Element.mk id (lit 0) (lit 0) (lit 0) (lit 0) (lit 0) now
        (withDefaults style) false false (FreedrawData [] None)
  | _ =>
      let xs := map fst points in
      let ys := map snd points in
      let minX := Math_min_of xs in
      let minY := Math_min_of ys in
      let maxX := Math_max_of xs in
      let maxY := Math_max_of ys in
      Element.mk id minX minY (maxX - minX)%num (maxY - minY)%num (lit 0) now
        (withDefaults style) false false (FreedrawData points pressures)
  end.

End ElementFactory.

(** ** The drawing tools *)

(** the [PointerEvent] as the ellipse tool reads it: with [altKey] *)
Record DrawEvent : Type := {
  pointer : PointerEvent;
  altKey : bool
}.

(** [rect = canvas.getBoundingClientRect()] and
    [screenToWorld(event.clientX - rect.left, event.clientY - rect.top,
    viewport)], the opening of the pointer callbacks *)
Definition worldPointOf (event : PointerEvent) (canvas : Canvas)
    (viewport : ViewportTransform.t) : Point.t :=
  let screenX := (clientX event - rectLeft canvas)%num in
  let screenY := (clientY event - rectTop canvas)%num in
  CanvasUtils.screenToWorld screenX screenY viewport.

(** an id or [null] in a boolean position: [null] and the empty string
    are falsy *)
Definition truthy_id (id : option string) : option string :=
  match id with
  | Some k => if bool_decide (k = "") then None else Some k
  | None => None
  end.

(** *** The ellipse tool (class [EllipseTool]) *)
Module EllipseTool.

Record t : Type := mk {
  isDrawing : bool;
  startPoint : option Point.t;
  previewElementId : option string
}.

Definition new : t := mk false None None.

Definition onPointerDown (tool : t) (store : Store.t) (event : DrawEvent)
    (canvas : Canvas) (viewport : ViewportTransform.t)
    (id : string) (now : num) : t * Store.t :=
  let state := store in
  if Store.isPanning state then (tool, store)
  else
    let worldPoint := worldPointOf (pointer event) canvas viewport in
    let element :=
      ElementFactory.createEllipse id now
        (Point.x worldPoint) (Point.y worldPoint) (lit 0) (lit 0)
        (ElementFactory.styleOfOptions (Store.toolOptions state)) in
    (mk true (Some worldPoint) (Some (Element.id element)),
     Store.addElement element store).

(** the [x, y, width, height] that [onPointerMove] writes *)
Definition previewBox (startPoint worldPoint : Point.t)
    (shiftKey altKey : bool) : num * num * num * num :=
  let x := Math_min (Point.x startPoint) (Point.x worldPoint) in
  let y := Math_min (Point.y startPoint) (Point.y worldPoint) in
  let width := Math_abs (Point.x worldPoint - Point.x startPoint)%num in
  let height := Math_abs (Point.y worldPoint - Point.y startPoint)%num in
  let '(width, height) :=
    if shiftKey then
      let size := Math_max width height in
      (size, size)
    else (width, height) in
  let '(x, y) :=
    if altKey then
      ((Point.x startPoint - width / lit 2)%num,
       (Point.y startPoint - height / lit 2)%num)
    else (x, y) in
  (x, y, width, height).

Definition onPointerMove (tool : t) (store : Store.t) (event : DrawEvent)
    (canvas : Canvas) (viewport : ViewportTransform.t) : Store.t :=
  match isDrawing tool, startPoint tool, truthy_id (previewElementId tool) with
  | true, Some startPoint, Some previewElementId =>
      let worldPoint := worldPointOf (pointer event) canvas viewport in
      Store.updateElement previewElementId
        (SelectTool.boundsUpdate
           (previewBox startPoint worldPoint (shiftKey (pointer event))
              (altKey event)))
        store
  | _, _, _ => store
  end.

Definition onPointerUp (tool : t) (store : Store.t) (_event : DrawEvent)
    (_canvas : Canvas) (_viewport : ViewportTransform.t) : t * Store.t :=
  if negb (isDrawing tool) then (tool, store)
  else
    let store :=
      match truthy_id (previewElementId tool) with
      | Some previewElementId =>
          match Store.elements store !! previewElementId with
          | Some element =>
              if (Element.width element <? lit 3)%num
                 || (Element.height element <? lit 3)%num
              then Store.deleteElement previewElementId store
              else store
          | None => store
          end
      | None => store
      end in
    (mk false None None, store).

Definition reset (tool : t) : t := mk false None None.

End EllipseTool.

(** *** The pen tool (src/tools/PenTool.ts)

    The element that [onPointerDown] adds holds the array [this.points]
    itself, and [onPointerMove] pushes onto that array before it stores
    an element holding it again: after each call the points of the
    stored preview element are the points of the tool, as they are
    here.  [onPointerUp] and [reset] bind [this.points] to a new array
    and leave the stored one alone. *)
Module PenTool.

Record t : Type := mk {
  isDrawing : bool;
  points : list (num * num);
  previewElementId : option string
}.

Definition new : t := mk false [] None.

Definition onPointerDown (tool : t) (store : Store.t) (event : PointerEvent)
    (canvas : Canvas) (viewport : ViewportTransform.t)
    (id : string) (now : num) : t * Store.t :=
  let state := store in
  if Store.isPanning state then (tool, store)
  else
    let worldPoint := worldPointOf event canvas viewport in
    let points := [(Point.x worldPoint, Point.y worldPoint)] in
    let element :=
      ElementFactory.createFreedraw id now points
        (ElementFactory.styleOfOptions (Store.toolOptions state)) None in
    (mk true points (Some (Element.id element)),
     Store.addElement element store).

(** [{ points, x, y, width, height }] as an update *)
Definition pathUpdate (points : list (num * num)) : Updates.t :=
  let xs := map fst points in
  let ys := map snd points in
  let minX := ElementFactory.Math_min_of xs in
  let minY := ElementFactory.Math_min_of ys in
  let maxX := ElementFactory.Math_max_of xs in
  let maxY := ElementFactory.Math_max_of ys in
  Updates.mk (Some minX) (Some minY)
    (Some (maxX - minX)%num) (Some (maxY - minY)%num)
    None None None None None None None (Some points) None None.

Definition onPointerMove (tool : t) (store : Store.t) (event : PointerEvent)
    (canvas : Canvas) (viewport : ViewportTransform.t) : t * Store.t :=
  match isDrawing tool, truthy_id (previewElementId tool) with
  | true, Some previewElementId =>
      let worldPoint := worldPointOf event canvas viewport in
      let points :=
        points tool ++ [(Point.x worldPoint, Point.y worldPoint)] in
      (mk (isDrawing tool) points (PenTool.previewElementId tool),
       Store.updateElement previewElementId (pathUpdate points) store)
  | _, _ => (tool, store)
  end.

Definition onPointerUp (tool : t) (store : Store.t) (_event : PointerEvent)
    (_canvas : Canvas) (_viewport : ViewportTransform.t) : t * Store.t :=
  if negb (isDrawing tool) then (tool, store)
  else
    let store :=
      match truthy_id (previewElementId tool) with
      | Some previewElementId =>
          if (length (points tool) <? 2)%nat
          then Store.deleteElement previewElementId store
          else store
      | None => store
      end in
    (mk false [] None, store).

Definition reset (tool : t) : t := mk false [] None.

End PenTool.

(** ** Statements about a drawing gesture *)
Module DrawSpec.

(** a press, the moves and the release, handed to the ellipse tool on
    one canvas through one viewport *)
Definition ellipse_gesture (tool : EllipseTool.t) (store : Store.t)
    (down : DrawEvent) (moves : list DrawEvent) (up : DrawEvent)
    (canvas : Canvas) (viewport : ViewportTransform.t)
    (id : string) (now : num) : EllipseTool.t * Store.t :=
  let '(tool, store) :=
    EllipseTool.onPointerDown tool store down canvas viewport id now in
  let store :=
    foldl
      (λ store event,
         EllipseTool.onPointerMove tool store event canvas viewport)
      store moves in
  EllipseTool.onPointerUp tool store up canvas viewport.

(** the same for the pen tool *)
Definition pen_gesture (tool : PenTool.t) (store : Store.t)
    (down : PointerEvent) (moves : list PointerEvent) (up : PointerEvent)
    (canvas : Canvas) (viewport : ViewportTransform.t)
    (id : string) (now : num) : PenTool.t * Store.t :=
  let state := PenTool.onPointerDown tool store down canvas viewport id now in
  let state :=
    foldl
      (λ state event,
         PenTool.onPointerMove state.1 state.2 event canvas viewport)
      state moves in
  PenTool.onPointerUp state.1 state.2 up canvas viewport.




Definition event_at (x y : Z) (shift alt : bool) : DrawEvent :=
  {| pointer := {| clientX := lit x; clientY := lit y; shiftKey := shift |};
     altKey := alt |}.

(** a stroke from (1, 2) over (5, 9) to (3, -4) *)
Definition stroke_start : PointerEvent :=
  {| clientX := lit 1; clientY := lit 2; shiftKey := false |}.

Definition stroke_moves : list PointerEvent :=
  [ {| clientX := lit 5; clientY := lit 9; shiftKey := false |};
    {| clientX := lit 3; clientY := lit (-4); shiftKey := false |} ].

End DrawSpec.

(** ** Constraint helpers (src/utils/geometry.ts) *)
Module Constraints.

(** [snapIncrement] defaults to [Math.PI / 4] *)
Definition snapAngle (angle : num) (snapIncrement : option num) : num :=
  let snapIncrement :=
    Updates.or_else snapIncrement (Math_PI / lit 4)%num in
  (Math_round (angle / snapIncrement) * snapIncrement)%num.

Definition snapToGrid (point : Point.t) (gridSize : num) : Point.t :=
  Point.mk (Math_round (Point.x point / gridSize) * gridSize)%num
           (Math_round (Point.y point / gridSize) * gridSize)%num.

(** [v] is a whole multiple of the step [g] *)
Definition on_grid (g v : Q) : Prop := ∃ k : Z, (v == inject_Z k * g)%Q.

End Constraints.

(** * Properties *)

(** ** JS sets *)
Module JsSetFacts.

Lemma elem_of_add (s : JsSet.t) (k k' : string) :
  k' ∈ JsSet.add s k ↔ k' ∈ s ∨ k' = k.
Proof.
  unfold JsSet.add, JsSet.has. case_bool_decide as Hk.
  - split; [by left | intros [?| ->]; done].
  - rewrite elem_of_app, list_elem_of_singleton. done.
Qed.

Lemma NoDup_add (s : JsSet.t) (k : string) :
  NoDup s → NoDup (JsSet.add s k).
Proof.
  intros Hs. unfold JsSet.add, JsSet.has. case_bool_decide as Hk; [done |].
  apply NoDup_app. split_and!; [done | | apply NoDup_singleton].
  intros k' Hin ->%list_elem_of_singleton. done.
Qed.

Lemma elem_of_foldl_add (l : list string) (acc : JsSet.t) (k : string) :
  k ∈ foldl JsSet.add acc l ↔ k ∈ acc ∨ k ∈ l.
Proof.
  revert acc. induction l as [| a l IH]; intros acc; simpl.
  - rewrite elem_of_nil. tauto.
  - rewrite IH, elem_of_add, elem_of_cons. tauto.
Qed.

Lemma elem_of_of_array (l : list string) (k : string) :
  k ∈ JsSet.of_array l ↔ k ∈ l.
Proof.
  unfold JsSet.of_array. rewrite elem_of_foldl_add, elem_of_nil. tauto.
Qed.

Lemma NoDup_foldl_add (l : list string) (acc : JsSet.t) :
  NoDup acc → NoDup (foldl JsSet.add acc l).
Proof.
  revert acc. induction l as [| a l IH]; intros acc Hacc; simpl; [done |].
  apply IH, NoDup_add, Hacc.
Qed.

Lemma NoDup_of_array (l : list string) : NoDup (JsSet.of_array l).
Proof. apply NoDup_foldl_add, NoDup_nil_2. Qed.

Lemma has_true (s : JsSet.t) (k : string) : JsSet.has s k = true ↔ k ∈ s.
Proof. unfold JsSet.has. by rewrite bool_decide_eq_true. Qed.

Lemma has_false (s : JsSet.t) (k : string) : JsSet.has s k = false ↔ k ∉ s.
Proof. unfold JsSet.has. by rewrite bool_decide_eq_false. Qed.

End JsSetFacts.

(** ** The scene store *)
Module StoreFacts.
Import Samples.
Import Store.

(** *** Updating an element *)

(** C8: an update that names an id outside the element map returns the
    state it was given, whatever the update: the map, the z-order list,
    the selection, the hover id and the viewport are those of before. *)
Theorem updateElement_missing_noop (s : Store.t) (id : string)
    (updates : Updates.t) :
  elements s !! id = None → updateElement id updates s = s.
Proof. intros Hid. unfold updateElement. by rewrite Hid. Qed.

Lemma updateElement_missing_noop_witness :
  elements sample_store !! "b" = None
  ∧ updateElement "b" (SelectTool.positionUpdate (lit 5) (lit 7)) sample_store
    = sample_store.
Proof.
  assert (Hb : elements sample_store !! "b" = None) by reflexivity.
  split; [exact Hb |].
  exact (updateElement_missing_noop sample_store "b" _ Hb).
Defined.

End StoreFacts.

Module DeletionFacts.
Import Store StoreSpec Samples.

Lemma lookup_foldl_delete (ids : list string) (m : gmap string Element.t)
    (k : string) :
  foldl (λ m id, delete id m) m ids !! k
  = if decide (k ∈ ids) then None else m !! k.
Proof.
  revert m. induction ids as [| a ids IH]; intros m.
  - change (m !! k = if decide (k ∈ []) then None else m !! k).
    by rewrite decide_False by apply not_elem_of_nil.
  - change (foldl (λ m id, delete id m) (delete a m) ids !! k
            = if decide (k ∈ a :: ids) then None else m !! k).
    rewrite IH. destruct (decide (k ∈ ids)) as [Hin | Hin].
    + rewrite decide_True by (apply elem_of_cons; by right). done.
    + destruct (decide (k = a)) as [-> | Hne].
      * rewrite decide_True by (apply elem_of_cons; by left).
        apply lookup_delete_eq.
      * rewrite decide_False by (rewrite elem_of_cons; tauto).
        by apply lookup_delete_ne.
Qed.

Lemma deleteElement_removed (s : Store.t) (id : string) :
  removed id (deleteElement id s).
Proof.
  unfold removed, deleteElement; simpl. split_and!.
  - apply lookup_delete_eq.
  - rewrite list_elem_of_filter. tauto.
  - unfold JsSet.to_array.
    rewrite JsSetFacts.elem_of_of_array, list_elem_of_filter. tauto.
Qed.

Lemma deleteElements_removed (s : Store.t) (ids : list string) (id : string) :
  id ∈ ids → removed id (deleteElements ids s).
Proof.
  intros Hin.
  assert (Hhas : JsSet.has (JsSet.of_array ids) id ≠ false).
  { rewrite JsSetFacts.has_false, JsSetFacts.elem_of_of_array. tauto. }
  unfold removed, deleteElements; simpl. split_and!.
  - rewrite lookup_foldl_delete. by rewrite decide_True.
  - rewrite list_elem_of_filter. tauto.
  - unfold JsSet.to_array at 1.
    rewrite JsSetFacts.elem_of_of_array, list_elem_of_filter. tauto.
Qed.

(** C1, as the code has it: deleting an id, alone or in a list of ids,
    removes it from the element map, from the z-order list and from the
    selection; the hovered-element id is the one of before, whether or
    not it is the deleted id. *)
Theorem delete_removes_and_keeps_hover (s : Store.t) (id : string) :
  removed id (deleteElement id s)
  ∧ hoveredElementId (deleteElement id s) = hoveredElementId s
  ∧ ∀ ids : list string,
      id ∈ ids →
      removed id (deleteElements ids s)
      ∧ hoveredElementId (deleteElements ids s) = hoveredElementId s.
Proof.
  split_and!.
  - apply deleteElement_removed.
  - reflexivity.
  - intros ids Hin. split; [by apply deleteElements_removed | reflexivity].
Qed.

Lemma delete_removes_and_keeps_hover_witness :
  "a" ∈ ["a"; "b"]
  ∧ removed "a" (deleteElement "a" sample_store)
  ∧ hoveredElementId (deleteElement "a" sample_store)
    = hoveredElementId sample_store
  ∧ removed "a" (deleteElements ["a"; "b"] sample_store)
  ∧ hoveredElementId (deleteElements ["a"; "b"] sample_store)
    = hoveredElementId sample_store.
Proof.
  assert (Hin : "a" ∈ ["a"; "b"]) by (apply list_elem_of_here).
  pose proof (delete_removes_and_keeps_hover sample_store "a")
    as (Hone & Hhover & Hmany).
  split; [exact Hin |]. split; [exact Hone |]. split; [exact Hhover |].
  exact (Hmany ["a"; "b"] Hin).
Defined.

(** C1, as it is stated, fails on the hover id: in a scene whose only
    element ["a"] is hovered, deleting ["a"] leaves the hover id at
    ["a"]. *)
Lemma deleteElement_hover_not_cleared :
  hoveredElementId sample_store = Some "a"
  ∧ ¬ hover_cleared "a" sample_store (deleteElement "a" sample_store)
  ∧ ¬ hover_cleared "a" sample_store (deleteElements ["a"] sample_store).
Proof.
  split; [reflexivity |].
  split; intros Hc; specialize (Hc eq_refl); discriminate Hc.
Qed.

End DeletionFacts.

Module ZOrderFacts.
Import Store StoreSpec Samples.

Lemma indexOf_lookup (l : list string) (id : string) (i : nat) :
  indexOf l id = Some i → l !! i = Some id.
Proof.
  revert i. induction l as [| k l IH]; intros i; simpl; [done |].
  destruct (decide (k = id)) as [-> | Hne].
  - by intros [= <-].
  - destruct (indexOf l id) as [j |]; simpl; [| done].
    intros [= <-]. simpl. by apply IH.
Qed.

Lemma indexOf_elem_of (l : list string) (id : string) (i : nat) :
  indexOf l id = Some i → id ∈ l.
Proof. intros Hi%indexOf_lookup. by eapply list_elem_of_lookup_2. Qed.

(** exchanging two neighbours permutes the list *)
Lemma swap_next_Permutation (l : list string) (i : nat) :
  swap l i (i + 1) ≡ₚ l.
Proof.
  revert i. induction l as [| a l IH]; intros i.
  - unfold swap. by destruct i.
  - destruct i as [| i].
    + destruct l as [| b l]; [done |]. unfold swap; simpl. apply perm_swap.
    + specialize (IH i). unfold swap in *. simpl.
      destruct (l !! i) as [x |], (l !! (i + 1)%nat) as [y |]; simpl; try done.
      by constructor.
Qed.

Lemma swap_prev_Permutation (l : list string) (i : nat) :
  i ≠ 0%nat → swap l i (i - 1) ≡ₚ l.
Proof.
  intros Hi. destruct i as [| j]; [done |].
  replace (S j - 1)%nat with j by lia.
  rewrite <- (swap_next_Permutation l j) at 2.
  unfold swap. replace (j + 1)%nat with (S j) by lia.
  destruct (l !! S j) as [b |], (l !! j) as [a |]; try done.
  by rewrite list_insert_insert_ne by lia.
Qed.

Lemma z_order_ok_Permutation (s : Store.t) (order : list string) :
  order ≡ₚ elementOrder s → z_order_ok s →
  z_order_ok (set_elementOrder order s).
Proof.
  intros Hp [Hnd Hkeys]. split; simpl.
  - by rewrite Hp.
  - intros id. rewrite Hp. apply Hkeys.
Qed.

Lemma filter_ne_snoc_Permutation (l : list string) (id : string) :
  NoDup l → id ∈ l → filter (λ eid, eid ≠ id) l ++ [id] ≡ₚ l.
Proof.
  intros Hnd Hin. apply NoDup_Permutation; [| done |].
  - apply NoDup_app. split_and!.
    + by apply NoDup_filter.
    + intros k Hk ->%list_elem_of_singleton.
      apply list_elem_of_filter in Hk. tauto.
    + apply NoDup_singleton.
  - intros k. rewrite elem_of_app, list_elem_of_filter, list_elem_of_singleton.
    destruct (decide (k = id)) as [-> | Hne]; tauto.
Qed.

Lemma z_order_ok_initial : z_order_ok initial.
Proof.
  split; simpl; [apply NoDup_nil_2 |].
  intros id. rewrite lookup_empty, elem_of_nil. split; [done |].
  by intros [? ?].
Qed.

Lemma z_order_ok_addElement (s : Store.t) (element : Element.t) :
  elements s !! Element.id element = None →
  z_order_ok s → z_order_ok (addElement element s).
Proof.
  intros Hfresh [Hnd Hkeys]. unfold addElement. split; simpl.
  - apply NoDup_app. split_and!; [done | | apply NoDup_singleton].
    intros k Hk ->%list_elem_of_singleton.
    apply Hkeys in Hk. rewrite Hfresh in Hk. by destruct Hk.
  - intros k. rewrite elem_of_app, list_elem_of_singleton, Hkeys.
    destruct (decide (k = Element.id element)) as [-> | Hne].
    + rewrite lookup_insert_eq. split; [eauto | by right].
    + rewrite lookup_insert_ne by done. tauto.
Qed.

Lemma z_order_ok_deleteElement (s : Store.t) (id : string) :
  z_order_ok s → z_order_ok (deleteElement id s).
Proof.
  intros [Hnd Hkeys]. unfold deleteElement. split; simpl.
  - by apply NoDup_filter.
  - intros k. rewrite list_elem_of_filter, Hkeys.
    destruct (decide (k = id)) as [-> | Hne].
    + rewrite lookup_delete_eq. split; [tauto | by intros [? ?]].
    + rewrite lookup_delete_ne by done. tauto.
Qed.

Lemma z_order_ok_deleteElements (s : Store.t) (ids : list string) :
  z_order_ok s → z_order_ok (deleteElements ids s).
Proof.
  intros [Hnd Hkeys]. unfold deleteElements. split; simpl.
  - by apply NoDup_filter.
  - intros k.
    rewrite list_elem_of_filter, Hkeys, DeletionFacts.lookup_foldl_delete.
    rewrite JsSetFacts.has_false, JsSetFacts.elem_of_of_array.
    destruct (decide (k ∈ ids)) as [Hin | Hin].
    + split; [tauto | by intros [? ?]].
    + tauto.
Qed.

Lemma z_order_ok_bringToFront (s : Store.t) (id : string) :
  z_order_ok s → z_order_ok (bringToFront id s).
Proof.
  intros Hok. unfold bringToFront.
  destruct (indexOf (elementOrder s) id) as [i |] eqn:Hi; [| done].
  case_decide; [done |].
  apply z_order_ok_Permutation; [| done].
  apply filter_ne_snoc_Permutation; [apply Hok |].
  by eapply indexOf_elem_of.
Qed.

Lemma z_order_ok_sendToBack (s : Store.t) (id : string) :
  z_order_ok s → z_order_ok (sendToBack id s).
Proof.
  intros Hok. unfold sendToBack.
  destruct (indexOf (elementOrder s) id) as [i |] eqn:Hi; [| done].
  case_decide; [done |].
  apply z_order_ok_Permutation; [| done].
  rewrite Permutation_cons_append.
  apply filter_ne_snoc_Permutation; [apply Hok |].
  by eapply indexOf_elem_of.
Qed.

Lemma z_order_ok_bringForward (s : Store.t) (id : string) :
  z_order_ok s → z_order_ok (bringForward id s).
Proof.
  intros Hok. unfold bringForward.
  destruct (indexOf (elementOrder s) id) as [i |]; [| done].
  case_decide; [done |].
  apply z_order_ok_Permutation; [apply swap_next_Permutation | done].
Qed.

Lemma z_order_ok_sendBackward (s : Store.t) (id : string) :
  z_order_ok s → z_order_ok (sendBackward id s).
Proof.
  intros Hok. unfold sendBackward.
  destruct (indexOf (elementOrder s) id) as [i |]; [| done].
  case_decide; [done |].
  apply z_order_ok_Permutation; [by apply swap_prev_Permutation | done].
Qed.

Lemma z_order_ok_run (ops : list op) (s : Store.t) :
  adds_fresh ops s → z_order_ok s → z_order_ok (run ops s).
Proof.
  revert s. induction ops as [| o ops IH]; intros s; simpl; [done |].
  intros [Ho Hrest] Hok. apply IH; [done |].
  destruct o; simpl.
  - by apply z_order_ok_addElement.
  - by apply z_order_ok_deleteElement.
  - by apply z_order_ok_deleteElements.
  - by apply z_order_ok_bringToFront.
  - by apply z_order_ok_sendToBack.
  - by apply z_order_ok_bringForward.
  - by apply z_order_ok_sendBackward.
Qed.

(** C2, as the code has it: after any sequence of [addElement],
    [deleteElement], [deleteElements], [bringToFront], [sendToBack],
    [bringForward] and [sendBackward] applied to the initial state in
    which every [addElement] brings an id that the element map does not
    hold at that moment, the z-order list has no duplicate id and its ids
    are the keys of the element map. *)
Theorem z_order_integrity (ops : list op) :
  adds_fresh ops initial → z_order_ok (run ops initial).
Proof. intros Hfresh. apply z_order_ok_run; [done | apply z_order_ok_initial]. Qed.

Lemma z_order_integrity_witness :
  adds_fresh sample_ops initial ∧ z_order_ok (run sample_ops initial).
Proof.
  assert (Hfresh : adds_fresh sample_ops initial).
  { simpl. repeat split; vm_compute; reflexivity. }
  split; [exact Hfresh |].
  exact (z_order_integrity sample_ops Hfresh).
Defined.

(** C2, as it is stated, fails: adding twice an element of the same id
    writes the id twice into the z-order list. *)
Lemma z_order_duplicate_after_readding :
  elementOrder (run readding_ops initial) = ["a"; "a"]
  ∧ ¬ z_order_ok (run readding_ops initial).
Proof.
  split; [reflexivity |].
  intros [Hnd _]. change (NoDup ["a"; "a"]) in Hnd.
  apply NoDup_cons in Hnd as [Hnotin _]. apply Hnotin. left.
Qed.

End ZOrderFacts.

(** ** JS numbers *)
Module NumFacts.

Lemma Qlt_bool_iff (a b : Q) : Qlt_bool a b = true ↔ (a < b)%Q.
Proof. unfold Qlt_bool, Qlt. apply Z.ltb_lt. Qed.

Lemma Qlt_bool_false (a b : Q) : Qlt_bool a b = false ↔ (b <= a)%Q.
Proof. unfold Qlt_bool, Qle. apply Z.ltb_ge. Qed.

Lemma Qsign_Eq (q : Q) : Qsign q = Eq ↔ (q == 0)%Q.
Proof.
  unfold Qsign, Qeq. simpl. rewrite Z.compare_eq_iff. lia.
Qed.

(** a division of finite numbers by a non-zero one is the rational one *)
Lemma div_Fin (p q : Q) :
  ¬ (q == 0)%Q → num_div (Fin p) (Fin q) = Fin (p / q).
Proof.
  intros Hq. unfold num_div.
  destruct (Qsign q) eqn:Hs; try reflexivity.
  by apply Qsign_Eq in Hs.
Qed.

Lemma div_Fin_2 (p : Q) : num_div (Fin p) (lit 2) = Fin (p / 2).
Proof. reflexivity. Qed.

Lemma Qhalf (p : Q) : (p / 2 == p * (1 # 2))%Q.
Proof. field. Qed.

Lemma leb_Fin (p q : Q) : num_leb (Fin p) (Fin q) = true ↔ (p <= q)%Q.
Proof. simpl. apply Qle_bool_iff. Qed.

End NumFacts.

(** ** The viewport *)
Module ViewportFacts.
Import CanvasUtils GeometrySpec NumFacts.

(** C5: for every viewport of finite pan and finite non-zero zoom and
    every finite screen point, [worldToScreen] of [screenToWorld] of the
    point is the point, exactly, in rational arithmetic. *)
Theorem screen_world_round_trip (panX panY zoom sx sy : Q) :
  ¬ (zoom == 0)%Q →
  let viewport := ViewportTransform.mk (Fin zoom) (Fin panX) (Fin panY) in
  let world := screenToWorld (Fin sx) (Fin sy) viewport in
  point_eq (worldToScreen (Point.x world) (Point.y world) viewport)
           (Point.mk (Fin sx) (Fin sy)).
Proof.
  intros Hzoom viewport world. subst world viewport.
  unfold screenToWorld, worldToScreen, point_eq.
  cbn [Point.x Point.y ViewportTransform.zoom ViewportTransform.panX
       ViewportTransform.panY].
  change (num_sub (Fin sx) (Fin panX)) with (Fin (sx + - panX)).
  change (num_sub (Fin sy) (Fin panY)) with (Fin (sy + - panY)).
  rewrite !div_Fin by done.
  cbn [num_mul num_add num_eq]. split; field; done.
Qed.

Lemma screen_world_round_trip_witness :
  ¬ ((3 # 2) == 0)%Q
  ∧ point_eq
      (let viewport :=
         ViewportTransform.mk (Fin (3 # 2)) (Fin 40) (Fin (-25)) in
       let world := screenToWorld (Fin 130) (Fin 77) viewport in
       worldToScreen (Point.x world) (Point.y world) viewport)
      (Point.mk (Fin 130) (Fin 77)).
Proof.
  assert (Hzoom : ¬ ((3 # 2) == 0)%Q) by (intros Heq; discriminate Heq).
  split; [exact Hzoom |].
  exact (screen_world_round_trip 40 (-25) (3 # 2) 130 77 Hzoom).
Defined.

End ViewportFacts.

(** ** The geometry kernel *)
Module GeometryFacts.
Import Geometry GeometrySpec NumFacts.

(** C6: the centre of the unrotated bounding box of an element of
    positive width and height is inside the element for the
    rotation-aware point-in-rectangle test, whatever the (finite)
    rotation and whatever [Math.cos] and [Math.sin] return for it. *)
Theorem center_is_inside `{MathLib} (element : Element.t)
    (x y width height rotation : Q) :
  Element.x element = Fin x →
  Element.y element = Fin y →
  Element.width element = Fin width →
  Element.height element = Fin height →
  Element.rotation element = Fin rotation →
  (0 < width)%Q → (0 < height)%Q →
  isPointInRectangle (getElementCenter element) element (lit 0) = true.
Proof.
  intros Hx Hy Hw Hh Hr Hwidth Hheight.
  unfold isPointInRectangle, getElementCenter.
  rewrite Hx, Hy, Hw, Hh, Hr. cbn [Point.x Point.y].
  rewrite !div_Fin_2. unfold lit, inject_Z.
  destruct (num_eqb (Fin rotation) (Fin (0 # 1)));
    cbn [num_add num_sub num_neg num_mul num_geb num_leb Math_cos Math_sin];
    rewrite !andb_true_iff, !Qle_bool_iff;
    repeat split; rewrite ?(Qhalf width), ?(Qhalf height); lra.
Qed.

Lemma center_is_inside_witness :
  (0 < 100)%Q ∧ (0 < 50)%Q
  ∧ @isPointInRectangle sample_math
      (getElementCenter sample_rotated_rect) sample_rotated_rect (lit 0)
    = true.
Proof.
  assert (Hwidth : (0 < 100)%Q) by reflexivity.
  assert (Hheight : (0 < 50)%Q) by reflexivity.
  split; [exact Hwidth |]. split; [exact Hheight |].
  exact (@center_is_inside sample_math sample_rotated_rect
           10 20 100 50 (7 # 9)
           eq_refl eq_refl eq_refl eq_refl eq_refl Hwidth Hheight).
Defined.

End GeometryFacts.

(** ** Dirty rectangles *)
Module DirtyRectFacts.
Import DirtyRect DirtyRectSamples.

(** C9: when more than 10 dirty rectangles have accumulated (more than 10
    distinct ones make a list of more than 10), asking for the dirty
    regions falls back to a full redraw: the call returns the empty list
    and [needsFullRedraw] holds of the manager afterwards. *)
Theorem many_regions_full_redraw (m : DirtyRect.t) :
  (10 < length (dirtyRegions m))%nat →
  (getDirtyRegions m).1 = []
  ∧ needsFullRedraw (getDirtyRegions m).2 = true.
Proof.
  intros Hlen. unfold getDirtyRegions, needsFullRedraw.
  destruct (fullRedrawNeeded m) eqn:Hfull; [split; [done | exact Hfull] |].
  unfold mergeRegions.
  destruct (dirtyRegions m) as [| a [| b regions]] eqn:Hregions;
    simpl in Hlen; [lia | lia |].
  apply Nat.ltb_lt in Hlen.
  change (length (a :: b :: regions)) with (S (S (length regions))).
  by rewrite Hlen.
Qed.

Lemma many_regions_full_redraw_witness :
  (10 < length (dirtyRegions eleven_regions))%nat
  ∧ (getDirtyRegions eleven_regions).1 = []
  ∧ needsFullRedraw (getDirtyRegions eleven_regions).2 = true.
Proof.
  assert (Hlen : (10 < length (dirtyRegions eleven_regions))%nat).
  { vm_compute. lia. }
  split; [exact Hlen |].
  exact (many_regions_full_redraw eleven_regions Hlen).
Defined.

End DirtyRectFacts.

(** ** The selection tool: the marquee *)
Module MarqueeFacts.
Import SelectTool ToolSamples NumFacts.

Local Ltac order_cases a b :=
  destruct (Q.min_spec a b) as [[? Hmin] | [? Hmin]];
  destruct (Q.max_spec a b) as [[? Hmax] | [? Hmax]];
  rewrite ?Hmin, ?Hmax; lra.

(** C10: in drag-select mode, for every finite drag-start and
    drag-current point, [getDragSelectionBox] returns the rectangle whose
    [x] and [y] are the coordinate-wise minima of the two points and whose
    [width] and [height] are the differences of the maxima and the minima,
    hence not negative, whichever way the user dragged; in every other
    mode it returns [null]. *)
Theorem drag_selection_box (tool : SelectTool.t) :
  (∀ sx sy cx cy : Q,
     transformMode tool = Some drag_select →
     dragStartPoint tool = Some (Point.mk (Fin sx) (Fin sy)) →
     dragCurrentPoint tool = Some (Point.mk (Fin cx) (Fin cy)) →
     ∃ box,
       getDragSelectionBox tool = Some box
       ∧ Box.x box =n= Fin (Qmin sx cx)
       ∧ Box.y box =n= Fin (Qmin sy cy)
       ∧ Box.width box =n= Fin (Qmax sx cx - Qmin sx cx)
       ∧ Box.height box =n= Fin (Qmax sy cy - Qmin sy cy)
       ∧ (Box.width box >=? lit 0)%num = true
       ∧ (Box.height box >=? lit 0)%num = true)
  ∧ (transformMode tool ≠ Some drag_select →
     getDragSelectionBox tool = None).
Proof.
  unfold getDragSelectionBox. split.
  - intros sx sy cx cy -> -> ->. eexists. split; [reflexivity |].
    cbn [Box.x Box.y Box.width Box.height Point.x Point.y].
    unfold Math_min, Math_max, num_geb, lit, inject_Z. cbn [num_ltb].
    destruct (Qlt_bool cx sx) eqn:Hx1, (Qlt_bool sx cx) eqn:Hx2,
             (Qlt_bool cy sy) eqn:Hy1, (Qlt_bool sy cy) eqn:Hy2;
      rewrite ?Qlt_bool_iff, ?Qlt_bool_false in *;
      cbn [num_sub num_add num_neg num_eq num_leb];
      rewrite !Qle_bool_iff;
      split_and!; try lra; unfold Qminus;
      first [order_cases sx cx | order_cases sy cy].
  - intros Hmode. destruct (transformMode tool) as [[] |]; done.
Qed.

Lemma drag_selection_box_witness :
  transformMode marquee_tool = Some drag_select
  ∧ transformMode (SelectTool.new None) ≠ Some drag_select
  ∧ (∃ box,
       getDragSelectionBox marquee_tool = Some box
       ∧ Box.x box =n= Fin (Qmin 120 30)
       ∧ Box.y box =n= Fin (Qmin 40 10)
       ∧ Box.width box =n= Fin (Qmax 120 30 - Qmin 120 30)
       ∧ Box.height box =n= Fin (Qmax 40 10 - Qmin 40 10)
       ∧ (Box.width box >=? lit 0)%num = true
       ∧ (Box.height box >=? lit 0)%num = true)
  ∧ getDragSelectionBox (SelectTool.new None) = None.
Proof.
  assert (Hmarquee : transformMode marquee_tool = Some drag_select)
    by reflexivity.
  assert (Hidle : transformMode (SelectTool.new None) ≠ Some drag_select)
    by discriminate.
  split; [exact Hmarquee |]. split; [exact Hidle |]. split.
  - exact (proj1 (drag_selection_box marquee_tool) 120%Q 40%Q 30%Q 10%Q
             Hmarquee eq_refl eq_refl).
  - exact (proj2 (drag_selection_box (SelectTool.new None)) Hidle).
Defined.

End MarqueeFacts.

(** ** The selection tool: resizing *)
Module ResizeFacts.
Import SelectTool ResizeSamples GeometrySpec NumFacts.

(** C7: on a box starting at (0, 0, 100, 100), the handle [se] dragged by
    (50, 30) with shift held stores width 150 and height 150, [x] and [y]
    staying 0: the width changed more and drives the height through the
    1:1 ratio of the start. *)
Theorem scenario_D_resize (s : Store.t) (id : string) (element : Element.t) :
  Store.elements s !! id = Some element →
  ∃ resized,
    Store.elements
      (performResize id square_bounds (lit 50) (lit 30) (Some Handle.se)
         true s) !! id = Some resized
    ∧ Element.width resized =n= lit 150
    ∧ Element.height resized =n= lit 150
    ∧ Element.x resized =n= lit 0
    ∧ Element.y resized =n= lit 0.
Proof.
  intros Hid. unfold performResize, Store.updateElement. rewrite Hid.
  cbn [Store.elements Store.set_elements]. rewrite lookup_insert_eq.
  eexists. split; [reflexivity |].
  repeat split; vm_compute; reflexivity.
Qed.

Lemma scenario_D_resize_witness :
  Store.elements Samples.sample_store !! "a"
  = Some (Samples.sample_rect "a" 0 0 100 100)
  ∧ ∃ resized,
      Store.elements
        (performResize "a" square_bounds (lit 50) (lit 30) (Some Handle.se)
           true Samples.sample_store) !! "a" = Some resized
      ∧ Element.width resized =n= lit 150
      ∧ Element.height resized =n= lit 150
      ∧ Element.x resized =n= lit 0
      ∧ Element.y resized =n= lit 0.
Proof.
  assert (Hid : Store.elements Samples.sample_store !! "a"
                = Some (Samples.sample_rect "a" 0 0 100 100))
    by reflexivity.
  split; [exact Hid |].
  exact (scenario_D_resize Samples.sample_store "a" _ Hid).
Defined.

(** *** The minimum size *)

(** the clamp [if (v < 1) v = 1] brings every number but [NaN] to 1 or
    more *)
Lemma clamp_at_least_1 (v : num) :
  isNaN v = false →
  ((if (v <? lit 1)%num then lit 1 else v) >=? lit 1)%num = true.
Proof.
  destruct v as [q | | |]; try done. intros _.
  unfold num_geb. cbn [num_ltb lit].
  destruct (Qlt_bool q (inject_Z 1)) eqn:Hq; [reflexivity |].
  apply leb_Fin. by apply Qlt_bool_false in Hq.
Qed.

(** the width and the height that [performResize] writes for finite start
    bounds and a finite drag are 1 or more, as long as the start height
    is not zero when shift is held *)
Lemma resizedBounds_at_least_1 (x y width height rotation dx dy : Q)
    (handle : option Handle.t) (maintainAspectRatio : bool) :
  (maintainAspectRatio = true → ¬ (height == 0)%Q) →
  let b :=
    resizedBounds
      (StartBounds.mk (Fin x) (Fin y) (Fin width) (Fin height) (Fin rotation))
      (Fin dx) (Fin dy) handle maintainAspectRatio in
  (b.1.2 >=? lit 1)%num = true ∧ (b.2 >=? lit 1)%num = true.
Proof.
  intros Hflat b. subst b. unfold resizedBounds.
  cbn [StartBounds.x StartBounds.y StartBounds.width StartBounds.height].
  destruct maintainAspectRatio.
  - rewrite (div_Fin width height) by (by apply Hflat).
    destruct handle as [[] |];
      cbn [num_add num_sub num_neg Math_abs num_gtb num_ltb num_mul];
      match goal with
      | |- context [Qlt_bool ?a ?b] => destruct (Qlt_bool a b) eqn:Hcmp
      end;
      cbn [fst snd]; split; try (by apply clamp_at_least_1);
      (* the height derived from the width: a division by the ratio *)
      apply clamp_at_least_1; unfold num_div;
      destruct (Qsign (width / height)) eqn:Hratio; try reflexivity;
      match goal with
      | |- context [Qsign ?w] => destruct (Qsign w) eqn:Hw
      end; try reflexivity;
      exfalso; apply Qlt_bool_iff in Hcmp;
      apply Qsign_Eq in Hratio; apply Qsign_Eq in Hw;
      assert (Hwidth : (width == 0)%Q)
        by (rewrite <- (Qmult_div_r width height) by (by apply Hflat);
            rewrite Hratio; ring);
      match type of Hcmp with
      | (Qabs ?u < Qabs ?v)%Q =>
          assert (Hv : (v == 0)%Q) by lra;
          rewrite Hv in Hcmp; pose proof (Qabs_nonneg u);
          change (Qabs 0) with 0%Q in Hcmp; lra
      end.
  - destruct handle as [[] |];
      cbn [num_add num_sub num_neg fst snd];
      split; by apply clamp_at_least_1.
Qed.

(** C3 at a horizontal line, whose bounding box has height 0: with shift
    held and the pointer still on the point where the drag of the handle
    [ne] began, [performResize] computes the ratio [100 / 0 = Infinity]
    and the width [0 * Infinity = NaN]; [NaN < 1] is false, so the clamp
    lets it through and the stored width is [NaN], which is not [>= 1].
    The same happens through [onPointerMove]. *)
Theorem shift_resize_flat_line_stores_NaN `{MathLib} :
  let resized_by (store : Store.t) :=
    ∃ resized,
      Store.elements store !! "l" = Some resized
      ∧ Element.width resized = NaN
      ∧ (Element.width resized >=? lit 1)%num = false
      ∧ Element.height resized = lit 1 in
  resized_by
    (performResize "l" (snapshot flat_line) (lit 0) (lit 0) (Some Handle.ne)
       true flat_line_store)
  ∧ resized_by
      (onPointerMove flat_line_tool flat_line_store shift_at_start
         origin_canvas Store.DEFAULT_VIEWPORT).1.2.
Proof.
  split; eexists; (split; [vm_compute; reflexivity |]);
    repeat split; reflexivity.
Qed.

(** the whole gesture on the line, from a fresh tool: the pointer goes
    down on the right end of the line with shift held, which starts a
    resize by the handle [ne], and a move event arrives for the same
    point *)
Example flat_line_gesture :
  let pressed :=
    @onPointerDown sample_math (new None) flat_line_store shift_at_start
      origin_canvas Store.DEFAULT_VIEWPORT in
  let moved :=
    @onPointerMove sample_math pressed.1.1 pressed.1.2 shift_at_start
      pressed.2 Store.DEFAULT_VIEWPORT in
  transformMode pressed.1.1 = Some resize
  ∧ activeHandle pressed.1.1 = Some Handle.ne
  ∧ Element.width <$> (Store.elements moved.1.2 !! "l") = Some NaN.
Proof. vm_compute. repeat split; reflexivity. Qed.

End ResizeFacts.

(** ** The selection tool: a gesture on an element that is gone *)
Module GestureFacts.
Import SelectTool GestureSamples ResizeSamples GeometrySpec.

Lemma updateElement_keeps_absent (s : Store.t) (id k : string)
    (updates : Updates.t) :
  Store.elements s !! k = None →
  Store.elements (Store.updateElement id updates s) !! k = None.
Proof.
  intros Hk. unfold Store.updateElement.
  destruct (Store.elements s !! id) as [element |] eqn:Hid; [| done].
  cbn [Store.elements Store.set_elements].
  rewrite lookup_insert_ne; [done |]. intros ->. congruence.
Qed.

Lemma move_all_keeps_absent (bounds : gmap string StartBounds.t)
    (dx dy : num) (ids : list string) (s : Store.t) (k : string) :
  Store.elements s !! k = None →
  Store.elements
    (foldl
       (λ store id,
          match bounds !! id with
          | Some startBounds =>
              Store.updateElement id
                (positionUpdate (StartBounds.x startBounds + dx)%num
                                (StartBounds.y startBounds + dy)%num)
                store
          | None => store
          end)
       s ids) !! k = None.
Proof.
  revert s. induction ids as [| id ids IH]; intros s Hk; [done |].
  cbn [foldl]. apply IH.
  destruct (bounds !! id); [by apply updateElement_keeps_absent | done].
Qed.

Lemma onPointerUp_idle (tool : SelectTool.t) (store : Store.t)
    (event : PointerEvent) (canvas : Canvas) (viewport : ViewportTransform.t) :
  idle (onPointerUp tool store event canvas viewport).1.1.
Proof. unfold onPointerUp, idle. cbn. done. Qed.

(** C4, as the code has it: when the engine is in a Moving, Resizing or
    Rotating gesture and an element id is no longer in the element map,
    the next [onPointerUp] leaves the engine idle (no transform mode, no
    handle, no drag point, the snapshot cleared); the next [onPointerMove]
    does not abort the gesture: it leaves the engine as it was, and the id
    stays out of the element map. *)
Theorem gesture_on_missing_element `{MathLib} (tool : SelectTool.t)
    (store : Store.t) (event : PointerEvent) (canvas : Canvas)
    (viewport : ViewportTransform.t) (mode : TransformMode) (id : string) :
  transformMode tool = Some mode →
  mode ≠ drag_select →
  Store.elements store !! id = None →
  idle (onPointerUp tool store event canvas viewport).1.1
  ∧ (onPointerMove tool store event canvas viewport).1.1 = tool
  ∧ Store.elements (onPointerMove tool store event canvas viewport).1.2 !! id
    = None.
Proof.
  intros Hmode Hgesture Hid. split; [apply onPointerUp_idle |].
  unfold onPointerMove. rewrite Hmode.
  destruct (dragStartPoint tool) as [dragStart |].
  - destruct mode; [| | | done].
    + cbn [fst snd]. split; [done |]. by apply move_all_keeps_absent.
    + destruct (activeHandle tool) as [handle |]; cbn [fst snd];
        (split; [done |]); [| done].
      destruct (firstSelected store) as [selectedId |]; [| done].
      cbn [mbind option_bind].
      destruct (elementStartBounds tool !! selectedId); [| done].
      by apply updateElement_keeps_absent.
    + cbn [fst snd]. split; [done |].
      destruct (firstSelected store) as [selectedId |]; [| done].
      cbn [mbind option_bind].
      destruct (Store.elements store !! selectedId); [| done].
      destruct (elementStartBounds tool !! selectedId); [| done].
      by apply updateElement_keeps_absent.
  - destruct (selectedHandleAt _ store) as [[[selectedId selectedElement] handle] |];
      cbn [fst snd]; done.
Qed.

Lemma gesture_on_missing_element_witness :
  transformMode (gesture_tool move None) = Some move
  ∧ move ≠ drag_select
  ∧ Store.elements orphan_store !! "a" = None
  ∧ idle (onPointerUp (gesture_tool move None) orphan_store
            plain_move origin_canvas Store.DEFAULT_VIEWPORT).1.1
  ∧ (@onPointerMove sample_math (gesture_tool move None) orphan_store
       plain_move origin_canvas Store.DEFAULT_VIEWPORT).1.1
    = gesture_tool move None
  ∧ Store.elements
      (@onPointerMove sample_math (gesture_tool move None) orphan_store
         plain_move origin_canvas Store.DEFAULT_VIEWPORT).1.2 !! "a"
    = None.
Proof.
  assert (Hmode : transformMode (gesture_tool move None) = Some move)
    by reflexivity.
  assert (Hgesture : move ≠ drag_select) by discriminate.
  assert (Hid : Store.elements orphan_store !! "a" = None) by reflexivity.
  split; [exact Hmode |]. split; [exact Hgesture |]. split; [exact Hid |].
  exact (@gesture_on_missing_element sample_math (gesture_tool move None)
           orphan_store plain_move origin_canvas Store.DEFAULT_VIEWPORT
           move "a" Hmode Hgesture Hid).
Defined.

(** C4, as it is stated, fails for [onPointerMove]: with the element
    ["a"] deleted under a Moving, a Resizing or a Rotating gesture, the
    callback leaves the transform mode set and the snapshot in place; the
    engine is not idle. *)
Lemma onPointerMove_does_not_abort :
  Store.elements orphan_store !! "a" = None
  ∧ ¬ idle (@onPointerMove sample_math (gesture_tool move None)
              orphan_store plain_move origin_canvas
              Store.DEFAULT_VIEWPORT).1.1
  ∧ ¬ idle (@onPointerMove sample_math
              (gesture_tool resize (Some Handle.se))
              orphan_store plain_move origin_canvas
              Store.DEFAULT_VIEWPORT).1.1
  ∧ ¬ idle (@onPointerMove sample_math
              (gesture_tool rotate (Some Handle.rotation))
              orphan_store plain_move origin_canvas
              Store.DEFAULT_VIEWPORT).1.1.
Proof.
  split; [reflexivity |].
  split_and!; intros [Hmode _]; vm_compute in Hmode; discriminate Hmode.
Qed.

End GestureFacts.

(** * Further properties of the code *)

(** ** The scene store: zoom, deletion and reordering *)
Module StoreMoreFacts.
Import Store StoreSpec Samples StoreMoreSamples NumFacts.

(** *** [setZoom] *)

(** [setZoom] stores a zoom between 0.1 and 10 for every request but
    [NaN], the request itself when it lies in that range, and leaves the
    pan alone; a [NaN] request is stored as [NaN]. *)
Theorem setZoom_clamps (s : Store.t) (zoom : num) :
  (isNaN zoom = false →
   ∃ z : Q,
     ViewportTransform.zoom (viewport (setZoom zoom s)) = Fin z
     ∧ (1 # 10 <= z)%Q ∧ (z <= 10)%Q
     ∧ ∀ q : Q, zoom = Fin q → (1 # 10 <= q)%Q → (q <= 10)%Q → (z == q)%Q)
  ∧ (zoom = NaN →
     ViewportTransform.zoom (viewport (setZoom zoom s)) = NaN)
  ∧ ViewportTransform.panX (viewport (setZoom zoom s))
    = ViewportTransform.panX (viewport s)
  ∧ ViewportTransform.panY (viewport (setZoom zoom s))
    = ViewportTransform.panY (viewport s).
Proof.
  split_and!; try reflexivity; [| by intros ->].
  intros Hnan. unfold setZoom. cbn [viewport set_viewport ViewportTransform.zoom].
  destruct zoom as [q | | |]; try done.
  - unfold Math_min, Math_max, lit, inject_Z. cbn [num_ltb].
    destruct (Qlt_bool q (10 # 1)) eqn:Hhi; cbn [num_ltb].
    + destruct (Qlt_bool (1 # 10) q) eqn:Hlo.
      * apply Qlt_bool_iff in Hhi, Hlo. exists q.
        split_and!; [done | lra | lra |]. by intros ? [= ->] _ _.
      * apply Qlt_bool_iff in Hhi. apply Qlt_bool_false in Hlo.
        exists (1 # 10). split_and!; [done | lra | lra |].
        intros ? [= ->] ? _. lra.
    + apply Qlt_bool_false in Hhi. exists (10 # 1).
      split_and!; [done | lra | lra |]. intros ? [= ->] _ ?. lra.
  - exists (10 # 1). split_and!; [done | lra | lra | done].
  - exists (1 # 10). split_and!; [done | lra | lra | done].
Qed.

Lemma setZoom_clamps_witness :
  isNaN (Fin 250) = false
  ∧ ∃ z : Q,
      ViewportTransform.zoom (viewport (setZoom (Fin 250) sample_store))
      = Fin z
      ∧ (1 # 10 <= z)%Q ∧ (z <= 10)%Q.
Proof.
  assert (Hnan : isNaN (Fin 250) = false) by reflexivity.
  split; [exact Hnan |].
  destruct (proj1 (setZoom_clamps sample_store (Fin 250)) Hnan)
    as (z & Hz & Hlo & Hhi & _).
  exists z. split; [exact Hz |]. split; [exact Hlo | exact Hhi].
Defined.

(** *** Deleting *)

Lemma foldl_add_NoDup (l acc : list string) :
  NoDup (acc ++ l) → foldl JsSet.add acc l = acc ++ l.
Proof.
  revert acc. induction l as [| a l IH]; intros acc Hnd; simpl.
  - by rewrite app_nil_r.
  - replace (JsSet.add acc a) with (acc ++ [a]).
    + rewrite IH; rewrite <- app_assoc; done.
    + unfold JsSet.add. rewrite (proj2 (JsSetFacts.has_false acc a)); [done |].
      apply NoDup_app in Hnd as (_ & Hdisj & _). intros Hin.
      apply (Hdisj a Hin). by left.
Qed.

(** a set built from an array without duplicates is that array *)
Lemma of_array_NoDup (l : list string) : NoDup l → JsSet.of_array l = l.
Proof. intros Hnd. unfold JsSet.of_array. by rewrite foldl_add_NoDup. Qed.

Lemma store_eq (s s' : Store.t) :
  viewport s = viewport s' → elements s = elements s' →
  elementOrder s = elementOrder s' → activeTool s = activeTool s' →
  toolOptions s = toolOptions s' →
  selectedElementIds s = selectedElementIds s' →
  hoveredElementId s = hoveredElementId s' →
  isDragging s = isDragging s' → isDrawing s = isDrawing s' →
  isPanning s = isPanning s' → gridEnabled s = gridEnabled s' →
  gridSize s = gridSize s' → canUndo s = canUndo s' →
  canRedo s = canRedo s' → s = s'.
Proof. destruct s, s'; simpl; intros; by subst. Qed.

Lemma filter_filter_iff (P1 P2 P3 : string → Prop)
    `{!∀ k, Decision (P1 k), !∀ k, Decision (P2 k), !∀ k, Decision (P3 k)}
    (l : list string) :
  (∀ k, P1 k ∧ P2 k ↔ P3 k) → filter P1 (filter P2 l) = filter P3 l.
Proof.
  intros Hiff. induction l as [| k l IH]; [done |].
  rewrite !filter_cons. specialize (Hiff k).
  destruct (decide (P2 k)), (decide (P3 k)); rewrite ?filter_cons;
    try destruct (decide (P1 k)); by (f_equal || tauto).
Qed.

Lemma deleteElements_cons (a : string) (ids : list string) (s : Store.t) :
  NoDup (selectedElementIds s) →
  deleteElements ids (deleteElement a s) = deleteElements (a :: ids) s.
Proof.
  intros Hsel.
  assert (Hpred : ∀ k,
            JsSet.has (JsSet.of_array ids) k = false ∧ k ≠ a
            ↔ JsSet.has (JsSet.of_array (a :: ids)) k = false).
  { intros k. rewrite !JsSetFacts.has_false, !JsSetFacts.elem_of_of_array.
    rewrite elem_of_cons. tauto. }
  apply store_eq; try reflexivity;
    unfold deleteElements, deleteElement;
    cbn [elementOrder selectedElementIds set_selectedElementIds
         set_elementOrder set_elements];
    unfold JsSet.to_array.
  - by apply filter_filter_iff.
  - rewrite (of_array_NoDup (filter _ (selectedElementIds s)))
      by (by apply NoDup_filter).
    f_equal. by apply filter_filter_iff.
Qed.

Lemma NoDup_selection_deleteElement (a : string) (s : Store.t) :
  NoDup (selectedElementIds (deleteElement a s)).
Proof. apply JsSetFacts.NoDup_of_array. Qed.

Lemma filter_all (P : string → Prop) `{!∀ k, Decision (P k)}
    (l : list string) :
  (∀ k, P k) → filter P l = l.
Proof.
  intros Hall. induction l as [| k l IH]; [done |].
  rewrite filter_cons, decide_True by apply Hall. by f_equal.
Qed.

Lemma deleteElements_nil (s : Store.t) :
  NoDup (selectedElementIds s) → deleteElements [] s = s.
Proof.
  intros Hsel. apply store_eq; try reflexivity;
    unfold deleteElements;
    cbn [elementOrder selectedElementIds set_selectedElementIds
         set_elementOrder set_elements];
    unfold JsSet.to_array.
  - apply filter_all. intros k. reflexivity.
  - rewrite filter_all by (intros k; reflexivity).
    by apply of_array_NoDup.
Qed.

(** [deleteElements] does what deleting the ids one after the other with
    [deleteElement] does, on every state whose selection is a set. *)
Theorem deleteElements_is_iterated_deleteElement (ids : list string)
    (s : Store.t) :
  NoDup (selectedElementIds s) →
  deleteElements ids s = foldl (λ s id, deleteElement id s) s ids.
Proof.
  revert s. induction ids as [| a ids IH]; intros s Hsel.
  - by apply deleteElements_nil.
  - cbn [foldl]. rewrite <- IH by apply NoDup_selection_deleteElement.
    symmetry. by apply deleteElements_cons.
Qed.

Lemma deleteElements_is_iterated_deleteElement_witness :
  NoDup (selectedElementIds sample_store)
  ∧ deleteElements ["b"; "a"] sample_store
    = deleteElement "a" (deleteElement "b" sample_store).
Proof.
  assert (Hsel : NoDup (selectedElementIds sample_store)).
  { apply NoDup_cons. split; [apply not_elem_of_nil | apply NoDup_nil_2]. }
  split; [exact Hsel |].
  exact (deleteElements_is_iterated_deleteElement ["b"; "a"] sample_store
           Hsel).
Defined.

(** Deleting an id leaves every other id as it was: its element, its
    membership of the z-order list and of the selection; the ids that stay
    keep their order, and the viewport is untouched. *)
Theorem deleteElement_leaves_others (s : Store.t) (id other : string) :
  other ≠ id →
  elements (deleteElement id s) !! other = elements s !! other
  ∧ (other ∈ elementOrder (deleteElement id s) ↔ other ∈ elementOrder s)
  ∧ (other ∈ selectedElementIds (deleteElement id s)
     ↔ other ∈ selectedElementIds s)
  ∧ elementOrder (deleteElement id s) `sublist_of` elementOrder s
  ∧ viewport (deleteElement id s) = viewport s.
Proof.
  intros Hne. unfold deleteElement.
  cbn [elements elementOrder selectedElementIds viewport
       set_selectedElementIds set_elementOrder set_elements].
  split_and!.
  - by apply lookup_delete_ne.
  - rewrite list_elem_of_filter. tauto.
  - unfold JsSet.to_array.
    rewrite JsSetFacts.elem_of_of_array, list_elem_of_filter. tauto.
  - apply sublist_filter.
  - reflexivity.
Qed.

Lemma deleteElement_leaves_others_witness :
  "a" ≠ "b"
  ∧ elements (deleteElement "b" sample_store) !! "a"
    = elements sample_store !! "a"
  ∧ ("a" ∈ elementOrder (deleteElement "b" sample_store)
     ↔ "a" ∈ elementOrder sample_store).
Proof.
  assert (Hne : "a" ≠ "b") by discriminate.
  pose proof (deleteElement_leaves_others sample_store "b" "a" Hne)
    as (Hmap & Horder & _).
  split; [exact Hne |]. split; [exact Hmap | exact Horder].
Defined.

(** *** Reordering *)

Lemma indexOf_None (l : list string) (id : string) :
  indexOf l id = None ↔ id ∉ l.
Proof.
  induction l as [| k l IH]; simpl.
  - split; [intros _; apply not_elem_of_nil | done].
  - rewrite not_elem_of_cons. destruct (decide (k = id)) as [-> | Hne].
    + split; [done | tauto].
    + destruct (indexOf l id); simpl.
      * split; [done |]. intros [_ Hnot]. by apply IH in Hnot.
      * split; [| done]. intros _. split; [done | by apply IH].
Qed.

Lemma indexOf_first (l : list string) (id : string) (i k : nat) :
  indexOf l id = Some i → (k < i)%nat → l !! k ≠ Some id.
Proof.
  revert i k. induction l as [| a l IH]; intros i k; simpl; [done |].
  destruct (decide (a = id)) as [-> | Hne].
  - intros [= <-] Hk. lia.
  - destruct (indexOf l id) as [j |] eqn:Hj; simpl; [| done].
    intros [= <-] Hk. destruct k as [| k]; simpl.
    + congruence.
    + eapply IH; [done | lia].
Qed.

Lemma indexOf_intro (l : list string) (id : string) (i : nat) :
  l !! i = Some id → (∀ k, (k < i)%nat → l !! k ≠ Some id) →
  indexOf l id = Some i.
Proof.
  revert i. induction l as [| a l IH]; intros i; simpl; [done |].
  destruct i as [| i]; simpl.
  - intros [= ->] _. by rewrite decide_True.
  - intros Hi Hfirst. rewrite decide_False.
    + rewrite (IH i); [done | done |].
      intros k Hk. apply (Hfirst (S k)). lia.
    + intros ->. by apply (Hfirst 0%nat); [lia |].
Qed.

Lemma indexOf_NoDup (l : list string) (id : string) (i : nat) :
  NoDup l → l !! i = Some id → indexOf l id = Some i.
Proof.
  intros Hnd Hi. apply indexOf_intro; [done |].
  intros k Hk Hk'. pose proof (NoDup_lookup l k i id Hnd Hk' Hi). lia.
Qed.

Lemma filter_ne_twice (l : list string) (id : string) :
  filter (λ k, k ≠ id) (filter (λ k, k ≠ id) l) = filter (λ k, k ≠ id) l.
Proof. apply filter_filter_iff. tauto. Qed.

(** [bringToFront] makes an id of the z-order list its last entry, the
    one painted on top; the other ids keep their order, the elements are
    untouched; an id outside the list changes nothing. *)
Theorem bringToFront_puts_on_top (s : Store.t) (id : string) :
  (id ∈ elementOrder s → last (elementOrder (bringToFront id s)) = Some id)
  ∧ filter (λ k, k ≠ id) (elementOrder (bringToFront id s))
    = filter (λ k, k ≠ id) (elementOrder s)
  ∧ (id ∉ elementOrder s → bringToFront id s = s)
  ∧ elements (bringToFront id s) = elements s.
Proof.
  unfold bringToFront.
  destruct (indexOf (elementOrder s) id) as [i |] eqn:Hi.
  - assert (Hin : ¬ (id ∉ elementOrder s)).
    { intros Hnot. apply indexOf_None in Hnot. congruence. }
    case_decide as Hlast.
    + split; [| by split_and!]. intros _.
      rewrite last_lookup, <- Nat.sub_1_r, <- Hlast.
      by apply ZOrderFacts.indexOf_lookup.
    + cbn [elementOrder elements set_elementOrder].
      split; [intros _; apply last_snoc |].
      split; [| by split]. rewrite filter_app, filter_ne_twice.
      rewrite filter_cons, decide_False by tauto.
      apply app_nil_r.
  - split; [| by split_and!]. intros Hin. by apply indexOf_None in Hi.
Qed.

Lemma bringToFront_puts_on_top_witness :
  "a" ∈ elementOrder three_store
  ∧ last (elementOrder (bringToFront "a" three_store)) = Some "a"
  ∧ ("z" ∉ elementOrder three_store)
  ∧ bringToFront "z" three_store = three_store.
Proof.
  assert (Hin : "a" ∈ elementOrder three_store) by apply list_elem_of_here.
  assert (Hout : "z" ∉ elementOrder three_store).
  { intros Hz. apply list_elem_of_In in Hz. simpl in Hz.
    destruct Hz as [Hz | [Hz | [Hz | []]]]; discriminate Hz. }
  split; [exact Hin |].
  split; [exact (proj1 (bringToFront_puts_on_top three_store "a") Hin) |].
  split; [exact Hout |].
  exact (proj1 (proj2 (proj2 (bringToFront_puts_on_top three_store "z")))
           Hout).
Defined.

(** [sendToBack] makes an id of the z-order list its first entry, the
    one painted first; the other ids keep their order, the elements are
    untouched; an id outside the list changes nothing. *)
Theorem sendToBack_puts_at_bottom (s : Store.t) (id : string) :
  (id ∈ elementOrder s → head (elementOrder (sendToBack id s)) = Some id)
  ∧ filter (λ k, k ≠ id) (elementOrder (sendToBack id s))
    = filter (λ k, k ≠ id) (elementOrder s)
  ∧ (id ∉ elementOrder s → sendToBack id s = s)
  ∧ elements (sendToBack id s) = elements s.
Proof.
  unfold sendToBack.
  destruct (indexOf (elementOrder s) id) as [i |] eqn:Hi.
  - assert (Hin : ¬ (id ∉ elementOrder s)).
    { intros Hnot. apply indexOf_None in Hnot. congruence. }
    case_decide as Hfirst.
    + split; [| by split_and!]. intros _. subst i.
      rewrite head_lookup. by apply ZOrderFacts.indexOf_lookup.
    + cbn [elementOrder elements set_elementOrder].
      split; [done |]. split; [| by split].
      rewrite filter_cons, decide_False by tauto. apply filter_ne_twice.
  - split; [| by split_and!]. intros Hin. by apply indexOf_None in Hi.
Qed.

Lemma sendToBack_puts_at_bottom_witness :
  "c" ∈ elementOrder three_store
  ∧ head (elementOrder (sendToBack "c" three_store)) = Some "c".
Proof.
  assert (Hin : "c" ∈ elementOrder three_store).
  { do 2 apply list_elem_of_further. apply list_elem_of_here. }
  split; [exact Hin |].
  exact (proj1 (sendToBack_puts_at_bottom three_store "c") Hin).
Defined.

Lemma set_elementOrder_twice (s : Store.t) (order : list string) :
  set_elementOrder (elementOrder s) (set_elementOrder order s) = s.
Proof. by destruct s. Qed.

(** [bringForward] moves an id that is not on top one place up: it takes
    the place of the id above it, which takes its place, and no other
    place changes; [sendBackward] then brings the state back.  The z-order
    list is taken without duplicates. *)
Theorem bringForward_one_step (s : Store.t) (id : string) (i : nat) :
  NoDup (elementOrder s) →
  indexOf (elementOrder s) id = Some i →
  (i + 1 < length (elementOrder s))%nat →
  indexOf (elementOrder (bringForward id s)) id = Some (i + 1)%nat
  ∧ elementOrder (bringForward id s) !! i = elementOrder s !! (i + 1)%nat
  ∧ (∀ k, k ≠ i → k ≠ (i + 1)%nat →
       elementOrder (bringForward id s) !! k = elementOrder s !! k)
  ∧ sendBackward id (bringForward id s) = s.
Proof.
  intros Hnd Hi Hlt.
  pose proof (ZOrderFacts.indexOf_lookup _ _ _ Hi) as Hid.
  destruct (lookup_lt_is_Some_2 (elementOrder s) (i + 1)%nat Hlt)
    as [above Habove].
  assert (Hstep : elementOrder (bringForward id s)
                  = <[(i + 1)%nat := id]> (<[i := above]> (elementOrder s))).
  { unfold bringForward. rewrite Hi, decide_False by lia.
    cbn [elementOrder set_elementOrder]. unfold swap.
    by rewrite Hid, Habove. }
  assert (Hnew : elementOrder (bringForward id s) !! (i + 1)%nat = Some id).
  { rewrite Hstep. apply list_lookup_insert_eq.
    by rewrite length_insert. }
  assert (Hold : elementOrder (bringForward id s) !! i = Some above).
  { rewrite Hstep, list_lookup_insert_ne by lia.
    apply list_lookup_insert_eq. lia. }
  assert (Hrest : ∀ k, k ≠ i → k ≠ (i + 1)%nat →
            elementOrder (bringForward id s) !! k = elementOrder s !! k).
  { intros k Hk Hk'. rewrite Hstep. by rewrite !list_lookup_insert_ne by lia. }
  assert (Hnd' : NoDup (elementOrder (bringForward id s))).
  { unfold bringForward. rewrite Hi, decide_False by lia.
    cbn [elementOrder set_elementOrder].
    by rewrite ZOrderFacts.swap_next_Permutation. }
  assert (Hindex : indexOf (elementOrder (bringForward id s)) id
                   = Some (i + 1)%nat) by (by apply indexOf_NoDup).
  split; [exact Hindex |]. split; [by rewrite Hold |]. split; [exact Hrest |].
  unfold sendBackward. rewrite Hindex, decide_False by lia.
  unfold swap. replace (i + 1 - 1)%nat with i by lia. rewrite Hnew, Hold.
  replace (<[i := id]> (<[(i + 1)%nat := above]>
             (elementOrder (bringForward id s))))
    with (elementOrder s).
  - unfold bringForward. rewrite Hi, decide_False by lia.
    apply set_elementOrder_twice.
  - apply list_eq. intros k.
    destruct (decide (k = i)) as [-> | Hk].
    + rewrite list_lookup_insert_eq; [done |].
      rewrite length_insert, Hstep, !length_insert. lia.
    + rewrite list_lookup_insert_ne by done.
      destruct (decide (k = (i + 1)%nat)) as [-> | Hk'].
      * rewrite list_lookup_insert_eq; [done |].
        rewrite Hstep, !length_insert. lia.
      * rewrite list_lookup_insert_ne by done. symmetry. by apply Hrest.
Qed.

Lemma bringForward_one_step_witness :
  NoDup (elementOrder three_store)
  ∧ indexOf (elementOrder three_store) "a" = Some 0%nat
  ∧ (0 + 1 < length (elementOrder three_store))%nat
  ∧ indexOf (elementOrder (bringForward "a" three_store)) "a" = Some 1%nat
  ∧ sendBackward "a" (bringForward "a" three_store) = three_store.
Proof.
  assert (Hnd : NoDup (elementOrder three_store)).
  { apply (bool_decide_unpack _). vm_compute. exact I. }
  assert (Hi : indexOf (elementOrder three_store) "a" = Some 0%nat)
    by reflexivity.
  assert (Hlt : (0 + 1 < length (elementOrder three_store))%nat)
    by (simpl; lia).
  pose proof (bringForward_one_step three_store "a" 0 Hnd Hi Hlt)
    as (Hindex & _ & _ & Hback).
  split; [exact Hnd |]. split; [exact Hi |]. split; [exact Hlt |].
  split; [exact Hindex | exact Hback].
Defined.

End StoreMoreFacts.

(** ** The order on JS numbers *)
Module NumOrder.
Import NumFacts.

Lemma leb_trans (a b c : num) :
  num_leb a b = true → num_leb b c = true → num_leb a c = true.
Proof.
  destruct a as [p | | |], b as [q | | |], c as [r | | |];
    simpl; try done.
  rewrite !Qle_bool_iff. apply Qle_trans.
Qed.


Lemma not_NaN_of_leb (a b : num) :
  num_leb a b = true → isNaN a = false ∧ isNaN b = false.
Proof. by destruct a, b. Qed.

Lemma leb_refl (a : num) : isNaN a = false → num_leb a a = true.
Proof.
  destruct a as [p | | |]; simpl; try done.
  intros _. apply Qle_bool_iff. apply Qle_refl.
Qed.

Lemma leb_total (a b : num) :
  isNaN a = false → isNaN b = false →
  num_ltb b a = false → num_leb a b = true.
Proof.
  destruct a as [p | | |], b as [q | | |]; simpl; try done.
  rewrite Qle_bool_iff, Qlt_bool_false. done.
Qed.

Lemma ltb_leb (a b : num) : num_ltb a b = true → num_leb a b = true.
Proof.
  destruct a as [p | | |], b as [q | | |]; simpl; try done.
  rewrite Qle_bool_iff, Qlt_bool_iff. apply Qlt_le_weak.
Qed.

Lemma Math_min_not_NaN (a b : num) :
  isNaN a = false → isNaN b = false → isNaN (Math_min a b) = false.
Proof.
  intros Ha Hb. unfold Math_min.
  destruct a, b; try done; by destruct (num_ltb _ _).
Qed.

Lemma Math_max_not_NaN (a b : num) :
  isNaN a = false → isNaN b = false → isNaN (Math_max a b) = false.
Proof.
  intros Ha Hb. unfold Math_max.
  destruct a, b; try done; by destruct (num_ltb _ _).
Qed.

Lemma Math_min_eq (a b : num) :
  isNaN a = false → isNaN b = false →
  Math_min a b = if num_ltb b a then b else a.
Proof. by destruct a, b. Qed.

Lemma Math_max_eq (a b : num) :
  isNaN a = false → isNaN b = false →
  Math_max a b = if num_ltb a b then b else a.
Proof. by destruct a, b. Qed.

Lemma Math_min_leb_l (a b : num) :
  isNaN a = false → isNaN b = false → num_leb (Math_min a b) a = true.
Proof.
  intros Ha Hb. rewrite Math_min_eq by done.
  destruct (num_ltb b a) eqn:Hlt; [by apply ltb_leb | by apply leb_refl].
Qed.

Lemma Math_min_leb_r (a b : num) :
  isNaN a = false → isNaN b = false → num_leb (Math_min a b) b = true.
Proof.
  intros Ha Hb. rewrite Math_min_eq by done.
  destruct (num_ltb b a) eqn:Hlt; [by apply leb_refl | by apply leb_total].
Qed.

Lemma Math_max_leb_l (a b : num) :
  isNaN a = false → isNaN b = false → num_leb a (Math_max a b) = true.
Proof.
  intros Ha Hb. rewrite Math_max_eq by done.
  destruct (num_ltb a b) eqn:Hlt; [by apply ltb_leb | by apply leb_refl].
Qed.

Lemma Math_max_leb_r (a b : num) :
  isNaN a = false → isNaN b = false → num_leb b (Math_max a b) = true.
Proof.
  intros Ha Hb. rewrite Math_max_eq by done.
  destruct (num_ltb a b) eqn:Hlt; [by apply leb_refl | by apply leb_total].
Qed.

Lemma ltb_num_eq (a a' b b' : num) :
  a =n= a' → b =n= b' → num_ltb a b = num_ltb a' b'.
Proof.
  destruct a as [p | | |], a' as [p' | | |]; try done;
    destruct b as [q | | |], b' as [q' | | |]; try done.
  simpl. intros Hp Hq.
  destruct (Qlt_bool p q) eqn:H1, (Qlt_bool p' q') eqn:H2; try done;
    rewrite ?Qlt_bool_iff, ?Qlt_bool_false in *; lra.
Qed.

Lemma Math_min_comm (a b : num) : Math_min a b =n= Math_min b a.
Proof.
  destruct a as [p | | |], b as [q | | |]; try done.
  unfold Math_min. cbn [num_ltb].
  destruct (Qlt_bool q p) eqn:H1, (Qlt_bool p q) eqn:H2; simpl;
    rewrite ?Qlt_bool_iff, ?Qlt_bool_false in *; lra.
Qed.

Lemma Math_max_comm (a b : num) : Math_max a b =n= Math_max b a.
Proof.
  destruct a as [p | | |], b as [q | | |]; try done.
  unfold Math_max. cbn [num_ltb].
  destruct (Qlt_bool q p) eqn:H1, (Qlt_bool p q) eqn:H2; simpl;
    rewrite ?Qlt_bool_iff, ?Qlt_bool_false in *; lra.
Qed.

Lemma num_eq_refl (a : num) : a =n= a.
Proof. destruct a; simpl; [reflexivity | done ..]. Qed.

(** the clamp [Math.max(lo, Math.min(hi, v))] of a finite number between
    finite bounds in order *)
Lemma clamp_Fin (lo hi v : Q) :
  (lo <= hi)%Q →
  ∃ c : Q,
    Math_max (Fin lo) (Math_min (Fin hi) (Fin v)) = Fin c
    ∧ (lo <= c)%Q ∧ (c <= hi)%Q
    ∧ ((lo <= v)%Q → (v <= hi)%Q → (c == v)%Q).
Proof.
  intros Hord. unfold Math_min, Math_max. cbn [num_ltb].
  destruct (Qlt_bool v hi) eqn:Hhi; cbn [num_ltb].
  - destruct (Qlt_bool lo v) eqn:Hlo.
    + apply Qlt_bool_iff in Hhi, Hlo. exists v. split_and!; [done | lra ..].
    + apply Qlt_bool_iff in Hhi. apply Qlt_bool_false in Hlo.
      exists lo. split_and!; [done | lra ..].
  - apply Qlt_bool_false in Hhi.
    destruct (Qlt_bool lo hi) eqn:Hlo.
    + exists hi. split_and!; [done | lra ..].
    + apply Qlt_bool_false in Hlo. exists lo. split_and!; [done | lra ..].
Qed.

End NumOrder.

(** ** The viewport: zooming to the cursor, panning, culling *)
Module ViewportMoreFacts.
Import CanvasUtils CanvasUtilsMore UseViewport GeometrySpec NumFacts NumOrder.
Import ViewportSamples.

(** Zooming with the wheel keeps the world point under the cursor under
    the cursor: after [handleWheel] the screen point of the event maps to
    the world point it mapped to before, and the zoom lies between 0.1
    and 10.  All numbers are finite and the zoom of before is not zero. *)
Theorem handleWheel_keeps_point_under_cursor (store : Store.t)
    (canvas : Canvas) (event : WheelEvent)
    (zoom panX panY left top cx cy d : Q) :
  Store.viewport store = ViewportTransform.mk (Fin zoom) (Fin panX) (Fin panY) →
  rectLeft canvas = Fin left → rectTop canvas = Fin top →
  wheel_clientX event = Fin cx → wheel_clientY event = Fin cy →
  deltaY event = Fin d →
  ¬ (zoom == 0)%Q →
  let store' := handleWheel event (Some canvas) store in
  let screenX := Fin (cx - left) in
  let screenY := Fin (cy - top) in
  point_eq (screenToWorld screenX screenY (Store.viewport store'))
           (screenToWorld screenX screenY (Store.viewport store))
  ∧ ∃ z : Q,
      ViewportTransform.zoom (Store.viewport store') = Fin z
      ∧ (1 # 10 <= z)%Q ∧ (z <= 10)%Q.
Proof.
  intros Hvp Hleft Htop Hcx Hcy Hd Hzoom store' screenX screenY.
  subst store' screenX screenY. unfold handleWheel, Store.setPan, Store.setZoom.
  cbn [Store.viewport Store.set_viewport ViewportTransform.zoom
       ViewportTransform.panX ViewportTransform.panY].
  rewrite Hvp, Hleft, Htop, Hcx, Hcy, Hd.
  cbn [ViewportTransform.zoom ViewportTransform.panX ViewportTransform.panY].
  unfold screenToWorld, point_eq, lit.
  cbn [Point.x Point.y ViewportTransform.zoom ViewportTransform.panX
       ViewportTransform.panY].
  change (num_sub (Fin cx) (Fin left)) with (Fin (cx - left)).
  change (num_sub (Fin cy) (Fin top)) with (Fin (cy - top)).
  change (num_sub (Fin (cx - left)) (Fin panX))
    with (Fin (cx - left + - panX)).
  change (num_sub (Fin (cy - top)) (Fin panY))
    with (Fin (cy - top + - panY)).
  rewrite !div_Fin by done.
  cbn [num_neg num_mul num_add].
  destruct (clamp_Fin (1 # 10) (inject_Z 10)
              (zoom * (inject_Z 1 + - d * (1 # 1000))))
    as (c & -> & Hclo & Hchi & _); [done |].
  destruct (clamp_Fin (1 # 10) (inject_Z 10) c)
    as (c' & -> & Hclo' & Hchi' & Hsame); [done |].
  assert (Hcc : (c' == c)%Q) by (by apply Hsame).
  assert (Hc0 : ¬ (c' == 0)%Q) by lra.
  cbn [num_mul num_sub num_add num_neg].
  rewrite !div_Fin by done. cbn [num_eq].
  split; [| exists c'; split_and!; [done | lra | done]].
  split; rewrite <- Hcc; field; done.
Qed.

Lemma handleWheel_keeps_point_under_cursor_witness :
  ¬ (2 == 0)%Q
  ∧ point_eq
      (screenToWorld (Fin (300 - 8)) (Fin (200 - 16))
         (Store.viewport (handleWheel wheel_up (Some page_canvas) zoomed_store)))
      (screenToWorld (Fin (300 - 8)) (Fin (200 - 16))
         (Store.viewport zoomed_store)).
Proof.
  assert (Hzoom : ¬ (2 == 0)%Q) by (intros Heq; discriminate Heq).
  split; [exact Hzoom |].
  exact (proj1 (handleWheel_keeps_point_under_cursor zoomed_store page_canvas
                  wheel_up 2 40 (-25) 8 16 300 200 (-120)
                  eq_refl eq_refl eq_refl eq_refl eq_refl eq_refl Hzoom)).
Defined.




Lemma Qle_div_iff (a x z : Q) : (0 < z)%Q → (x <= a / z ↔ x * z <= a)%Q.
Proof.
  intros Hz. split; intros Hle.
  - assert (Ha : (a == a / z * z)%Q) by (field; lra).
    rewrite Ha. apply Qmult_le_compat_r; lra.
  - by apply Qle_shift_div_l.
Qed.



(** [clamp] returns a number between [min] and [max] for every value but
    [NaN], and the value itself when it lies between them; the bounds are
    finite and in order. *)
Theorem clamp_within_bounds (value : num) (lo hi : Q) :
  (lo <= hi)%Q → isNaN value = false →
  ∃ c : Q,
    clamp value (Fin lo) (Fin hi) = Fin c
    ∧ (lo <= c)%Q ∧ (c <= hi)%Q
    ∧ ∀ v : Q, value = Fin v → (lo <= v)%Q → (v <= hi)%Q → (c == v)%Q.
Proof.
  intros Hord Hnan. unfold clamp. destruct value as [v | | |]; try done.
  - destruct (clamp_Fin lo hi v Hord) as (c & Hc & Hlo & Hhi & Hsame).
    exists c. split_and!; try done. by intros ? [= <-].
  - unfold Math_min, Math_max. cbn [num_ltb].
    destruct (Qlt_bool lo hi) eqn:Hlt.
    + exists hi. split_and!; [done | lra | lra | done].
    + exists lo. split_and!; [done | lra | lra | done].
  - exists lo. split_and!; [done | lra | lra | done].
Qed.

Lemma clamp_within_bounds_witness :
  (0 <= 1)%Q ∧ isNaN (Fin (3 # 2)) = false
  ∧ ∃ c : Q,
      clamp (Fin (3 # 2)) (Fin 0) (Fin 1) = Fin c
      ∧ (0 <= c)%Q ∧ (c <= 1)%Q.
Proof.
  assert (Hord : (0 <= 1)%Q) by discriminate.
  assert (Hnan : isNaN (Fin (3 # 2)) = false) by reflexivity.
  split; [exact Hord |]. split; [exact Hnan |].
  destruct (clamp_within_bounds (Fin (3 # 2)) 0 1 Hord Hnan)
    as (c & Hc & Hlo & Hhi & _).
  exists c. split; [exact Hc |]. split; [exact Hlo | exact Hhi].
Defined.



End ViewportMoreFacts.

(** ** Bounding boxes *)
Module BoundsFacts.
Import CanvasUtilsMore BoundsSpec NumFacts NumOrder.

Lemma finite_box_not_NaN (e : Element.t) :
  finite_box e = true →
  isNaN (Element.x e) = false ∧ isNaN (Element.y e) = false
  ∧ isNaN (Element.x e + Element.width e)%num = false
  ∧ isNaN (Element.y e + Element.height e)%num = false.
Proof.
  unfold finite_box. rewrite !andb_true_iff.
  intros [[[Hx Hy] Hw] Hh].
  destruct (Element.x e), (Element.y e), (Element.width e),
    (Element.height e); done.
Qed.

Lemma covers_widen (minX minY maxX maxY minX' minY' maxX' maxY' : num)
    (e : Element.t) :
  (minX' <=? minX)%num = true → (minY' <=? minY)%num = true →
  (maxX <=? maxX')%num = true → (maxY <=? maxY')%num = true →
  covers minX minY maxX maxY e → covers minX' minY' maxX' maxY' e.
Proof.
  intros H1 H2 H3 H4 (C1 & C2 & C3 & C4).
  split_and!; eapply leb_trans; eauto.
Qed.

Lemma combine_fold (elements : list Element.t) (minX minY maxX maxY : num) :
  isNaN minX = false → isNaN minY = false →
  isNaN maxX = false → isNaN maxY = false →
  Forall (λ e, finite_box e = true) elements →
  ∃ minX' minY' maxX' maxY',
    foldl combineBounds (minX, minY, maxX, maxY) elements
    = (minX', minY', maxX', maxY')
    ∧ (isNaN minX' = false ∧ isNaN minY' = false
       ∧ isNaN maxX' = false ∧ isNaN maxY' = false)
    ∧ ((minX' <=? minX)%num = true ∧ (minY' <=? minY)%num = true
       ∧ (maxX <=? maxX')%num = true ∧ (maxY <=? maxY')%num = true)
    ∧ ∀ e, e ∈ elements → covers minX' minY' maxX' maxY' e.
Proof.
  revert minX minY maxX maxY.
  induction elements as [| e elements IH];
    intros minX minY maxX maxY N1 N2 N3 N4 Hfin.
  - exists minX, minY, maxX, maxY. split; [done |].
    split; [done |]. split; [by split_and!; apply leb_refl |].
    intros e He. by apply elem_of_nil in He.
  - apply Forall_cons in Hfin as [He Hfin].
    destruct (finite_box_not_NaN e He) as (E1 & E2 & E3 & E4).
    cbn [foldl combineBounds Geometry.getElementBounds
         Bounds.minX Bounds.minY Bounds.maxX Bounds.maxY].
    destruct (IH (Math_min minX (Element.x e)) (Math_min minY (Element.y e))
                (Math_max maxX (Element.x e + Element.width e)%num)
                (Math_max maxY (Element.y e + Element.height e)%num))
      as (minX' & minY' & maxX' & maxY' & Hfold & Hnan & Hle & Hcov);
      [by apply Math_min_not_NaN | by apply Math_min_not_NaN
      | by apply Math_max_not_NaN | by apply Math_max_not_NaN | done |].
    destruct Hle as (L1 & L2 & L3 & L4).
    exists minX', minY', maxX', maxY'. split; [exact Hfold |].
    split; [exact Hnan |]. split.
    + split_and!.
      * eapply leb_trans; [exact L1 | by apply Math_min_leb_l].
      * eapply leb_trans; [exact L2 | by apply Math_min_leb_l].
      * eapply leb_trans; [| exact L3]. by apply Math_max_leb_l.
      * eapply leb_trans; [| exact L4]. by apply Math_max_leb_l.
    + intros e' [-> | He']%elem_of_cons; [| by apply Hcov].
      split_and!.
      * eapply leb_trans; [exact L1 | by apply Math_min_leb_r].
      * eapply leb_trans; [exact L2 | by apply Math_min_leb_r].
      * eapply leb_trans; [| exact L3]. by apply Math_max_leb_r.
      * eapply leb_trans; [| exact L4]. by apply Math_max_leb_r.
Qed.

(** [getCombinedBounds] returns [null] for no element; for elements of
    finite position and size it returns bounds that hold the bounding box
    of every one of them, with [width = maxX - minX] and
    [height = maxY - minY]. *)
Theorem getCombinedBounds_holds_every_element (elements : list Element.t) :
  getCombinedBounds [] = None
  ∧ (elements ≠ [] →
     Forall (λ e, finite_box e = true) elements →
     ∃ b : Bounds.t,
       getCombinedBounds elements = Some b
       ∧ Bounds.width b = (Bounds.maxX b - Bounds.minX b)%num
       ∧ Bounds.height b = (Bounds.maxY b - Bounds.minY b)%num
       ∧ ∀ e, e ∈ elements →
           covers (Bounds.minX b) (Bounds.minY b) (Bounds.maxX b)
                  (Bounds.maxY b) e).
Proof.
  split; [reflexivity |]. intros Hne Hfin.
  destruct (combine_fold elements PInf PInf NInf NInf)
    as (minX & minY & maxX & maxY & Hfold & _ & _ & Hcov); try done.
  unfold getCombinedBounds. destruct elements as [| e elements]; [done |].
  rewrite Hfold. eexists. split; [reflexivity |]. by split_and!.
Qed.

Lemma getCombinedBounds_holds_every_element_witness :
  three_boxes ≠ []
  ∧ Forall (λ e, finite_box e = true) three_boxes
  ∧ ∃ b : Bounds.t,
      getCombinedBounds three_boxes = Some b
      ∧ ∀ e, e ∈ three_boxes →
          covers (Bounds.minX b) (Bounds.minY b) (Bounds.maxX b)
                 (Bounds.maxY b) e.
Proof.
  assert (Hne : three_boxes ≠ []) by discriminate.
  assert (Hfin : Forall (λ e, finite_box e = true) three_boxes).
  { repeat (apply Forall_cons; split; [reflexivity |]). apply Forall_nil_2. }
  split; [exact Hne |]. split; [exact Hfin |].
  destruct (proj2 (getCombinedBounds_holds_every_element three_boxes) Hne Hfin)
    as (b & Hb & _ & _ & Hcov).
  exists b. split; [exact Hb | exact Hcov].
Defined.

End BoundsFacts.

(** ** Hit testing and culling *)
Module HitFacts.
Import Geometry CanvasUtilsMore SelectTool HitSpec NumFacts NumOrder.
Import StoreMoreSamples GeometrySpec.



(** *** [findElementAtPoint] *)

Section WithMath.
Context `{MathLib}.

Lemma findTopmost_spec (tool : SelectTool.t) (point : Point.t)
    (elements : gmap string Element.t) (ids : list string) :
  match findTopmost tool point elements ids with
  | Some element =>
      ∃ before elementId after,
        ids = before ++ elementId :: after
        ∧ elements !! elementId = Some element
        ∧ pickable tool point element = true
        ∧ none_pickable tool point elements before
  | None => none_pickable tool point elements ids
  end.
Proof.
  induction ids as [| id ids IH]; simpl.
  - intros id element Hin. by apply elem_of_nil in Hin.
  - assert (Hskip : ∀ element,
              elements !! id = Some element →
              pickable tool point element = false →
              match findTopmost tool point elements ids with
              | Some element =>
                  ∃ before elementId after,
                    id :: ids = before ++ elementId :: after
                    ∧ elements !! elementId = Some element
                    ∧ pickable tool point element = true
                    ∧ none_pickable tool point elements before
              | None => none_pickable tool point elements (id :: ids)
              end).
    { intros element Hid Hno.
      destruct (findTopmost tool point elements ids) as [found |].
      - destruct IH as (before & elementId & after & -> & Hfound & Hpick & Hnone).
        exists (id :: before), elementId, after. split_and!; try done.
        intros id' e' [-> | Hin]%elem_of_cons He'; [congruence | eauto].
      - intros id' e' [-> | Hin]%elem_of_cons He'; [congruence | eauto]. }
    destruct (elements !! id) as [element |] eqn:Hid.
    + destruct (Element.isDeleted element) eqn:Hdel;
        [apply (Hskip element); [done |]; unfold pickable; by rewrite Hdel |].
      destruct (Element.locked element) eqn:Hlock;
        [apply (Hskip element); [done |]; unfold pickable;
         by rewrite Hdel, Hlock |].
      destruct (hitTestElement point element (threshold tool)) eqn:Hhit;
        [| apply (Hskip element); [done |]; unfold pickable;
           by rewrite Hdel, Hlock, Hhit].
      exists [], id, ids. split_and!; try done.
      * unfold pickable. by rewrite Hdel, Hlock, Hhit.
      * intros id' e' Hin. by apply elem_of_nil in Hin.
    + destruct (findTopmost tool point elements ids) as [found |].
      * destruct IH as (before & elementId & after & -> & Hfound & Hpick & Hnone).
        exists (id :: before), elementId, after. split_and!; try done.
        intros id' e' [-> | Hin]%elem_of_cons He'; [congruence | eauto].
      * intros id' e' [-> | Hin]%elem_of_cons He'; [congruence | eauto].
Qed.

(** [findElementAtPoint] returns the topmost element that can be picked
    at the point: the element it returns is in the map under an id of
    the z-order list, is neither deleted nor locked and passes the hit
    test, and no id above it in the list names such an element; it
    returns [null] exactly when no id of the list names one. *)
Theorem findElementAtPoint_topmost (tool : SelectTool.t) (point : Point.t)
    (elements : gmap string Element.t) (elementOrder : list string) :
  match findElementAtPoint tool point elements elementOrder with
  | Some element =>
      ∃ below elementId above,
        elementOrder = below ++ elementId :: above
        ∧ elements !! elementId = Some element
        ∧ pickable tool point element = true
        ∧ none_pickable tool point elements above
  | None => none_pickable tool point elements elementOrder
  end.
Proof.
  unfold findElementAtPoint.
  pose proof (findTopmost_spec tool point elements (reverse elementOrder))
    as Hspec.
  destruct (findTopmost tool point elements (reverse elementOrder))
    as [element |].
  - destruct Hspec as (before & elementId & after & Hrev & Hfound & Hpick & Hnone).
    exists (reverse after), elementId, (reverse before). split_and!; try done.
    + rewrite <- (reverse_involutive elementOrder), Hrev.
      rewrite reverse_app, reverse_cons, <- app_assoc. done.
    + intros id' e' Hin He'. apply (Hnone id' e'); [| done].
      by rewrite elem_of_reverse in Hin.
  - intros id' e' Hin He'. apply (Hspec id' e'); [| done].
    by rewrite elem_of_reverse.
Qed.

End WithMath.

(** *** [findElementsIntersectingRect] *)

Lemma List_filter_sublist (f : string → bool) (l : list string) :
  List.filter f l `sublist_of` l.
Proof.
  induction l as [| k l IH]; simpl; [done |].
  destruct (f k); [by apply sublist_skip | by apply sublist_cons].
Qed.

(** The ids that a marquee catches come from the z-order list, in its
    order; each names an element of the map that is neither deleted nor
    locked; and the result is the same whichever of the two corners the
    drag began at. *)
Theorem marquee_hits (rectStart rectEnd : Point.t)
    (elements : gmap string Element.t) (elementOrder : list string) :
  findElementsIntersectingRect rectStart rectEnd elements elementOrder
    `sublist_of` elementOrder
  ∧ (∀ id,
       id ∈ findElementsIntersectingRect rectStart rectEnd elements
              elementOrder →
       selectable elements id)
  ∧ findElementsIntersectingRect rectStart rectEnd elements elementOrder
    = findElementsIntersectingRect rectEnd rectStart elements elementOrder.
Proof.
  unfold findElementsIntersectingRect. split_and!.
  - apply List_filter_sublist.
  - intros id Hin. apply list_elem_of_In, filter_In in Hin as [_ Hhit].
    unfold selectable.
    destruct (elements !! id) as [element |]; [| done].
    exists element. split; [done |].
    destruct (Element.isDeleted element), (Element.locked element); done.
  - apply filter_ext. intros id.
    destruct (elements !! id) as [element |]; [| done].
    destruct (Element.isDeleted element || Element.locked element); [done |].
    unfold num_gtb.
    rewrite (ltb_num_eq _ _ _ _ (num_eq_refl _)
               (Math_min_comm (Point.x rectStart) (Point.x rectEnd))).
    rewrite (ltb_num_eq _ _ _ _
               (Math_max_comm (Point.x rectStart) (Point.x rectEnd))
               (num_eq_refl _)).
    rewrite (ltb_num_eq _ _ _ _ (num_eq_refl _)
               (Math_min_comm (Point.y rectStart) (Point.y rectEnd))).
    rewrite (ltb_num_eq _ _ _ _
               (Math_max_comm (Point.y rectStart) (Point.y rectEnd))
               (num_eq_refl _)).
    reflexivity.
Qed.

End HitFacts.

(** ** Dirty rectangles: merging and marking *)
Module DirtyRectMoreFacts.
Import DirtyRect DirtyRectSpec NumFacts NumOrder.










(** An element that was marked dirty is found in a dirty region, whatever
    was marked before: [isElementInDirtyRegion] holds of it after
    [markElementDirty], and a redraw is needed.  The element has a finite
    position and a finite size that is not negative, the padding is finite
    and not negative. *)
Theorem marked_element_is_dirty (m : DirtyRect.t) (element : Element.t)
    (x y width height padding : Q) :
  Element.x element = Fin x → Element.y element = Fin y →
  Element.width element = Fin width → Element.height element = Fin height →
  (0 <= width)%Q → (0 <= height)%Q → (0 <= padding)%Q →
  isElementInDirtyRegion element (markElementDirty element (Fin padding) m)
  = true
  ∧ needsRedraw (markElementDirty element (Fin padding) m) = true.
Proof.
  intros Hx Hy Hw Hh Hwidth Hheight Hpadding.
  split; [| reflexivity].
  unfold isElementInDirtyRegion, markElementDirty, markRegionDirty.
  cbn [fullRedrawNeeded dirtyRegions].
  destruct (fullRedrawNeeded m); [reflexivity |].
  rewrite existsb_app, orb_true_iff. right.
  cbn [existsb]. rewrite orb_false_r.
  unfold Geometry.getElementBounds, boundsIntersect, lit.
  rewrite Hx, Hy, Hw, Hh.
  cbn [Bounds.minX Bounds.minY Bounds.maxX Bounds.maxY DirtyRegion.x
       DirtyRegion.y DirtyRegion.width DirtyRegion.height
       num_add num_sub num_neg num_mul num_ltb].
  rewrite negb_true_iff, !orb_false_iff, !Qlt_bool_false.
  unfold inject_Z. split_and!; lra.
Qed.

Lemma marked_element_is_dirty_witness :
  (0 <= 100)%Q ∧ (0 <= 50)%Q ∧ (0 <= 10)%Q
  ∧ isElementInDirtyRegion GeometrySpec.sample_rotated_rect
      (markElementDirty GeometrySpec.sample_rotated_rect (Fin 10)
         three_regions)
    = true.
Proof.
  assert (Hwidth : (0 <= 100)%Q) by discriminate.
  assert (Hheight : (0 <= 50)%Q) by discriminate.
  assert (Hpadding : (0 <= 10)%Q) by discriminate.
  split; [exact Hwidth |]. split; [exact Hheight |]. split; [exact Hpadding |].
  exact (proj1 (marked_element_is_dirty three_regions
                  GeometrySpec.sample_rotated_rect 10 20 100 50 10
                  eq_refl eq_refl eq_refl eq_refl Hwidth Hheight Hpadding)).
Defined.

End DirtyRectMoreFacts.

(** ** The selection tool: keys and the marquee *)
Module SelectToolKeyFacts.
Import SelectTool HitSpec StoreSpec EventSamples StoreMoreSamples.
Import ResizeSamples.

Lemma filter_none (P : string → Prop) `{!∀ k, Decision (P k)}
    (l : list string) :
  (∀ k, k ∈ l → ¬ P k) → filter P l = [].
Proof.
  induction l as [| k l IH]; intros Hnone; [done |].
  rewrite filter_cons, decide_False by (apply Hnone; by left).
  apply IH. intros k' Hk'. apply Hnone. by right.
Qed.

Lemma of_array_nil_filter (sel : list string) :
  JsSet.of_array
    (filter (λ id, JsSet.has (JsSet.of_array sel) id = false) sel) = [].
Proof.
  rewrite filter_none; [done |].
  intros id Hin. rewrite JsSetFacts.has_false, JsSetFacts.elem_of_of_array.
  tauto.
Qed.

(** Delete and Backspace remove every selected element from the scene and
    leave the selection empty; the elements that were not selected stay
    as they were. *)
Theorem onKeyDown_delete (tool : SelectTool.t) (store : Store.t)
    (event : KeyboardEvent) :
  key event = "Delete" ∨ key event = "Backspace" →
  let store' := onKeyDown tool store event in
  Store.selectedElementIds store' = []
  ∧ (∀ id, id ∈ Store.selectedElementIds store →
       Store.elements store' !! id = None
       ∧ id ∉ Store.elementOrder store')
  ∧ (∀ id, id ∉ Store.selectedElementIds store →
       Store.elements store' !! id = Store.elements store !! id
       ∧ (id ∈ Store.elementOrder store' ↔ id ∈ Store.elementOrder store)).
Proof.
  intros Hkey store'. subst store'. unfold onKeyDown.
  assert (Hdel : bool_decide (key event = "Delete")
                 || bool_decide (key event = "Backspace") = true).
  { destruct Hkey as [-> | ->]; reflexivity. }
  assert (Hesc : bool_decide (key event = "Escape") = false).
  { destruct Hkey as [-> | ->]; reflexivity. }
  assert (Ha : bool_decide (key event = "a") = false).
  { destruct Hkey as [-> | ->]; reflexivity. }
  rewrite Hdel, Hesc, Ha, andb_false_r. unfold JsSet.to_array.
  destruct (Store.selectedElementIds store) as [| a sel] eqn:Hsel.
  - cbn [length Nat.ltb Nat.leb]. rewrite Hsel. split; [done |].
    split; [intros id Hin; by apply elem_of_nil in Hin | done].
  - cbn [length Nat.ltb Nat.leb]. unfold Store.deleteElements.
    cbn [Store.selectedElementIds Store.elements Store.elementOrder
         Store.set_selectedElementIds Store.set_elementOrder
         Store.set_elements].
    unfold JsSet.to_array. rewrite Hsel. split; [apply of_array_nil_filter |].
    split; intros id Hin; rewrite DeletionFacts.lookup_foldl_delete,
      list_elem_of_filter, JsSetFacts.has_false,
      JsSetFacts.elem_of_of_array.
    + rewrite decide_True by done. split; [done | tauto].
    + rewrite decide_False by done. split; [done | tauto].
Qed.

Lemma onKeyDown_delete_witness :
  (key delete_key = "Delete" ∨ key delete_key = "Backspace")
  ∧ Store.selectedElementIds
      (onKeyDown (SelectTool.new None) three_store delete_key) = []
  ∧ Store.elements
      (onKeyDown (SelectTool.new None) three_store delete_key) !! "b" = None.
Proof.
  assert (Hkey : key delete_key = "Delete" ∨ key delete_key = "Backspace")
    by (by left).
  pose proof (onKeyDown_delete (SelectTool.new None) three_store delete_key
                Hkey) as (Hsel & Hgone & _).
  split; [exact Hkey |]. split; [exact Hsel |].
  exact (proj1 (Hgone "b" (list_elem_of_here _ _))).
Defined.

(** Escape empties the selection, and Ctrl+A or Cmd+A selects exactly the
    ids of the z-order list whose element is present, not deleted and not
    locked; neither touches the elements or their order. *)
Theorem onKeyDown_escape_and_select_all (tool : SelectTool.t)
    (store : Store.t) (event : KeyboardEvent) :
  let store' := onKeyDown tool store event in
  (key event = "Escape" → Store.selectedElementIds store' = [])
  ∧ (key event = "a" → ctrlKey event || metaKey event = true →
     ∀ id, id ∈ Store.selectedElementIds store'
           ↔ id ∈ Store.elementOrder store
             ∧ selectable (Store.elements store) id)
  ∧ (key event = "Escape" ∨ key event = "a" →
     Store.elements store' = Store.elements store
     ∧ Store.elementOrder store' = Store.elementOrder store).
Proof.
  intros store'. subst store'. unfold onKeyDown.
  split_and!.
  - intros Hkey. rewrite Hkey.
    change (bool_decide ("Escape" = "Delete")
            || bool_decide ("Escape" = "Backspace")) with false.
    change (bool_decide ("Escape" = "Escape")) with true.
    change (bool_decide ("Escape" = "a")) with false.
    by rewrite andb_false_r.
  - intros Hkey Hctrl. rewrite Hkey, Hctrl.
    change (bool_decide ("a" = "Delete")
            || bool_decide ("a" = "Backspace")) with false.
    change (bool_decide ("a" = "Escape")) with false.
    change (bool_decide ("a" = "a")) with true.
    cbn [andb]. unfold Store.selectElements.
    cbn [Store.selectedElementIds Store.set_selectedElementIds].
    intros id.
    rewrite JsSetFacts.elem_of_of_array, list_elem_of_In, filter_In,
      <- list_elem_of_In.
    unfold selectable. apply and_iff_compat_l.
    destruct (Store.elements store !! id) as [element |].
    + rewrite andb_true_iff, !negb_true_iff. split.
      * intros [Hd Hl]. by exists element.
      * intros (e & [= <-] & Hd & Hl). done.
    + split; [done |]. by intros (e & He & _).
  - intros [Hkey | Hkey]; rewrite Hkey.
    + change (bool_decide ("Escape" = "Delete")
              || bool_decide ("Escape" = "Backspace")) with false.
      change (bool_decide ("Escape" = "Escape")) with true.
      change (bool_decide ("Escape" = "a")) with false.
      by rewrite andb_false_r.
    + change (bool_decide ("a" = "Delete")
              || bool_decide ("a" = "Backspace")) with false.
      change (bool_decide ("a" = "Escape")) with false.
      by destruct (ctrlKey event || metaKey event).
Qed.

Lemma onKeyDown_escape_and_select_all_witness :
  key select_all_key = "a"
  ∧ ctrlKey select_all_key || metaKey select_all_key = true
  ∧ ∀ id, id ∈ Store.selectedElementIds
                 (onKeyDown (SelectTool.new None) three_store select_all_key)
          ↔ id ∈ Store.elementOrder three_store
            ∧ selectable (Store.elements three_store) id.
Proof.
  assert (Hkey : key select_all_key = "a") by reflexivity.
  assert (Hctrl : ctrlKey select_all_key || metaKey select_all_key = true)
    by reflexivity.
  split; [exact Hkey |]. split; [exact Hctrl |].
  exact (proj1 (proj2 (onKeyDown_escape_and_select_all (SelectTool.new None)
                         three_store select_all_key)) Hkey Hctrl).
Defined.

(** Releasing the pointer ends a marquee: the ids that the rectangle
    catches replace the selection, or join it when shift is held; a
    rectangle that catches nothing leaves the selection as it was; the
    elements are untouched and the engine is idle. *)
Theorem onPointerUp_marquee (tool : SelectTool.t) (store : Store.t)
    (event : PointerEvent) (canvas : Canvas) (viewport : ViewportTransform.t)
    (dragStart dragCurrent : Point.t) :
  transformMode tool = Some drag_select →
  dragStartPoint tool = Some dragStart →
  dragCurrentPoint tool = Some dragCurrent →
  let hits :=
    findElementsIntersectingRect dragStart dragCurrent
      (Store.elements store) (Store.elementOrder store) in
  let after := onPointerUp tool store event canvas viewport in
  (hits = [] → after.1.2 = store)
  ∧ (hits ≠ [] → shiftKey event = false →
     ∀ id, id ∈ Store.selectedElementIds after.1.2 ↔ id ∈ hits)
  ∧ (hits ≠ [] → shiftKey event = true →
     ∀ id, id ∈ Store.selectedElementIds after.1.2
           ↔ id ∈ Store.selectedElementIds store ∨ id ∈ hits)
  ∧ Store.elements after.1.2 = Store.elements store
  ∧ idle after.1.1.
Proof.
  intros Hmode Hstart Hcurrent hits after. subst after.
  unfold onPointerUp. rewrite Hmode, Hstart, Hcurrent. fold hits.
  cbn [fst snd]. destruct hits as [| hit hits'] eqn:Hhits.
  - cbn [length Nat.ltb Nat.leb]. by split_and!.
  - cbn [length Nat.ltb Nat.leb]. split_and!; try done.
    + intros _ ->. intros id. unfold Store.selectElements.
      cbn [Store.selectedElementIds Store.set_selectedElementIds].
      apply JsSetFacts.elem_of_of_array.
    + intros _ ->. intros id. unfold Store.selectElements, JsSet.to_array.
      cbn [Store.selectedElementIds Store.set_selectedElementIds].
      rewrite JsSetFacts.elem_of_of_array.
      apply (JsSetFacts.elem_of_foldl_add (hit :: hits')).
    + by destruct (shiftKey event).
Qed.

Lemma onPointerUp_marquee_witness :
  transformMode marquee_over_three = Some drag_select
  ∧ ∀ id,
      id ∈ Store.selectedElementIds
             (onPointerUp marquee_over_three three_store release
                origin_canvas Store.DEFAULT_VIEWPORT).1.2
      ↔ id ∈ findElementsIntersectingRect
               (Point.mk (lit (-1)) (lit (-1))) (Point.mk (lit 12) (lit 12))
               (Store.elements three_store) (Store.elementOrder three_store).
Proof.
  assert (Hmode : transformMode marquee_over_three = Some drag_select)
    by reflexivity.
  split; [exact Hmode |].
  refine (proj1 (proj2 (onPointerUp_marquee marquee_over_three three_store
                          release origin_canvas Store.DEFAULT_VIEWPORT
                          _ _ Hmode eq_refl eq_refl)) _ eq_refl).
  vm_compute. discriminate.
Defined.

End SelectToolKeyFacts.

(** ** The selection tool: moving *)
Module MoveFacts.
Import SelectTool MoveSpec StoreMoreSamples ResizeSamples GeometrySpec.

Lemma moved_by_twice (startBounds : StartBounds.t) (dx dy : num)
    (element : Element.t) :
  moved_by startBounds dx dy (moved_by startBounds dx dy element)
  = moved_by startBounds dx dy element.
Proof. by destruct element as [? ? ? ? ? ? ? ? ? ? []]. Qed.

Lemma move_all_lookup (bounds : gmap string StartBounds.t) (dx dy : num)
    (ids : list string) (s : Store.t) (k : string) :
  Store.elements
    (foldl
       (λ store id,
          match bounds !! id with
          | Some startBounds =>
              Store.updateElement id
                (positionUpdate (StartBounds.x startBounds + dx)%num
                                (StartBounds.y startBounds + dy)%num)
                store
          | None => store
          end)
       s ids) !! k
  = match (if decide (k ∈ ids) then bounds !! k else None) with
    | Some startBounds => moved_by startBounds dx dy <$> Store.elements s !! k
    | None => Store.elements s !! k
    end.
Proof.
  revert s. induction ids as [| id ids IH]; intros s.
  - cbn [foldl]. by rewrite decide_False by apply not_elem_of_nil.
  - cbn [foldl]. rewrite IH. clear IH.
    assert (Hstep : ∀ startBounds,
              Store.elements
                (Store.updateElement id
                   (positionUpdate (StartBounds.x startBounds + dx)%num
                                   (StartBounds.y startBounds + dy)%num) s)
                !! k
              = if decide (k = id)
                then moved_by startBounds dx dy <$> Store.elements s !! k
                else Store.elements s !! k).
    { intros startBounds. unfold Store.updateElement.
      destruct (decide (k = id)) as [-> | Hne].
      - destruct (Store.elements s !! id) as [element |] eqn:Hid.
        + cbn [Store.elements Store.set_elements].
          by rewrite lookup_insert_eq.
        + by rewrite Hid.
      - destruct (Store.elements s !! id) as [element |]; [| done].
        cbn [Store.elements Store.set_elements].
        by rewrite lookup_insert_ne. }
    destruct (decide (k = id)) as [-> | Hne].
    + rewrite (decide_True (P := id ∈ id :: ids))
        by (apply elem_of_cons; by left).
      destruct (bounds !! id) as [startBounds |] eqn:Hb.
      * rewrite Hstep.
        destruct (decide (id ∈ ids)); [| done].
        destruct (Store.elements s !! id) as [element |]; [| done].
        cbn [fmap option_fmap option_map]. by rewrite moved_by_twice.
      * by destruct (decide (id ∈ ids)).
    + assert (Hsame : Store.elements
                        match bounds !! id with
                        | Some startBounds =>
                            Store.updateElement id
                              (positionUpdate
                                 (StartBounds.x startBounds + dx)%num
                                 (StartBounds.y startBounds + dy)%num) s
                        | None => s
                        end !! k = Store.elements s !! k).
      { destruct (bounds !! id) as [startBounds |]; [| done].
        by rewrite Hstep. }
      rewrite Hsame.
      destruct (decide (k ∈ ids)) as [Hin | Hin],
               (decide (k ∈ id :: ids)) as [Hin' | Hin'];
        try done; exfalso; rewrite elem_of_cons in *; tauto.
Qed.

Section WithMath.
Context `{MathLib}.

(** In a move, every selected element of which the tool holds a snapshot
    is put at the position of the snapshot plus the drag from the start
    point to the pointer, whatever its position was; its other fields and
    all other elements stay; the engine stays in the move. *)
Theorem onPointerMove_moves_from_snapshot (tool : SelectTool.t)
    (store : Store.t) (event : PointerEvent) (canvas : Canvas)
    (viewport : ViewportTransform.t) (dragStart : Point.t) :
  transformMode tool = Some move →
  dragStartPoint tool = Some dragStart →
  let worldPoint :=
    CanvasUtils.screenToWorld (clientX event - rectLeft canvas)%num
      (clientY event - rectTop canvas)%num viewport in
  let dx := (Point.x worldPoint - Point.x dragStart)%num in
  let dy := (Point.y worldPoint - Point.y dragStart)%num in
  let after := onPointerMove tool store event canvas viewport in
  (∀ id startBounds element,
     id ∈ Store.selectedElementIds store →
     elementStartBounds tool !! id = Some startBounds →
     Store.elements store !! id = Some element →
     Store.elements after.1.2 !! id
     = Some (moved_by startBounds dx dy element))
  ∧ (∀ id,
       id ∉ Store.selectedElementIds store
       ∨ elementStartBounds tool !! id = None →
       Store.elements after.1.2 !! id = Store.elements store !! id)
  ∧ after.1.1 = tool.
Proof.
  intros Hmode Hstart worldPoint dx dy after. subst after.
  unfold onPointerMove. rewrite Hmode, Hstart. cbn [fst snd].
  fold worldPoint. fold dx. fold dy. unfold JsSet.to_array.
  split_and!; [| | done].
  - intros id startBounds element Hin Hb He.
    by rewrite move_all_lookup, decide_True, Hb, He by done.
  - intros id [Hout | Hb]; rewrite move_all_lookup.
    + by rewrite decide_False by done.
    + rewrite Hb. by destruct (decide _).
Qed.

End WithMath.

Lemma onPointerMove_moves_from_snapshot_witness :
  transformMode moving_b_tool = Some move
  ∧ dragStartPoint moving_b_tool = Some (Point.mk (lit 7) (lit 7))
  ∧ "b" ∈ Store.selectedElementIds three_store
  ∧ Element.x <$>
      Store.elements
        (@onPointerMove sample_math moving_b_tool three_store move_to_27_17
           origin_canvas Store.DEFAULT_VIEWPORT).1.2 !! "b"
    = Some (lit 5 + ((lit 27 - lit 0 - lit 0) / lit 1 - lit 7))%num.
Proof.
  assert (Hmode : transformMode moving_b_tool = Some move) by reflexivity.
  assert (Hstart : dragStartPoint moving_b_tool
                   = Some (Point.mk (lit 7) (lit 7))) by reflexivity.
  assert (Hin : "b" ∈ Store.selectedElementIds three_store)
    by apply list_elem_of_here.
  split; [exact Hmode |]. split; [exact Hstart |]. split; [exact Hin |].
  rewrite (proj1 (@onPointerMove_moves_from_snapshot sample_math
                    moving_b_tool three_store move_to_27_17 origin_canvas
                    Store.DEFAULT_VIEWPORT _ Hmode Hstart)
             "b" (snapshot (Samples.sample_rect "b" 5 5 10 10))
             (Samples.sample_rect "b" 5 5 10 10) Hin eq_refl eq_refl).
  reflexivity.
Defined.

End MoveFacts.

(** ** The selection tool: pressing on an element *)
Module PressFacts.
Import SelectTool MoveSpec PressSamples StoreMoreSamples ResizeSamples.
Import GeometrySpec.

Lemma snapshot_fold (elements : gmap string Element.t) (ids : list string)
    (tool : SelectTool.t) :
  let tool' :=
    foldl
      (λ tool id,
         match elements !! id with
         | Some element =>
             set_elementStartBounds
               (<[id := snapshot element]> (elementStartBounds tool)) tool
         | None => tool
         end)
      tool ids in
  transformMode tool' = transformMode tool
  ∧ dragStartPoint tool' = dragStartPoint tool
  ∧ (∀ k, k ∉ ids →
       elementStartBounds tool' !! k = elementStartBounds tool !! k)
  ∧ (∀ k element,
       k ∈ ids ∨ elementStartBounds tool !! k = Some (snapshot element) →
       elements !! k = Some element →
       elementStartBounds tool' !! k = Some (snapshot element)).
Proof.
  revert tool. induction ids as [| id ids IH]; intros tool; cbn [foldl].
  - split_and!; try done. intros k element [Hin | Hk] ?; [| done].
    by apply elem_of_nil in Hin.
  - destruct (IH match elements !! id with
                 | Some element =>
                     set_elementStartBounds
                       (<[id := snapshot element]> (elementStartBounds tool))
                       tool
                 | None => tool
                 end) as (Hmode & Hstart & Hout & Hin).
    split_and!.
    + rewrite Hmode. by destruct (elements !! id).
    + rewrite Hstart. by destruct (elements !! id).
    + intros k [Hk Hks]%not_elem_of_cons. rewrite Hout by done.
      destruct (elements !! id); [| done].
      cbn [elementStartBounds set_elementStartBounds].
      by rewrite lookup_insert_ne.
    + intros k element Hk He. apply Hin; [| done].
      destruct Hk as [[-> | Hk]%elem_of_cons | Hk].
      * right. rewrite He. cbn [elementStartBounds set_elementStartBounds].
        apply lookup_insert_eq.
      * by left.
      * right. destruct (elements !! id) as [other |] eqn:Hid; [| done].
        cbn [elementStartBounds set_elementStartBounds].
        destruct (decide (id = k)) as [-> | Hne].
        -- rewrite lookup_insert_eq. congruence.
        -- by rewrite lookup_insert_ne.
Qed.

Section WithMath.
Context `{MathLib}.

(** A press without shift on an element that is already selected, off
    the handles, keeps the selection and starts a move with a snapshot
    of every selected element of the scene: its position, size and
    rotation at that moment. *)
Theorem onPointerDown_on_selected_snapshots_selection (tool : SelectTool.t)
    (store : Store.t) (event : PointerEvent) (canvas : Canvas)
    (viewport : ViewportTransform.t) (clicked : Element.t) :
  let worldPoint :=
    CanvasUtils.screenToWorld (clientX event - rectLeft canvas)%num
      (clientY event - rectTop canvas)%num viewport in
  selectedHandleAt worldPoint store = None →
  findElementAtPoint tool worldPoint (Store.elements store)
    (Store.elementOrder store) = Some clicked →
  shiftKey event = false →
  Element.id clicked ∈ Store.selectedElementIds store →
  let pressed := onPointerDown tool store event canvas viewport in
  pressed.1.2 = store
  ∧ transformMode pressed.1.1 = Some move
  ∧ dragStartPoint pressed.1.1 = Some worldPoint
  ∧ ∀ id element,
      id ∈ Store.selectedElementIds store →
      Store.elements store !! id = Some element →
      elementStartBounds pressed.1.1 !! id = Some (snapshot element).
Proof.
  intros worldPoint Hhandle Hfound Hshift Hsel pressed. subst pressed.
  unfold onPointerDown. fold worldPoint. rewrite Hhandle, Hfound, Hshift.
  rewrite (proj2 (JsSetFacts.has_true _ _) Hsel).
  cbn [negb fst snd]. unfold JsSet.to_array.
  destruct (snapshot_fold (Store.elements store)
              (Store.selectedElementIds store)
              (set_dragStartPoint (Some worldPoint)
                 (set_transformMode (Some move) tool)))
    as (Hmode & Hstart & _ & Hin).
  split; [done |]. split; [by rewrite Hmode |]. split; [by rewrite Hstart |].
  intros id element Hid He. apply Hin; [by left | done].
Qed.

(** A press without shift on an element that is not selected selects it
    alone and starts a move, but the snapshots are taken of the elements
    that were selected before: the tool holds none of the pressed
    element, and the pointer moves that follow leave every element where
    it is. *)
Theorem onPointerDown_on_unselected_takes_no_snapshot (tool : SelectTool.t)
    (store : Store.t) (event : PointerEvent) (canvas : Canvas)
    (viewport : ViewportTransform.t) (clicked : Element.t) :
  let worldPoint :=
    CanvasUtils.screenToWorld (clientX event - rectLeft canvas)%num
      (clientY event - rectTop canvas)%num viewport in
  selectedHandleAt worldPoint store = None →
  findElementAtPoint tool worldPoint (Store.elements store)
    (Store.elementOrder store) = Some clicked →
  shiftKey event = false →
  Element.id clicked ∉ Store.selectedElementIds store →
  elementStartBounds tool !! Element.id clicked = None →
  let pressed := onPointerDown tool store event canvas viewport in
  Store.selectedElementIds pressed.1.2 = [Element.id clicked]
  ∧ transformMode pressed.1.1 = Some move
  ∧ elementStartBounds pressed.1.1 !! Element.id clicked = None
  ∧ ∀ event' canvas' viewport',
      (onPointerMove pressed.1.1 pressed.1.2 event' canvas' viewport').1.2
      = pressed.1.2.
Proof.
  intros worldPoint Hhandle Hfound Hshift Hsel Hbounds pressed. subst pressed.
  unfold onPointerDown. fold worldPoint. rewrite Hhandle, Hfound, Hshift.
  rewrite (proj2 (JsSetFacts.has_false _ _) Hsel).
  cbn [negb fst snd]. unfold JsSet.to_array.
  destruct (snapshot_fold (Store.elements store)
              (Store.selectedElementIds store)
              (set_dragStartPoint (Some worldPoint)
                 (set_transformMode (Some move) tool)))
    as (Hmode & Hstart & Hout & _).
  specialize (Hout _ Hsel).
  cbn [elementStartBounds set_dragStartPoint set_transformMode] in Hout.
  split; [done |]. split; [by rewrite Hmode |].
  split; [by rewrite Hout |].
  intros event' canvas' viewport'. unfold onPointerMove.
  rewrite Hmode, Hstart.
  cbn [transformMode dragStartPoint set_dragStartPoint set_transformMode
       fst snd].
  unfold Store.selectElement, JsSet.to_array.
  cbn [Store.selectedElementIds Store.set_selectedElementIds JsSet.of_array
       foldl JsSet.add JsSet.has].
  change (JsSet.add [] (Element.id clicked)) with [Element.id clicked].
  cbn [foldl]. by rewrite Hout, Hbounds.
Qed.

End WithMath.

Lemma onPointerDown_on_selected_snapshots_selection_witness :
  @selectedHandleAt sample_math press_point two_selected_store = None
  ∧ @findElementAtPoint sample_math (SelectTool.new None) press_point
      (Store.elements two_selected_store)
      (Store.elementOrder two_selected_store)
    = Some (Samples.sample_rect "a" 0 0 10 10)
  ∧ "a" ∈ Store.selectedElementIds two_selected_store
  ∧ elementStartBounds
      (@onPointerDown sample_math (SelectTool.new None) two_selected_store
         press_on_a origin_canvas Store.DEFAULT_VIEWPORT).1.1 !! "c"
    = Some (snapshot (Samples.sample_rect "c" 9 9 10 10)).
Proof.
  assert (Hhandle : @selectedHandleAt sample_math press_point
                      two_selected_store = None) by reflexivity.
  assert (Hfound : @findElementAtPoint sample_math (SelectTool.new None)
                     press_point (Store.elements two_selected_store)
                     (Store.elementOrder two_selected_store)
                   = Some (Samples.sample_rect "a" 0 0 10 10))
    by (vm_compute; reflexivity).
  assert (Hsel : "a" ∈ Store.selectedElementIds two_selected_store)
    by apply list_elem_of_here.
  split; [exact Hhandle |]. split; [exact Hfound |]. split; [exact Hsel |].
  refine (proj2 (proj2 (proj2
            (@onPointerDown_on_selected_snapshots_selection sample_math
               (SelectTool.new None) two_selected_store press_on_a
               origin_canvas Store.DEFAULT_VIEWPORT _
               Hhandle Hfound eq_refl Hsel))) "c" _ _ eq_refl).
  apply list_elem_of_further, list_elem_of_here.
Defined.

Lemma onPointerDown_on_unselected_takes_no_snapshot_witness :
  @selectedHandleAt sample_math press_point unselected_store = None
  ∧ @findElementAtPoint sample_math (SelectTool.new None) press_point
      (Store.elements unselected_store) (Store.elementOrder unselected_store)
    = Some (Samples.sample_rect "a" 0 0 10 10)
  ∧ ("a" ∉ Store.selectedElementIds unselected_store)
  ∧ Store.selectedElementIds
      (@onPointerDown sample_math (SelectTool.new None) unselected_store
         press_on_a origin_canvas Store.DEFAULT_VIEWPORT).1.2 = ["a"]
  ∧ elementStartBounds
      (@onPointerDown sample_math (SelectTool.new None) unselected_store
         press_on_a origin_canvas Store.DEFAULT_VIEWPORT).1.1 !! "a" = None.
Proof.
  assert (Hhandle : @selectedHandleAt sample_math press_point
                      unselected_store = None) by reflexivity.
  assert (Hfound : @findElementAtPoint sample_math (SelectTool.new None)
                     press_point (Store.elements unselected_store)
                     (Store.elementOrder unselected_store)
                   = Some (Samples.sample_rect "a" 0 0 10 10))
    by (vm_compute; reflexivity).
  assert (Hsel : "a" ∉ Store.selectedElementIds unselected_store)
    by apply not_elem_of_nil.
  split; [exact Hhandle |]. split; [exact Hfound |]. split; [exact Hsel |].
  pose proof (@onPointerDown_on_unselected_takes_no_snapshot sample_math
                (SelectTool.new None) unselected_store press_on_a
                origin_canvas Store.DEFAULT_VIEWPORT _
                Hhandle Hfound eq_refl Hsel eq_refl)
    as (Hselected & _ & Hnone & _).
  split; [exact Hselected | exact Hnone].
Defined.

End PressFacts.

(** ** The selection tool: what a resize keeps *)
Module ResizeMoreFacts.
Import SelectTool ResizeSpec NumFacts NumOrder.






End ResizeMoreFacts.

(** ** The selection tool: cursors *)
Module CursorFacts.
Import SelectTool CursorSpec NumFacts NumOrder.






End CursorFacts.

Module SessionFacts.
Import SessionSpec StoreSpec.

Lemma scene_ok_updateElement (id : string) (updates : Updates.t)
    (s : Store.t) :
  scene_ok s → scene_ok (Store.updateElement id updates s).
Proof.
  intros (Hz & Hk & Hsel). unfold Store.updateElement.
  destruct (Store.elements s !! id) as [element |] eqn:Hid; [| done].
  assert (Hsame : ∀ k,
            is_Some (<[id := Updates.apply element updates]>
                       (Store.elements s) !! k)
            ↔ is_Some (Store.elements s !! k)).
  { intros k. destruct (decide (k = id)) as [-> | Hne].
    - rewrite lookup_insert_eq, Hid. split; eauto.
    - by rewrite lookup_insert_ne. }
  split_and!.
  - destruct Hz as [Hnd Hkeys]. split; [done |].
    intros k. cbn [Store.elements Store.elementOrder Store.set_elements].
    by rewrite Hsame, <- Hkeys.
  - intros k e. cbn [Store.elements Store.set_elements].
    destruct (decide (k = id)) as [-> | Hne].
    + rewrite lookup_insert_eq. intros [= <-].
      change (Element.id element = id). by apply Hk.
    + rewrite lookup_insert_ne by done. apply Hk.
  - destruct Hsel as [Hnd Hin]. split; [done |].
    intros k Hk'. cbn [Store.elements Store.set_elements].
    apply Hsame. by apply Hin.
Qed.

Lemma scene_ok_selectElements (ids : list string) (s : Store.t) :
  scene_ok s →
  (∀ id, id ∈ ids → is_Some (Store.elements s !! id)) →
  scene_ok (Store.selectElements ids s).
Proof.
  intros (Hz & Hk & Hsel) Hids. split_and!; [done | done |].
  split.
  - apply JsSetFacts.NoDup_of_array.
  - intros id. cbn [Store.selectedElementIds Store.selectElements
                    Store.set_selectedElementIds Store.elements].
    rewrite JsSetFacts.elem_of_of_array. apply Hids.
Qed.

Lemma scene_ok_addToSelection (id : string) (s : Store.t) :
  scene_ok s → is_Some (Store.elements s !! id) →
  scene_ok (Store.addToSelection id s).
Proof.
  intros (Hz & Hk & Hnd & Hin) Hid. split_and!; [done | done |].
  split.
  - by apply JsSetFacts.NoDup_add.
  - intros k. cbn [Store.selectedElementIds Store.addToSelection
                   Store.set_selectedElementIds Store.elements].
    rewrite JsSetFacts.elem_of_add. intros [Hk' | ->]; [by apply Hin | done].
Qed.

Lemma scene_ok_clearSelection (s : Store.t) :
  scene_ok s → scene_ok (Store.clearSelection s).
Proof.
  intros (Hz & Hk & Hsel). split_and!; [done | done |].
  split; [constructor |]. intros id Hin. by apply elem_of_nil in Hin.
Qed.

Lemma scene_ok_setHoveredElement (h : option string) (s : Store.t) :
  scene_ok s → scene_ok (Store.setHoveredElement h s).
Proof. done. Qed.

Lemma scene_ok_deleteElements (ids : list string) (s : Store.t) :
  scene_ok s → scene_ok (Store.deleteElements ids s).
Proof.
  intros (Hz & Hk & Hnd & Hin). split_and!.
  - by apply ZOrderFacts.z_order_ok_deleteElements.
  - intros k e. cbn [Store.deleteElements Store.elements
                     Store.set_selectedElementIds Store.set_elementOrder
                     Store.set_elements].
    rewrite DeletionFacts.lookup_foldl_delete.
    destruct (decide (k ∈ ids)); [done | apply Hk].
  - split.
    + apply JsSetFacts.NoDup_of_array.
    + intros k. cbn [Store.deleteElements Store.elements
                     Store.selectedElementIds
                     Store.set_selectedElementIds Store.set_elementOrder
                     Store.set_elements].
      rewrite JsSetFacts.elem_of_of_array, list_elem_of_filter.
      rewrite JsSetFacts.has_false, JsSetFacts.elem_of_of_array.
      rewrite DeletionFacts.lookup_foldl_delete.
      intros [Hout Hsel]. rewrite decide_False by done. by apply Hin.
Qed.

Lemma scene_ok_addElement (element : Element.t) (s : Store.t) :
  scene_ok s → Store.elements s !! Element.id element = None →
  scene_ok (Store.addElement element s).
Proof.
  intros (Hz & Hk & Hnd & Hin) Hfresh. split_and!.
  - by apply ZOrderFacts.z_order_ok_addElement.
  - intros k e. cbn [Store.addElement Store.elements Store.set_elementOrder
                     Store.set_elements].
    destruct (decide (k = Element.id element)) as [-> | Hne].
    + rewrite lookup_insert_eq. by intros [= <-].
    + rewrite lookup_insert_ne by done. apply Hk.
  - split; [done |]. intros k Hsel.
    cbn [Store.addElement Store.elements Store.set_elementOrder
         Store.set_elements].
    destruct (decide (k = Element.id element)) as [-> | Hne].
    + rewrite lookup_insert_eq. eauto.
    + rewrite lookup_insert_ne by done. by apply Hin.
Qed.

Lemma scene_ok_initial : scene_ok Store.initial.
Proof.
  split_and!.
  - apply ZOrderFacts.z_order_ok_initial.
  - intros k e Hk. change ((∅ : gmap string Element.t) !! k = Some e) in Hk.
    by rewrite lookup_empty in Hk.
  - split; [constructor |]. intros id Hin. by apply elem_of_nil in Hin.
Qed.

Lemma scene_ok_unselected_store : scene_ok PressSamples.unselected_store.
Proof.
  apply scene_ok_clearSelection.
  apply (scene_ok_selectElements ["b"]).
  - change (scene_ok
              (Store.addElement (Samples.sample_rect "c" 9 9 10 10)
                 (Store.addElement (Samples.sample_rect "b" 5 5 10 10)
                    (Store.addElement (Samples.sample_rect "a" 0 0 10 10)
                       Store.initial)))).
    repeat (apply scene_ok_addElement; [| vm_compute; reflexivity]).
    apply scene_ok_initial.
  - intros id Hid. apply list_elem_of_singleton in Hid. subst id.
    vm_compute. eauto.
Qed.

Section WithMath.
Context `{MathLib}.

Lemma findElementAtPoint_present (tool : SelectTool.t) (point : Point.t)
    (s : Store.t) (element : Element.t) :
  keyed s →
  SelectTool.findElementAtPoint tool point (Store.elements s)
    (Store.elementOrder s) = Some element →
  Store.elements s !! Element.id element = Some element.
Proof.
  intros Hk. unfold SelectTool.findElementAtPoint.
  generalize (reverse (Store.elementOrder s)). intros ids.
  induction ids as [| id ids IH]; [done |].
  cbn [SelectTool.findTopmost].
  destruct (Store.elements s !! id) as [e |] eqn:Hid; [| exact IH].
  destruct (Element.isDeleted e); [exact IH |].
  destruct (Element.locked e); [exact IH |].
  destruct (Geometry.hitTestElement point e (SelectTool.threshold tool));
    [| exact IH].
  intros [= <-]. by rewrite (Hk _ _ Hid).
Qed.

Lemma scene_ok_onPointerDown (tool : SelectTool.t) (store : Store.t)
    (event : PointerEvent) (canvas : Canvas)
    (viewport : ViewportTransform.t) :
  scene_ok store →
  scene_ok (SelectTool.onPointerDown tool store event canvas viewport).1.2.
Proof.
  intros Hok. unfold SelectTool.onPointerDown.
  destruct (SelectTool.selectedHandleAt _ store) as [[[? ?] ?] |]; [done |].
  destruct (SelectTool.findElementAtPoint _ _ _ _) as [clicked |] eqn:Hhit.
  - cbn [fst snd].
    assert (Hin : is_Some (Store.elements store !! Element.id clicked)).
    { destruct Hok as (_ & Hk & _).
      rewrite (findElementAtPoint_present _ _ _ _ Hk Hhit). eauto. }
    destruct (shiftKey event).
    + destruct (JsSet.has _ _).
      * apply scene_ok_selectElements; [done |]. intros id.
        unfold JsSet.to_array, JsSet.delete. rewrite list_elem_of_filter.
        intros [_ Hsel]. by apply Hok.
      * by apply scene_ok_addToSelection.
    + destruct (JsSet.has _ _); [done |]. cbn [negb].
      apply scene_ok_selectElements; [done |].
      intros id Hid. apply list_elem_of_singleton in Hid. by subst.
  - cbn [fst snd]. destruct (shiftKey event); [done |].
    by apply scene_ok_clearSelection.
Qed.

Lemma scene_ok_move_all (bounds : gmap string StartBounds.t) (dx dy : num)
    (ids : list string) (s : Store.t) :
  scene_ok s →
  scene_ok
    (foldl
       (λ store id,
          match bounds !! id with
          | Some startBounds =>
              Store.updateElement id
                (SelectTool.positionUpdate (StartBounds.x startBounds + dx)%num
                                (StartBounds.y startBounds + dy)%num)
                store
          | None => store
          end)
       s ids).
Proof.
  revert s. induction ids as [| id ids IH]; intros s Hok; [done |].
  cbn [foldl]. apply IH.
  destruct (bounds !! id); [by apply scene_ok_updateElement | done].
Qed.

Lemma scene_ok_onPointerMove (tool : SelectTool.t) (store : Store.t)
    (event : PointerEvent) (canvas : Canvas)
    (viewport : ViewportTransform.t) :
  scene_ok store →
  scene_ok (SelectTool.onPointerMove tool store event canvas viewport).1.2.
Proof.
  intros Hok. unfold SelectTool.onPointerMove.
  assert (Hhover :
    scene_ok
      (match SelectTool.selectedHandleAt
               (CanvasUtils.screenToWorld
                  (clientX event - rectLeft canvas)%num
                  (clientY event - rectTop canvas)%num viewport) store with
       | Some (selectedId, selectedElement, handle) =>
           (tool, Store.setHoveredElement (Some selectedId) store,
            set_cursor
              (SelectTool.getCursorForHandle (Some handle)
                 (or_zero (Element.rotation selectedElement))) canvas)
       | None =>
           (tool,
            Store.setHoveredElement
              (Element.id <$>
               SelectTool.findElementAtPoint tool
                 (CanvasUtils.screenToWorld
                    (clientX event - rectLeft canvas)%num
                    (clientY event - rectTop canvas)%num viewport)
                 (Store.elements store) (Store.elementOrder store)) store,
            set_cursor
              match SelectTool.findElementAtPoint tool
                 (CanvasUtils.screenToWorld
                    (clientX event - rectLeft canvas)%num
                    (clientY event - rectTop canvas)%num viewport)
                 (Store.elements store) (Store.elementOrder store) with
              | Some _ => "move"
              | None => "default"
              end canvas)
       end).1.2).
  { destruct (SelectTool.selectedHandleAt _ store) as [[[? ?] ?] |]; done. }
  destruct (SelectTool.transformMode tool) as [mode |]; [| exact Hhover].
  destruct (SelectTool.dragStartPoint tool) as [dragStart |]; [| exact Hhover].
  clear Hhover.
  destruct mode.
  - cbn [fst snd]. by apply scene_ok_move_all.
  - destruct (SelectTool.activeHandle tool) as [handle |]; [| done].
    cbn [fst snd].
    destruct (SelectTool.firstSelected store) as [selectedId |]; [| done].
    cbn [mbind option_bind].
    destruct (SelectTool.elementStartBounds tool !! selectedId); [| done].
    by apply scene_ok_updateElement.
  - cbn [fst snd].
    destruct (SelectTool.firstSelected store) as [selectedId |]; [| done].
    cbn [mbind option_bind].
    destruct (Store.elements store !! selectedId); [| done].
    destruct (SelectTool.elementStartBounds tool !! selectedId); [| done].
    by apply scene_ok_updateElement.
  - done.
Qed.

Lemma intersecting_present (rectStart rectEnd : Point.t) (s : Store.t)
    (id : string) :
  id ∈ SelectTool.findElementsIntersectingRect rectStart rectEnd
         (Store.elements s) (Store.elementOrder s) →
  is_Some (Store.elements s !! id).
Proof.
  unfold SelectTool.findElementsIntersectingRect.
  rewrite list_elem_of_In, filter_In. intros [_ Hhit].
  destruct (Store.elements s !! id); [eauto | done].
Qed.

Lemma scene_ok_onPointerUp (tool : SelectTool.t) (store : Store.t)
    (event : PointerEvent) (canvas : Canvas)
    (viewport : ViewportTransform.t) :
  scene_ok store →
  scene_ok (SelectTool.onPointerUp tool store event canvas viewport).1.2.
Proof.
  intros Hok. unfold SelectTool.onPointerUp. cbn [fst snd].
  destruct (SelectTool.transformMode tool) as [[] |]; try done.
  destruct (SelectTool.dragStartPoint tool) as [dragStart |]; [| done].
  destruct (SelectTool.dragCurrentPoint tool) as [dragCurrent |]; [| done].
  destruct (0 <? length _)%nat; [| done].
  destruct (shiftKey event).
  - apply scene_ok_selectElements; [done |]. intros id.
    unfold JsSet.to_array. rewrite JsSetFacts.elem_of_foldl_add.
    intros [Hsel | Hhit]; [by apply Hok | by eapply intersecting_present].
  - apply scene_ok_selectElements; [done |]. intros id.
    apply intersecting_present.
Qed.

Lemma scene_ok_onKeyDown (tool : SelectTool.t) (store : Store.t)
    (event : KeyboardEvent) :
  scene_ok store → scene_ok (SelectTool.onKeyDown tool store event).
Proof.
  intros Hok. unfold SelectTool.onKeyDown.
  destruct (decide (key event = "a")) as [Ha | Ha].
  - rewrite Ha.
    rewrite (bool_decide_eq_false_2 ("a" = "Delete")),
      (bool_decide_eq_false_2 ("a" = "Backspace")),
      (bool_decide_eq_false_2 ("a" = "Escape")),
      (bool_decide_eq_true_2 ("a" = "a")) by done.
    cbn [orb].
    destruct (ctrlKey event || metaKey event); [| done]. cbn [andb].
    apply scene_ok_selectElements; [done |]. intros id.
    rewrite list_elem_of_In, filter_In. intros [_ Hhit].
    destruct (Store.elements store !! id); [eauto | done].
  - rewrite (bool_decide_eq_false_2 (key event = "a")) by done.
    rewrite andb_false_r.
    assert (Hdel :
      scene_ok
        (if bool_decide (key event = "Delete")
            || bool_decide (key event = "Backspace")
         then
           if (0 <? length (JsSet.to_array (Store.selectedElementIds store)))%nat
           then Store.deleteElements
                  (JsSet.to_array (Store.selectedElementIds store)) store
           else store
         else store)).
    { destruct (_ || _); [| done]. destruct (0 <? _)%nat; [| done].
      by apply scene_ok_deleteElements. }
    destruct (bool_decide (key event = "Escape")); [| done].
    by apply scene_ok_clearSelection.
Qed.

Lemma scene_ok_dispatch (state : SelectTool.t * Store.t * Canvas)
    (ev : SelectEvent) :
  scene_ok state.1.2 → scene_ok (dispatch state ev).1.2.
Proof.
  destruct state as [[tool store] canvas]. cbn [fst snd]. intros Hok.
  destruct ev; cbn [dispatch].
  - by apply scene_ok_onPointerDown.
  - by apply scene_ok_onPointerMove.
  - by apply scene_ok_onPointerUp.
  - by apply scene_ok_onKeyDown.
Qed.

(** A session with the selection tool keeps the scene consistent:
    whatever pointer and key events the canvas hands over, with whatever
    viewports, and in whatever state the tool is, a store whose z-order
    list holds the keys of the map once each, whose elements are stored
    under their own ids and whose selection names stored elements only
    is again such a store after the events. *)
Theorem session_keeps_scene_consistent (events : list SelectEvent)
    (tool : SelectTool.t) (store : Store.t) (canvas : Canvas) :
  scene_ok store →
  scene_ok (session events (tool, store, canvas)).1.2.
Proof.
  unfold session.
  change store with (tool, store, canvas).1.2 at 1.
  generalize (tool, store, canvas). clear tool store canvas.
  induction events as [| ev events IH]; intros state Hok; [done |].
  cbn [foldl]. apply IH. by apply scene_ok_dispatch.
Qed.

End WithMath.

Lemma session_keeps_scene_consistent_witness :
  scene_ok PressSamples.unselected_store
  ∧ scene_ok
      (@session GeometrySpec.sample_math sample_session
         (SelectTool.new None, PressSamples.unselected_store,
          ResizeSamples.origin_canvas)).1.2.
Proof.
  split; [exact scene_ok_unselected_store |].
  exact (@session_keeps_scene_consistent GeometrySpec.sample_math
           sample_session (SelectTool.new None) PressSamples.unselected_store
           ResizeSamples.origin_canvas scene_ok_unselected_store).
Defined.

(** the sample session selects ["a"] by the press, selects all three
    elements by the key and deletes them *)
Example sample_session_result :
  let s := (@session GeometrySpec.sample_math sample_session
              (SelectTool.new None, PressSamples.unselected_store,
               ResizeSamples.origin_canvas)).1.2 in
  Store.elementOrder s = [] ∧ Store.selectedElementIds s = []
  ∧ Store.elements s = ∅.
Proof. vm_compute. done. Qed.
End SessionFacts.

Module DrawFacts.
Import DrawSpec NumFacts NumOrder.














(** the gesture of the witness draws a circle of diameter 40 from
    (10, 10); a drag of 2 by 2 leaves nothing *)
Example ellipse_gesture_runs :
  let drawn :=
    (ellipse_gesture EllipseTool.new PressSamples.unselected_store
       (event_at 10 10 false false)
       [event_at 20 15 false true; event_at 50 40 true false]
       (event_at 50 40 false false)
       ResizeSamples.origin_canvas Store.DEFAULT_VIEWPORT "e" (lit 7)).2 in
  let clicked :=
    (ellipse_gesture EllipseTool.new PressSamples.unselected_store
       (event_at 10 10 false false) [event_at 12 12 false false]
       (event_at 12 12 false false)
       ResizeSamples.origin_canvas Store.DEFAULT_VIEWPORT "e" (lit 7)).2 in
  Store.elementOrder drawn = ["a"; "b"; "c"; "e"]
  ∧ (Element.width <$> Store.elements drawn !! "e") = Some (Fin 40)
  ∧ (Element.height <$> Store.elements drawn !! "e") = Some (Fin 40)
  ∧ (Element.x <$> Store.elements drawn !! "e") = Some (Fin 10)
  ∧ Store.elementOrder clicked = ["a"; "b"; "c"]
  ∧ Store.elements clicked !! "e" = None.
Proof. vm_compute. done. Qed.

(** *** The pen gesture *)










(** the stroke of the witness gets the box from (1, -4) to (5, 9); a
    press released at once leaves nothing *)
Example pen_gesture_runs :
  let drawn :=
    (pen_gesture PenTool.new PressSamples.unselected_store stroke_start
       stroke_moves stroke_start ResizeSamples.origin_canvas
       Store.DEFAULT_VIEWPORT "p" (lit 7)).2 in
  let clicked :=
    (pen_gesture PenTool.new PressSamples.unselected_store stroke_start
       [] stroke_start ResizeSamples.origin_canvas
       Store.DEFAULT_VIEWPORT "p" (lit 7)).2 in
  (Element.x <$> Store.elements drawn !! "p") = Some (Fin 1)
  ∧ (Element.y <$> Store.elements drawn !! "p") = Some (Fin (-4))
  ∧ (Element.width <$> Store.elements drawn !! "p") = Some (Fin 4)
  ∧ (Element.height <$> Store.elements drawn !! "p") = Some (Fin 13)
  ∧ Store.elementOrder clicked = ["a"; "b"; "c"]
  ∧ Store.elements clicked !! "p" = None.
Proof. vm_compute. done. Qed.
End DrawFacts.

Module ConstraintFacts.
Import Constraints NumFacts.

Lemma Qfloor_half (k : Z) : Qfloor (inject_Z k + (1 # 2)) = k.
Proof.
  assert (Hlo : (k <= Qfloor (inject_Z k + (1 # 2)))%Z).
  { rewrite <- (Qfloor_Z k) at 1. apply Qfloor_resp_le. lra. }
  assert (Hhi : (Qfloor (inject_Z k + (1 # 2)) < k + 1)%Z).
  { rewrite Zlt_Qlt, inject_Z_plus.
    pose proof (Qfloor_le (inject_Z k + (1 # 2))) as Hle.
    change (inject_Z 1) with 1%Q. lra. }
  lia.
Qed.

(** rounding to a positive step: the result is the whole multiple of the
    step that is nearest to the number *)
Lemma snap_Fin (x g : Q) :
  (0 < g)%Q →
  ∃ k : Z,
    (Math_round (Fin x / Fin g) * Fin g)%num = Fin (inject_Z k * g)
    ∧ (Qabs (inject_Z k * g - x) <= g / 2)%Q
    ∧ (Math_round (Fin (inject_Z k * g) / Fin g) * Fin g)%num
      =n= Fin (inject_Z k * g).
Proof.
  intros Hg. exists (Qfloor (x / g + (1 # 2))).
  rewrite !div_Fin by lra.
  cbn [Math_round num_mul]. split; [done |]. split.
  - pose proof (Qfloor_le (x / g + (1 # 2))) as Hlo.
    pose proof (Qlt_floor (x / g + (1 # 2))) as Hhi.
    rewrite inject_Z_plus in Hhi. change (inject_Z 1) with 1%Q in Hhi.
    set (k := inject_Z (Qfloor (x / g + (1 # 2)))) in *.
    assert (H1 : (k - (1 # 2) <= x / g)%Q) by lra.
    assert (H2 : ¬ (k + (1 # 2) <= x / g)%Q) by lra.
    rewrite ViewportMoreFacts.Qle_div_iff in H1, H2 by done.
    apply Qabs_Qle_condition. rewrite Qhalf. split; lra.
  - cbn [num_eq].
    assert (Hk : (inject_Z (Qfloor (x / g + (1 # 2))) * g / g + (1 # 2)
                  == inject_Z (Qfloor (x / g + (1 # 2))) + (1 # 2))%Q)
      by (field; lra).
    rewrite Hk, Qfloor_half. reflexivity.
Qed.

(** [snapToGrid] with a positive grid size puts a finite point on the
    grid point nearest to it: each coordinate becomes a whole multiple of
    the grid size at most half a grid size away, and snapping the result
    again leaves it where it is; [snapAngle] does the same to a number
    with its increment.  With the grid size 0 both coordinates are
    [NaN]. *)
Theorem snapToGrid_nearest (x y g : Q) :
  ((0 < g)%Q →
   ∃ sx sy : Q,
     snapToGrid (Point.mk (Fin x) (Fin y)) (Fin g) = Point.mk (Fin sx) (Fin sy)
     ∧ on_grid g sx ∧ on_grid g sy
     ∧ (Qabs (sx - x) <= g / 2)%Q ∧ (Qabs (sy - y) <= g / 2)%Q
     ∧ GeometrySpec.point_eq
         (snapToGrid (Point.mk (Fin sx) (Fin sy)) (Fin g))
         (Point.mk (Fin sx) (Fin sy))
     ∧ snapAngle (Fin x) (Some (Fin g)) = Fin sx)
  ∧ snapToGrid (Point.mk (Fin x) (Fin y)) (lit 0) = Point.mk NaN NaN.
Proof.
  split.
  - intros Hg.
    destruct (snap_Fin x g Hg) as (i & Hx & Hnx & Hix).
    destruct (snap_Fin y g Hg) as (j & Hy & Hny & Hiy).
    exists (inject_Z i * g)%Q, (inject_Z j * g)%Q.
    unfold snapToGrid, snapAngle. cbn [Point.x Point.y Updates.or_else].
    rewrite Hx, Hy. split; [done |].
    split; [by exists i |]. split; [by exists j |].
    split; [done |]. split; [done |]. split; [| done].
    split; cbn [Point.x Point.y]; done.
  - unfold snapToGrid. cbn [Point.x Point.y].
    assert (Hzero : ∀ q : Q, (Math_round (Fin q / lit 0) * lit 0)%num = NaN).
    { intros q. unfold num_div, lit. cbn [Qsign inject_Z Qnum Z.compare].
      by destruct (Qsign q). }
    by rewrite !Hzero.
Qed.

Lemma snapToGrid_nearest_witness :
  (0 < 15)%Q
  ∧ ∃ sx sy : Q,
      snapToGrid (Point.mk (Fin 22) (Fin (-8))) (Fin 15)
      = Point.mk (Fin sx) (Fin sy)
      ∧ on_grid 15 sx ∧ on_grid 15 sy.
Proof.
  assert (Hg : (0 < 15)%Q) by reflexivity.
  split; [exact Hg |].
  destruct (proj1 (snapToGrid_nearest 22 (-8) 15) Hg)
    as (sx & sy & Hsnap & Hx & Hy & _).
  exists sx, sy. split; [exact Hsnap |]. split; [exact Hx | exact Hy].
Defined.

(** (22, -8) on a grid of 15 goes to (15, -15); half-way points go up *)
Example snapToGrid_runs :
  GeometrySpec.point_eq (snapToGrid (Point.mk (lit 22) (lit (-8))) (lit 15))
    (Point.mk (lit 15) (lit (-15)))
  ∧ GeometrySpec.point_eq
      (snapToGrid (Point.mk (Fin (15 # 2)) (Fin (-15 # 2))) (lit 15))
      (Point.mk (lit 15) (lit 0)).
Proof. vm_compute. done. Qed.

End ConstraintFacts.
